(** * davet.link: short-key issuance and public resolution

    A shallow embedding of the link model (models/link.go), the link
    repository, the link service, the resource services that issue links
    (appointment, form, card, invitation) and the public dispatch handlers,
    followed by the properties of the key-issuance / resolution core.

    Conventions.
    - Go [uint] is [N], Go [int] is [Z]; no arithmetic on them can overflow
      in the modelled code (only comparisons with 0 and loop counters).
    - Go strings are byte strings: [string] (a list of [ascii] bytes), so
      [String.length] is Go's [len].
    - A Go function returning [(T, error)] returns [result T]; state (the
      database, the random reader, the statement trace) is threaded by the
      state monad [M].
    - [map[string]interface{}] is a [gmap string Value]. *)

From Stdlib Require Import ZArith NArith Ascii.
From stdpp Require Import gmap strings list.

Local Open Scope string_scope.
Local Open Scope N_scope.

(** ** Go basics: integers, errors, results *)

Definition uint := N.

(** Package-level error values.  [errors.Is] compares them by identity. *)
Inductive sentinel : Type :=
  | gorm_ErrRecordNotFound
  | gorm_ErrDuplicatedKey
  | io_EOF
  | repositories_ErrNotFound
  | ErrLinkNotFound
  | ErrLinkCreationFailedServ
  | ErrLinkKeyGenerationFailed
  | ErrLinkDeletionFailedServ
  | ErrLinkUpdateFailedServ
  | ErrLinkInvalidInput
  | ErrAppointmentNotFound
  | ErrAppointmentCreationFailed
  | ErrAppInvalidInput
  | ErrAppointmentNameRequired
  | ErrAppointmentDurationRequired
  | ErrAppGenericLinkError
  | ErrAppGenericTypeError
  | ErrCardNotFound
  | ErrCardCreationFailed
  | ErrCrdInvalidInput
  | ErrCardNameRequired
  | ErrCrdLinkCreationFailed
  | ErrCrdTypeNotFound
  | ErrCrdLinkUpdateFailed
  | ErrFormNotFound
  | ErrFormCreationFailed
  | ErrFrmInvalidInput
  | ErrFormTitleRequired
  | ErrFrmLinkCreationFailed
  | ErrFrmTypeNotFound
  | ErrFrmLinkUpdateFailed
  | ErrFrmPasswordHashingFailed
  | ErrInvitationNotFound.

#[global] Instance sentinel_eq_dec : EqDecision sentinel.
Proof. solve_decision. Defined.

(** The [Error()] text of each package-level value. *)
Definition sentinel_text (s : sentinel) : string :=
  match s with
  | gorm_ErrRecordNotFound => "record not found"
  | gorm_ErrDuplicatedKey => "duplicated key not allowed"
  | io_EOF => "EOF"
  | repositories_ErrNotFound => "kayıt bulunamadı" (* declared outside the sources *)
  | ErrLinkNotFound => "link bulunamadı"
  | ErrLinkCreationFailedServ => "link oluşturulamadı"
  | ErrLinkKeyGenerationFailed => "benzersiz link anahtarı üretilemedi"
  | ErrLinkDeletionFailedServ => "link silinemedi"
  | ErrLinkUpdateFailedServ => "link güncellenemedi"
  | ErrLinkInvalidInput => "geçersiz link girdisi"
  | ErrAppointmentNotFound => "randevu hizmeti bulunamadı"
  | ErrAppointmentCreationFailed => "randevu hizmeti oluşturulamadı"
  | ErrAppInvalidInput => "geçersiz girdi verisi"
  | ErrAppointmentNameRequired => "randevu hizmet adı zorunludur"
  | ErrAppointmentDurationRequired =>
      "randevu süresi (dakika) pozitif bir sayı olmalıdır"
  | ErrAppGenericLinkError => "link işlemi sırasında hata"
  | ErrAppGenericTypeError => "hizmet türü işlemi sırasında hata"
  | ErrCardNotFound => "kartvizit bulunamadı"
  | ErrCardCreationFailed => "kartvizit oluşturulamadı"
  | ErrCrdInvalidInput => "geçersiz girdi verisi"
  | ErrCardNameRequired => "isim ve soyisim zorunludur"
  | ErrCrdLinkCreationFailed => "kartvizit için link oluşturulamadı"
  | ErrCrdTypeNotFound => "kartvizit hizmet türü bulunamadı"
  | ErrCrdLinkUpdateFailed => "kartvizit linki güncellenemedi"
  | ErrFormNotFound => "form bulunamadı"
  | ErrFormCreationFailed => "form oluşturulamadı"
  | ErrFrmInvalidInput => "geçersiz girdi verisi"
  | ErrFormTitleRequired => "form başlığı zorunludur"
  | ErrFrmLinkCreationFailed => "form için link oluşturulamadı"
  | ErrFrmTypeNotFound => "form hizmet türü bulunamadı"
  | ErrFrmLinkUpdateFailed => "form linki güncellenemedi"
  | ErrFrmPasswordHashingFailed => "form şifresi oluşturulamadı"
  | ErrInvitationNotFound => "davetiye bulunamadı"
  end.

(** Go [error] values as the modelled code builds them. *)
Inductive error : Type :=
  | Sentinel (s : sentinel)
      (* a package-level error value *)
  | errors_New (text : string)
      (* errors.New(text): a fresh value, equal to no sentinel *)
  | DriverError (text : string)
      (* an error raised by the database driver, with its message *)
  | fmt_Errorf (pre : string) (wrapped : error) (post : string).
      (* fmt.Errorf(pre + "%w" + post, wrapped) *)

Coercion Sentinel : sentinel >-> error.

(** [err.Error()] *)
Fixpoint Error (e : error) : string :=
  match e with
  | Sentinel s => sentinel_text s
  | errors_New t => t
  | DriverError t => t
  | fmt_Errorf pre e' post => pre ++ Error e' ++ post
  end.

(** [errors.Is(err, target)] for a package-level [target]: follows the
    [%w] chain. *)
Fixpoint errors_Is (e : error) (target : sentinel) : bool :=
  match e with
  | Sentinel s => bool_decide (s = target)
  | errors_New _ => false
  | DriverError _ => false
  | fmt_Errorf _ e' _ => errors_Is e' target
  end.

(** [strings.Contains(s, substr)] *)
Definition strings_Contains (s substr : string) : bool :=
  match String.index 0 substr s with
  | Some _ => true
  | None => false
  end.

Inductive result (A : Type) : Type :=
  | Ok (a : A)
  | Err (e : error).
Arguments Ok {A} a.
Arguments Err {A} e.

Definition is_Err {A} (r : result A) : bool :=
  match r with Ok _ => false | Err _ => true end.

(** ** Package models: the data model *)

Module models.

(** [time.Time], as nanoseconds since the epoch (UTC). *)
Definition Time := Z.

(** [t.After(u)] *)
Definition Time_After (t u : Time) : bool := (u <? t)%Z.

(** Modelled from the spec: [BaseModel] (models/base_model.go is not part
    of the sources).  The spec gives every record a surrogate identity
    assigned at insertion and a soft-delete timestamp; the other audit
    columns (creation/update timestamps and actor ids) are read by no
    modelled function and are left out. *)
Record BaseModel : Type := mkBaseModel {
  ID : uint;
  DeletedAt : option Time
}.

Definition zeroBase : BaseModel := mkBaseModel 0 None.

(** models/type.go ([Type] is a reserved word, hence [Type_]). *)
Record Type_ : Type := mkType {
  Type_Base : BaseModel;
  Name : string;
  Description : string
}.

Definition zeroType : Type_ := mkType zeroBase EmptyString EmptyString.

Definition TypeNameAppointment : string := "APPOINTMENT".
Definition TypeNameCard : string := "CARD".
Definition TypeNameForm : string := "FORM".
Definition TypeNameInvitation : string := "INVITATION".

(** models/link.go, as in the file that carries the hooks (20-character
    keys).  The [Creator] association is never loaded by the modelled code
    and is left out. *)
Record Link : Type := mkLink {
  Link_Base : BaseModel;
  Key : string;
  TypeID : uint;
  TargetID : uint;
  CreatorUserID : uint;
  Link_Type : Type_
}.

Definition zeroLink : Link := mkLink zeroBase EmptyString 0 0 0 zeroType.

Definition Link_with_Key (k : string) (l : Link) : Link :=
  mkLink (Link_Base l) k (TypeID l) (TargetID l) (CreatorUserID l) (Link_Type l).
Definition Link_with_TypeID (n : uint) (l : Link) : Link :=
  mkLink (Link_Base l) (Key l) n (TargetID l) (CreatorUserID l) (Link_Type l).
Definition Link_with_TargetID (n : uint) (l : Link) : Link :=
  mkLink (Link_Base l) (Key l) (TypeID l) n (CreatorUserID l) (Link_Type l).
Definition Link_with_CreatorUserID (n : uint) (l : Link) : Link :=
  mkLink (Link_Base l) (Key l) (TypeID l) (TargetID l) n (Link_Type l).
Definition Link_with_Type (t : Type_) (l : Link) : Link :=
  mkLink (Link_Base l) (Key l) (TypeID l) (TargetID l) (CreatorUserID l) t.
Definition Link_with_Base (b : BaseModel) (l : Link) : Link :=
  mkLink b (Key l) (TypeID l) (TargetID l) (CreatorUserID l) (Link_Type l).

(** models/appointment_detail.go: the fields read by the validation and
    by the public lookup. *)
Record AppointmentDetail : Type := mkAppointmentDetail {
  AppointmentDetail_Name : string;
  DurationMinutes : Z;
  BufferTimeBefore : Z;
  BufferTimeAfter : Z;
  BookingLeadTime : Z;
  BookingHorizonDays : Z;
  AppointmentDetail_PasswordHash : string;
  AppointmentDetail_ExpiresAt : option Time
}.

(** models/appointment.go.  The detail row is kept with its owner. *)
Record Appointment : Type := mkAppointment {
  Appointment_Base : BaseModel;
  Appointment_LinkID : uint;
  ProviderUserID : uint;
  Appointment_OrganizationID : option uint;
  Appointment_IsEnabled : bool;
  Appointment_Link : Link;
  Appointment_Detail : AppointmentDetail
}.

(** models/form_detail.go *)
Record FormDetail : Type := mkFormDetail {
  FormDetail_Title : string;
  SubmissionLimit : option Z;
  LimitPerUser : option Z;
  ClosesAt : option Time;
  FormDetail_PasswordHash : string
}.

Definition FormDetail_with_PasswordHash (h : string) (d : FormDetail) :=
  mkFormDetail (FormDetail_Title d) (SubmissionLimit d) (LimitPerUser d)
               (ClosesAt d) h.

(** models/form.go *)
Record Form : Type := mkForm {
  Form_Base : BaseModel;
  Form_LinkID : uint;
  Form_CreatorUserID : uint;
  Form_OrganizationID : option uint;
  Form_IsEnabled : bool;
  Form_Link : Link;
  Form_Detail : FormDetail
}.

(** models/card_detail.go: a card has no expiry and no password field. *)
Record CardDetail : Type := mkCardDetail {
  FirstName : string;
  LastName : string
}.

(** models/card.go *)
Record Card : Type := mkCard {
  Card_Base : BaseModel;
  Card_LinkID : uint;
  Card_CreatorUserID : uint;
  Card_OrganizationID : option uint;
  Card_IsEnabled : bool;
  Card_Link : Link;
  Card_Detail : CardDetail
}.

(** models/invitation_detail.go *)
Record InvitationDetail : Type := mkInvitationDetail {
  InvitationDetail_Title : string;
  InvitationDetail_PasswordHash : string;
  InvitationDetail_ExpiresAt : option Time
}.

(** models/invitation.go *)
Record Invitation : Type := mkInvitation {
  Invitation_Base : BaseModel;
  Invitation_LinkID : uint;
  Invitation_CreatorUserID : uint;
  Invitation_OrganizationID : option uint;
  Invitation_IsEnabled : bool;
  Invitation_Link : Link;
  Invitation_Detail : InvitationDetail
}.

End models.
Export models.


(** ** The database as gorm presents it

    A [*gorm.DB] handle is bound either to the connection pool (every
    statement commits on its own) or to the open transaction.  The world
    keeps the committed tables and, while a transaction is open, the tables
    as that transaction sees them. *)

Inductive DB : Type := Pool | Tx.

Inductive TableName : Type :=
  t_links | t_types | t_appointments | t_forms | t_cards | t_invitations.

#[global] Instance TableName_eq_dec : EqDecision TableName.
Proof. solve_decision. Defined.

Inductive Verb : Type := SELECT | COUNT | INSERT | UPDATE | BEGIN | COMMIT | ROLLBACK.

(** One statement sent to the store. *)
Record Stmt : Type := mkStmt {
  stmt_db : DB;
  stmt_verb : Verb;
  stmt_table : option TableName
}.

Record Tables : Type := mkTables {
  links : list Link;
  types : list Type_;
  appointments : list Appointment;
  forms : list Form;
  cards : list Card;
  invitations : list Invitation
}.

Record World : Type := mkWorld {
  committed : Tables;               (* rows visible to every connection *)
  txview : option Tables;           (* rows as the open transaction sees them *)
  sequences : TableName -> uint;    (* last id handed out per table *)
  reader : list (option N);         (* crypto/rand.Reader: the coming draws,
                                       [None] is a failing read *)
  statements : list Stmt;           (* every statement sent so far, oldest first *)
  faults : nat -> option string;    (* statement number n fails with this
                                       driver message (connection lost, ...) *)
  TranslateError : bool;            (* gorm.Config.TranslateError *)
  now : Time;                       (* time.Now().UTC() *)
  bcrypt : string -> option string  (* bcrypt.GenerateFromPassword *)
}.

Definition with_committed (t : Tables) (w : World) : World :=
  mkWorld t (txview w) (sequences w) (reader w) (statements w) (faults w)
          (TranslateError w) (now w) (bcrypt w).
Definition with_txview (t : option Tables) (w : World) : World :=
  mkWorld (committed w) t (sequences w) (reader w) (statements w) (faults w)
          (TranslateError w) (now w) (bcrypt w).
Definition with_sequences (s : TableName -> uint) (w : World) : World :=
  mkWorld (committed w) (txview w) s (reader w) (statements w) (faults w)
          (TranslateError w) (now w) (bcrypt w).
Definition with_reader (r : list (option N)) (w : World) : World :=
  mkWorld (committed w) (txview w) (sequences w) r (statements w) (faults w)
          (TranslateError w) (now w) (bcrypt w).
Definition with_statements (s : list Stmt) (w : World) : World :=
  mkWorld (committed w) (txview w) (sequences w) (reader w) s (faults w)
          (TranslateError w) (now w) (bcrypt w).

(** The state monad of the embedding. *)
Definition M (A : Type) : Type := World -> A * World.

Definition ret {A} (a : A) : M A := fun w => (a, w).
Definition bind {A B} (c : M A) (k : A -> M B) : M B :=
  fun w => let (a, w') := c w in k a w'.
Definition get : M World := fun w => (w, w).
Definition modify (f : World -> World) : M unit := fun w => (tt, f w).

Declare Scope go_scope.
Delimit Scope go_scope with go.
Notation "x <- c ;; k" := (bind c (fun x => k))
  (at level 20, c at level 99, k at level 200) : go_scope.
Notation "c ;;; k" := (bind c (fun _ => k))
  (at level 100, k at level 200, right associativity) : go_scope.
Local Open Scope go_scope.

(** What a handle reads, and where it writes.  A write through the pool is
    committed at once, and the open transaction sees it from its next
    statement on (read committed). *)
Definition view (db : DB) (w : World) : Tables :=
  match db with
  | Pool => committed w
  | Tx => default (committed w) (txview w)
  end.

Definition write (db : DB) (f : Tables -> Tables) (w : World) : World :=
  match db with
  | Pool => with_txview (f <$> txview w) (with_committed (f (committed w)) w)
  | Tx =>
      match txview w with
      | Some t => with_txview (Some (f t)) w
      | None => with_committed (f (committed w)) w
      end
  end.

(** Send a statement: it is recorded, and fails if the fault schedule says
    so. *)
Definition exec (db : DB) (v : Verb) (t : option TableName) : M (option error) :=
  fun w =>
    (DriverError <$> faults w (length (statements w)),
     with_statements (statements w ++ [mkStmt db v t]) w).

Definition nextval (t : TableName) : M uint :=
  fun w =>
    let id := sequences w t + 1 in
    (id, with_sequences (fun t' => if decide (t' = t) then id else sequences w t') w).

(** The error of a violated unique index, as gorm hands it on. *)
Definition duplicate_error (w : World) : error :=
  if TranslateError w then Sentinel gorm_ErrDuplicatedKey
  else DriverError
         "ERROR: duplicate key value violates unique constraint (SQLSTATE 23505)".

(** A table of the schema: where its rows live, its embedded [BaseModel],
    and its unique indexes besides the primary key. *)
Class Schema (T : Type) : Type := {
  table : TableName;
  rows : Tables -> list T;
  with_rows : list T -> Tables -> Tables;
  base : T -> BaseModel;
  with_base : BaseModel -> T -> T;
  unique_conflict : T -> T -> bool
}.

Section Gorm.
Context {T : Type} `{Schema T}.

(** gorm's soft-delete scope: [deleted_at IS NULL]. *)
Definition live (x : T) : bool :=
  match DeletedAt (base x) with None => true | Some _ => false end.

(** [ORDER BY id LIMIT 1] *)
Definition first_by_id (l : list T) : option T :=
  foldr (fun x acc =>
           match acc with
           | Some y => if ID (base y) <? ID (base x) then Some y else Some x
           | None => Some x
           end) None l.

(** [db.Where(cond).First(&x)] *)
Definition gorm_First (db : DB) (cond : T -> bool) : M (result T) :=
  fault <- exec db SELECT (Some table) ;;
  match fault with
  | Some e => ret (Err e)
  | None =>
      w <- get ;;
      match first_by_id (List.filter (fun x => live x && cond x) (rows (view db w))) with
      | Some x => ret (Ok x)
      | None => ret (Err gorm_ErrRecordNotFound)
      end
  end.

(** [db.Model(&T{}).Where(cond).Count(&n)] *)
Definition gorm_Count (db : DB) (cond : T -> bool) : M (result N) :=
  fault <- exec db COUNT (Some table) ;;
  match fault with
  | Some e => ret (Err e)
  | None =>
      w <- get ;;
      ret (Ok (N.of_nat (length (List.filter (fun x => live x && cond x)
                                             (rows (view db w))))))
  end.

(** The INSERT of [db.Create(&x)], after the hooks: a zero id is taken from
    the sequence; the primary key and the unique indexes are checked against
    every stored row, soft-deleted ones included. *)
Definition gorm_insert (db : DB) (x : T) : M (result T) :=
  fault <- exec db INSERT (Some table) ;;
  match fault with
  | Some e => ret (Err e)
  | None =>
      id <- (if ID (base x) =? 0 then nextval table else ret (ID (base x))) ;;
      w <- get ;;
      let x' := with_base (mkBaseModel id (DeletedAt (base x))) x in
      if existsb (fun y => (ID (base y) =? id) || unique_conflict x' y)
                 (rows (view db w))
      then ret (Err (duplicate_error w))
      else modify (write db (fun t => with_rows (rows t ++ [x']) t)) ;;;
           ret (Ok x')
  end.

End Gorm.

#[global] Instance Schema_Link : Schema Link := {|
  table := t_links;
  rows := links;
  with_rows l t := mkTables l (types t) (appointments t) (forms t) (cards t) (invitations t);
  base := Link_Base;
  with_base := Link_with_Base;
  unique_conflict x y := String.eqb (Key x) (Key y)
|}.

#[global] Instance Schema_Type : Schema Type_ := {|
  table := t_types;
  rows := types;
  with_rows l t := mkTables (links t) l (appointments t) (forms t) (cards t) (invitations t);
  base := Type_Base;
  with_base b x := mkType b (Name x) (Description x);
  unique_conflict x y := String.eqb (Name x) (Name y)
|}.

#[global] Instance Schema_Appointment : Schema Appointment := {|
  table := t_appointments;
  rows := appointments;
  with_rows l t := mkTables (links t) (types t) l (forms t) (cards t) (invitations t);
  base := Appointment_Base;
  with_base b x :=
    mkAppointment b (Appointment_LinkID x) (ProviderUserID x)
      (Appointment_OrganizationID x) (Appointment_IsEnabled x)
      (Appointment_Link x) (Appointment_Detail x);
  unique_conflict x y := Appointment_LinkID x =? Appointment_LinkID y
|}.

#[global] Instance Schema_Form : Schema Form := {|
  table := t_forms;
  rows := forms;
  with_rows l t := mkTables (links t) (types t) (appointments t) l (cards t) (invitations t);
  base := Form_Base;
  with_base b x :=
    mkForm b (Form_LinkID x) (Form_CreatorUserID x) (Form_OrganizationID x)
      (Form_IsEnabled x) (Form_Link x) (Form_Detail x);
  unique_conflict x y := Form_LinkID x =? Form_LinkID y
|}.

#[global] Instance Schema_Card : Schema Card := {|
  table := t_cards;
  rows := cards;
  with_rows l t := mkTables (links t) (types t) (appointments t) (forms t) l (invitations t);
  base := Card_Base;
  with_base b x :=
    mkCard b (Card_LinkID x) (Card_CreatorUserID x) (Card_OrganizationID x)
      (Card_IsEnabled x) (Card_Link x) (Card_Detail x);
  unique_conflict x y := Card_LinkID x =? Card_LinkID y
|}.

#[global] Instance Schema_Invitation : Schema Invitation := {|
  table := t_invitations;
  rows := invitations;
  with_rows l t := mkTables (links t) (types t) (appointments t) (forms t) (cards t) l;
  base := Invitation_Base;
  with_base b x :=
    mkInvitation b (Invitation_LinkID x) (Invitation_CreatorUserID x)
      (Invitation_OrganizationID x) (Invitation_IsEnabled x)
      (Invitation_Link x) (Invitation_Detail x);
  unique_conflict x y := Invitation_LinkID x =? Invitation_LinkID y
|}.

(** [db.Transaction(fc)]: begin, run [fc] on the transaction handle, commit
    when it returns no error and roll back otherwise.  What the Go closure
    hands out through captured variables is the value of [Ok]. *)
Definition gorm_Transaction {A} (fc : DB -> M (result A)) : M (result A) :=
  fault <- exec Pool BEGIN None ;;
  match fault with
  | Some e => ret (Err e)
  | None =>
      modify (fun w => with_txview (Some (committed w)) w) ;;;
      r <- fc Tx ;;
      match r with
      | Err e =>
          exec Pool ROLLBACK None ;;;
          modify (with_txview None) ;;;
          ret (Err e)
      | Ok a =>
          fault <- exec Pool COMMIT None ;;
          match fault with
          | Some e => modify (with_txview None) ;;; ret (Err e)
          | None =>
              modify (fun w => with_txview None
                                 (with_committed (default (committed w) (txview w)) w)) ;;;
              ret (Ok a)
          end
      end
  end.

Section GormFind.
Context {T : Type} `{Schema T}.

(** [db.Where(cond).Find(&xs)], the query behind [Preload]. *)
Definition gorm_Find (db : DB) (cond : T -> bool) : M (result (list T)) :=
  fault <- exec db SELECT (Some table) ;;
  match fault with
  | Some e => ret (Err e)
  | None =>
      w <- get ;;
      ret (Ok (List.filter (fun x => live x && cond x) (rows (view db w))))
  end.

End GormFind.

(** ** crypto/rand

    [rand.Int(rand.Reader, max)] returns a value in [[0, max)] or the error
    of the reader.  A draw of the reader is the raw entropy; the reduction
    below [max] is the library's. *)
Definition rand_Int (max : N) : M (result N) :=
  fun w =>
    match reader w with
    | Some raw :: rd => (Ok (raw mod max), with_reader rd w)
    | None :: rd => (Err (errors_New "crypto/rand: reader failed"), with_reader rd w)
    | [] => (Err io_EOF, w)
    end.

(** ** models/link.go: key generation and the hooks *)

Definition charsetForLink : string :=
  "abcdefghijklmnopqrstuvwxyzABCDEFGHIJKLMNOPQRSTUVWXYZ0123456789".

(** [s[i]]; the index is always in range where the code indexes (see
    [rand_Int_lt]), the default byte is never returned there. *)
Definition byte_at (s : string) (i : N) : ascii :=
  default "000"%char (String.get (N.to_nat i) s).

(** The loop [for i := range b] of the generator, byte [i] first. *)
Fixpoint fill_bytes (max : N) (n : nat) : M (result string) :=
  match n with
  | O => ret (Ok EmptyString)
  | S n' =>
      r <- rand_Int max ;;
      match r with
      | Err err => ret (Err (fmt_Errorf "random index generation failed: " err EmptyString))
      | Ok randIndex =>
          rest <- fill_bytes max n' ;;
          match rest with
          | Err e => ret (Err e)
          | Ok s => ret (Ok (String (byte_at charsetForLink randIndex) s))
          end
      end
  end.

Definition generateSecureRandomStringForLink (length : Z) : M (result string) :=
  if (length <=? 0)%Z then ret (Err (errors_New "length must be positive"))
  else fill_bytes (N.of_nat (String.length charsetForLink)) (Z.to_nat length).

(** The retry loop of [BeforeCreate], with [n] attempts left. *)
Fixpoint BeforeCreate_loop (tx : DB) (l : Link) (n : nat) : M (result Link) :=
  match n with
  | O =>
      ret (Err (errors_New
                  "benzersiz link anahtarı üretilemedi (maksimum deneme aşıldı)"))
  | S n' =>
      g <- generateSecureRandomStringForLink 20 ;;
      match g with
      | Err keyErr =>
          ret (Err (fmt_Errorf "güvenli anahtar üretilemedi: " keyErr EmptyString))
      | Ok generatedKey =>
          c <- gorm_Count tx (fun x : Link => String.eqb (Key x) generatedKey) ;;
          match c with
          | Err countErr =>
              ret (Err (fmt_Errorf "anahtar kontrol edilemedi: " countErr EmptyString))
          | Ok count =>
              if count =? 0 then ret (Ok (Link_with_Key generatedKey l))
              else BeforeCreate_loop tx l n'
          end
      end
  end.

Definition maxAttempts : nat := 10.

(** [func (l *Link) BeforeCreate(tx *gorm.DB) error]; the link it returns
    is [*l] after the hook. *)
Definition Link_BeforeCreate (tx : DB) (l : Link) : M (result Link) :=
  if negb (String.eqb (Key l) EmptyString) then ret (Ok l)
  else BeforeCreate_loop tx l maxAttempts.

(** The dynamic values the code puts in an update map. *)
Inductive Value : Type :=
  | VString (s : string)
  | VUint (n : uint).

#[global] Instance Value_eq_dec : EqDecision Value.
Proof. solve_decision. Defined.

(** [gorm.Statement] of an update: the value given to [Model] and the map
    given to [Updates]. *)
Record Statement : Type := mkStatement {
  Statement_Model : Link;
  Statement_Dest : gmap string Value
}.

(** [tx.Statement.Changed("Key")].  gorm looks the field up in the update
    map, by field name and then by column name, and reports a change when
    the map's value differs from the field of the MODEL VALUE of the
    statement, not of the stored row. *)
Definition Statement_Changed_Key (st : Statement) : bool :=
  let fieldValue := VString (Key (Statement_Model st)) in
  match Statement_Dest st !! "Key" with
  | Some fv => negb (bool_decide (fv = fieldValue))
  | None =>
      match Statement_Dest st !! "key" with
      | Some fv => negb (bool_decide (fv = fieldValue))
      | None => false
      end
  end.

(** [func (l *Link) BeforeUpdate(tx *gorm.DB) error] *)
Definition Link_BeforeUpdate (st : Statement) : result unit :=
  if Statement_Changed_Key st
  then Err (errors_New "link anahtarı (Key) değiştirilemez")
  else Ok tt.

(** [db.Create(&link)]: the hook, then the INSERT. *)
Definition gorm_Create_Link (db : DB) (l : Link) : M (result Link) :=
  h <- Link_BeforeCreate db l ;;
  match h with
  | Err e => ret (Err e)
  | Ok l' => gorm_insert db l'
  end.

(** The value an update map gives to a column, named by its field name or
    by its column name. *)
Definition column (data : gmap string Value) (field dbname : string)
  : result (option Value) :=
  match data !! field, data !! dbname with
  | Some _, Some _ =>
      Err (DriverError "ERROR: multiple assignments to same column (SQLSTATE 42601)")
  | Some v, None => Ok (Some v)
  | None, Some v => Ok (Some v)
  | None, None => Ok None
  end.

Definition as_string (c : result (option Value)) (old : string) : result string :=
  match c with
  | Err e => Err e
  | Ok None => Ok old
  | Ok (Some (VString s)) => Ok s
  | Ok (Some (VUint _)) => Err (DriverError "ERROR: cannot encode value for column")
  end.

Definition as_uint (c : result (option Value)) (old : uint) : result uint :=
  match c with
  | Err e => Err e
  | Ok None => Ok old
  | Ok (Some (VUint n)) => Ok n
  | Ok (Some (VString _)) => Err (DriverError "ERROR: cannot encode value for column")
  end.

Definition link_columns : list string :=
  ["Key"; "key"; "TypeID"; "type_id"; "TargetID"; "target_id";
   "CreatorUserID"; "creator_user_id"].

(** The SET clause of [Updates(data)] applied to one row.  Only the columns
    of the [Link] struct itself are modelled; any other name is rejected as
    an unknown column. *)
Definition set_columns (data : gmap string Value) (l : Link) : result Link :=
  if negb (forallb (fun kv => bool_decide (fst kv ∈ link_columns)) (map_to_list data))
  then Err (DriverError "ERROR: column does not exist (SQLSTATE 42703)")
  else
    match as_string (column data "Key" "key") (Key l),
          as_uint (column data "TypeID" "type_id") (TypeID l),
          as_uint (column data "TargetID" "target_id") (TargetID l),
          as_uint (column data "CreatorUserID" "creator_user_id") (CreatorUserID l) with
    | Ok k, Ok ty, Ok ta, Ok cr =>
        Ok (mkLink (Link_Base l) k ty ta cr (Link_Type l))
    | Err e, _, _, _ => Err e
    | _, Err e, _, _ => Err e
    | _, _, Err e, _ => Err e
    | _, _, _, Err e => Err e
    end.

Definition update_row (data : gmap string Value) (cond : Link -> bool) (l : Link) : Link :=
  if live l && cond l
  then match set_columns data l with Ok l' => l' | Err _ => l end
  else l.

Definition count_key (k : string) (ls : list Link) : nat :=
  length (List.filter (fun y => String.eqb (Key y) k) ls).

(** [db.Model(&model).Where(cond).Updates(data)] on the links table: the
    [BeforeUpdate] hook, then the UPDATE of the live rows that match.  It
    returns [RowsAffected]. *)
Definition gorm_Updates_Link (db : DB) (model : Link) (cond : Link -> bool)
    (data : gmap string Value) : M (result N) :=
  match Link_BeforeUpdate (mkStatement model data) with
  | Err e => ret (Err e)
  | Ok _ =>
      fault <- exec db UPDATE (Some t_links) ;;
      match fault with
      | Some e => ret (Err e)
      | None =>
          w <- get ;;
          let rs := links (view db w) in
          match set_columns data model with
          | Err e => ret (Err e)
          | Ok _ =>
              let rs' := map (update_row data cond) rs in
              if existsb (fun r => live r && cond r
                                   && negb (String.eqb (Key (update_row data cond r)) (Key r))
                                   && (1 <? count_key (Key (update_row data cond r)) rs')%nat)
                         rs
              then ret (Err (duplicate_error w))
              else
                modify (write db (fun t => with_rows (map (update_row data cond) (links t)) t)) ;;;
                ret (Ok (N.of_nat (length (List.filter (fun r => live r && cond r) rs))))
          end
      end
  end.

(** [db.Transaction(fc)] on either handle.  On the pool it is
    [gorm_Transaction].  On the transaction handle gorm nests: it sets a
    savepoint (recorded as a BEGIN on that handle), runs [fc] on the same
    handle and, when [fc] returns an error, rolls back to the savepoint
    (recorded as a ROLLBACK on that handle), which restores the rows the
    transaction saw at the savepoint. *)
Definition gorm_Transaction_on {A} (db : DB) (fc : DB -> M (result A)) : M (result A) :=
  match db with
  | Pool => gorm_Transaction fc
  | Tx =>
      fault <- exec Tx BEGIN None ;;
      match fault with
      | Some e => ret (Err e)
      | None =>
          w0 <- get ;;
          r <- fc Tx ;;
          match r with
          | Err e =>
              exec Tx ROLLBACK None ;;;
              modify (with_txview (txview w0)) ;;;
              ret (Err e)
          | Ok a => ret (Ok a)
          end
      end
  end.

(** [tx.Model(link).UpdateColumn("deleted_by", &id)]: an UPDATE of an audit
    column, without hooks; none of the modelled fields changes. *)
Definition gorm_UpdateColumn_deleted_by (db : DB) (link : Link) : M (result unit) :=
  fault <- exec db UPDATE (Some t_links) ;;
  match fault with
  | Some e => ret (Err e)
  | None => ret (Ok tt)
  end.

(** The rows a statement on the model value [link] addresses: the live ones
    with its primary key. *)
Definition addressed (link : Link) (l : Link) : bool :=
  live l && (ID (Link_Base l) =? ID (Link_Base link)).

Definition soft_delete (t : Time) (link : Link) (l : Link) : Link :=
  if addressed link l
  then Link_with_Base (mkBaseModel (ID (Link_Base l)) (Some t)) l
  else l.

(** [tx.Delete(link)] on a model with a soft-delete column: the UPDATE that
    stamps [deleted_at] on the live row with the link's id.  It returns
    [RowsAffected]. *)
Definition gorm_Delete_Link (db : DB) (link : Link) : M (result N) :=
  fault <- exec db UPDATE (Some t_links) ;;
  match fault with
  | Some e => ret (Err e)
  | None =>
      w <- get ;;
      modify (write db (fun t => with_rows (map (soft_delete (now w) link) (links t)) t)) ;;;
      ret (Ok (N.of_nat (length (List.filter (addressed link) (links (view db w))))))
  end.

(** ** Package repositories *)

Module repositories.

(** [context.Context], with the two values the code looks up: ["tx"] and
    [contextUserIDKey]. *)
Record Context : Type := mkContext {
  ctx_tx : option DB;
  ctx_userID : option uint
}.

Definition context_Background : Context := mkContext None None.

(** [context.WithValue(ctx, models.contextUserIDKey, userID)] *)
Definition contextWithUserID (ctx : Context) (userID : uint) : Context :=
  mkContext (ctx_tx ctx) (Some userID).

Record LinkRepository : Type := mkLinkRepository { LinkRepository_db : DB }.

(** [configs.GetDB()] is the connection pool. *)
Definition NewLinkRepository : LinkRepository := mkLinkRepository Pool.
Definition NewLinkRepositoryTx (tx : DB) : LinkRepository := mkLinkRepository tx.

Definition LinkRepository_getDB (r : LinkRepository) (ctx : Context) : DB :=
  match ctx_tx ctx with
  | Some tx => tx
  | None => LinkRepository_db r
  end.

(** [Create]; the pointer argument is never nil at a call site, the link
    returned is [*link] after the call (id and key filled in). *)
Definition LinkRepository_Create (r : LinkRepository) (ctx : Context) (link : Link)
  : M (result Link) :=
  gorm_Create_Link (LinkRepository_getDB r ctx) link.

(** [Preload("Type")] on a link read from the table. *)
Definition preload_Type (db : DB) (l : Link) : M (result Link) :=
  ts <- gorm_Find db (fun t : Type_ => ID (Type_Base t) =? TypeID l) ;;
  match ts with
  | Err e => ret (Err e)
  | Ok [] => ret (Ok (Link_with_Type zeroType l))
  | Ok (t :: _) => ret (Ok (Link_with_Type t l))
  end.

Definition LinkRepository_FindByKey (r : LinkRepository) (ctx : Context) (key : string)
  : M (result Link) :=
  if String.eqb key EmptyString then ret (Err (errors_New "aranacak link key'i boş olamaz"))
  else
    let db := LinkRepository_getDB r ctx in
    f <- gorm_First db (fun l : Link => String.eqb (Key l) key) ;;
    found <- match f with
             | Err e => ret (Err e)
             | Ok l => preload_Type db l
             end ;;
    match found with
    | Err err =>
        if errors_Is err gorm_ErrRecordNotFound
        then ret (Err gorm_ErrRecordNotFound)
        else ret (Err err)
    | Ok link => ret (Ok link)
    end.

Definition LinkRepository_Update (r : LinkRepository) (ctx : Context) (id : uint)
    (data : gmap string Value) (updatedByUserID : uint) : M (result unit) :=
  if id =? 0 then ret (Err (errors_New "güncellenecek link ID'si geçersiz"))
  else if (size data =? 0)%nat then ret (Err (errors_New "güncellenecek veri boş olamaz"))
  else
    let ctxWithUser := contextWithUserID ctx updatedByUserID in
    let db := LinkRepository_getDB r ctxWithUser in
    let by_id := fun l : Link => ID (Link_Base l) =? id in
    result <- gorm_Updates_Link db zeroLink by_id data ;;
    match result with
    | Err e => ret (Err e)
    | Ok RowsAffected =>
        if RowsAffected =? 0 then
          c <- gorm_Count db by_id ;;
          match c with
          | Ok 0 => ret (Err gorm_ErrRecordNotFound)
          | _ => ret (Ok tt)
          end
        else ret (Ok tt)
    end.

Definition LinkRepository_FindByID (r : LinkRepository) (ctx : Context) (id : uint)
  : M (result Link) :=
  if id =? 0 then ret (Err (errors_New "geçersiz Link ID"))
  else
    let db := LinkRepository_getDB r ctx in
    f <- gorm_First db (fun l : Link => ID (Link_Base l) =? id) ;;
    found <- match f with
             | Err e => ret (Err e)
             | Ok l => preload_Type db l
             end ;;
    match found with
    | Err err =>
        if errors_Is err gorm_ErrRecordNotFound
        then ret (Err gorm_ErrRecordNotFound)
        else ret (Err err)
    | Ok link => ret (Ok link)
    end.

Definition LinkRepository_KeyExists (r : LinkRepository) (ctx : Context) (key : string)
  : M (result bool) :=
  if String.eqb key EmptyString
  then ret (Err (errors_New "kontrol edilecek link key'i boş olamaz"))
  else
    c <- gorm_Count (LinkRepository_getDB r ctx)
           (fun l : Link => String.eqb (Key l) key) ;;
    match c with
    | Err err => ret (Err err)
    | Ok count => ret (Ok (0 <? count))
    end.

(** The closure [Delete] hands to [db.Transaction]. *)
Definition LinkRepository_Delete_tx (link : Link) (deletedByUserID : uint) (tx : DB)
  : M (result unit) :=
  u <- (if negb (deletedByUserID =? 0)
        then gorm_UpdateColumn_deleted_by tx link
        else ret (Ok tt)) ;;
  match u with
  | Err err => ret (Err err)
  | Ok _ =>
      result <- gorm_Delete_Link tx link ;;
      match result with
      | Err e => ret (Err e)
      | Ok RowsAffected =>
          if RowsAffected =? 0 then ret (Err gorm_ErrRecordNotFound)
          else ret (Ok tt)
      end
  end.

(** [Delete]: a soft delete inside a transaction of its own. *)
Definition LinkRepository_Delete (r : LinkRepository) (ctx : Context) (link : Link)
    (deletedByUserID : uint) : M (result unit) :=
  if ID (Link_Base link) =? 0 then ret (Err (errors_New "silinecek link geçerli değil"))
  else
    gorm_Transaction_on (LinkRepository_getDB r ctx)
      (LinkRepository_Delete_tx link deletedByUserID).

(** The resource repositories share one shape; what differs is the table
    and the texts. *)
Class Resource (T : Type) : Type := {
  LinkID_of : T -> uint;
  with_Link : Link -> T -> T
}.

#[global] Instance Resource_Appointment : Resource Appointment := {|
  LinkID_of := Appointment_LinkID;
  with_Link l x :=
    mkAppointment (Appointment_Base x) (Appointment_LinkID x) (ProviderUserID x)
      (Appointment_OrganizationID x) (Appointment_IsEnabled x) l (Appointment_Detail x)
|}.

#[global] Instance Resource_Form : Resource Form := {|
  LinkID_of := Form_LinkID;
  with_Link l x :=
    mkForm (Form_Base x) (Form_LinkID x) (Form_CreatorUserID x)
      (Form_OrganizationID x) (Form_IsEnabled x) l (Form_Detail x)
|}.

#[global] Instance Resource_Card : Resource Card := {|
  LinkID_of := Card_LinkID;
  with_Link l x :=
    mkCard (Card_Base x) (Card_LinkID x) (Card_CreatorUserID x)
      (Card_OrganizationID x) (Card_IsEnabled x) l (Card_Detail x)
|}.

#[global] Instance Resource_Invitation : Resource Invitation := {|
  LinkID_of := Invitation_LinkID;
  with_Link l x :=
    mkInvitation (Invitation_Base x) (Invitation_LinkID x) (Invitation_CreatorUserID x)
      (Invitation_OrganizationID x) (Invitation_IsEnabled x) l (Invitation_Detail x)
|}.

Section ResourceRepository.
Context {T : Type} `{Schema T} `{Resource T}.

Record Repository : Type := mkRepository { Repository_db : DB }.

Definition Repository_getDB (r : Repository) (ctx : Context) : DB :=
  match ctx_tx ctx with
  | Some tx => tx
  | None => Repository_db r
  end.

(** [Create]: the guard on the link id, then [db.Create]. *)
Definition Repository_Create (msg : string) (r : Repository) (ctx : Context) (x : T)
  : M (result T) :=
  if LinkID_of x =? 0 then ret (Err (errors_New msg))
  else gorm_insert (Repository_getDB r ctx) x.

(** [Preload("Link.Type")] *)
Definition preload_Link_Type (db : DB) (x : T) : M (result T) :=
  ls <- gorm_Find db (fun l : Link => ID (Link_Base l) =? LinkID_of x) ;;
  match ls with
  | Err e => ret (Err e)
  | Ok [] => ret (Ok (with_Link zeroLink x))
  | Ok (l :: _) =>
      t <- preload_Type db l ;;
      match t with
      | Err e => ret (Err e)
      | Ok l' => ret (Ok (with_Link l' x))
      end
  end.

(** [db.Preload("Detail").Preload("Link.Type").First(&x, id)] *)
Definition First_with_preloads (db : DB) (id : uint) : M (result T) :=
  f <- gorm_First db (fun x : T => ID (base x) =? id) ;;
  match f with
  | Err e => ret (Err e)
  | Ok x => preload_Link_Type db x
  end.

(** [FindByID] of the appointment, form and invitation repositories. *)
Definition Repository_FindByID (msg : string) (r : Repository) (ctx : Context) (id : uint)
  : M (result T) :=
  if id =? 0 then ret (Err (errors_New msg))
  else
    f <- First_with_preloads (Repository_getDB r ctx) id ;;
    match f with
    | Err err =>
        if errors_Is err gorm_ErrRecordNotFound
        then ret (Err repositories_ErrNotFound)
        else ret (Err err)
    | Ok x => ret (Ok x)
    end.

End ResourceRepository.

Definition NewAppointmentRepository : Repository := mkRepository Pool.
Definition NewAppointmentRepositoryTx (tx : DB) : Repository := mkRepository tx.
Definition AppointmentRepository_Create :
    Repository -> Context -> Appointment -> M (result Appointment) :=
  Repository_Create
    "geçersiz veya eksik link bilgisi olan randevu hizmeti oluşturulamaz".
Definition AppointmentRepository_FindByID :
    Repository -> Context -> uint -> M (result Appointment) :=
  Repository_FindByID "geçersiz Appointment ID".

Definition NewFormRepository : Repository := mkRepository Pool.
Definition NewFormRepositoryTx (tx : DB) : Repository := mkRepository tx.
Definition FormRepository_Create :
    Repository -> Context -> Form -> M (result Form) :=
  Repository_Create "geçersiz veya eksik link bilgisi olan form oluşturulamaz".
Definition FormRepository_FindByID :
    Repository -> Context -> uint -> M (result Form) :=
  Repository_FindByID "geçersiz Form ID".

Definition NewInvitationRepository : Repository := mkRepository Pool.
Definition InvitationRepository_FindByID :
    Repository -> Context -> uint -> M (result Invitation) :=
  Repository_FindByID "geçersiz Invitation ID".

(** repositories/card_repository.go.  The card repository reads through its
    own [db] field (no context) and creates through the generic base
    repository.

    Modelled from the spec: [BaseRepository.Create] (the generic base
    repository is not part of the sources) is the store's plain insert on
    the handle the base repository was built with. *)
Definition NewCardRepository : Repository := mkRepository Pool.
Definition NewCardRepositoryTx (tx : DB) : Repository := mkRepository tx.

Definition CardRepository_GetCardByID (r : Repository) (id : uint) : M (result Card) :=
  f <- First_with_preloads (Repository_db r) id ;;
  match f with
  | Err err =>
      if errors_Is err gorm_ErrRecordNotFound
      then ret (Err repositories_ErrNotFound)
      else ret (Err err)
  | Ok x => ret (Ok x)
  end.

Definition CardRepository_CreateCard (r : Repository) (ctx : Context) (card : Card)
  : M (result Card) :=
  gorm_insert (Repository_db r) card.

(** Modelled from the spec: the type repository and the type service
    (neither is part of the sources) look a [Type] up by its name in the
    static lookup table, on the pool. *)
Definition TypeRepository_FindByName (name : string) : M (result Type_) :=
  gorm_First Pool (fun t : Type_ => String.eqb (Name t) name).

End repositories.
Export repositories.

(** ** Package services *)

Module services.

(** *** services/link_service.go *)

Record LinkService : Type := mkLinkService { LinkService_repo : LinkRepository }.

Definition NewLinkService : LinkService := mkLinkService NewLinkRepository.

Definition LinkService_CreateLink (s : LinkService) (ctx : Context)
    (creatorUserID typeID : uint) : M (result Link) :=
  if (typeID =? 0) || (creatorUserID =? 0)
  then ret (Err (fmt_Errorf EmptyString ErrLinkInvalidInput
                            ": geçersiz typeID veya creatorUserID"))
  else
    let ctxWithUser := contextWithUserID ctx creatorUserID in
    let link := mkLink zeroBase EmptyString typeID 0 creatorUserID zeroType in
    r <- LinkRepository_Create (LinkService_repo s) ctxWithUser link ;;
    match r with
    | Err err =>
        if errors_Is err gorm_ErrDuplicatedKey
           || strings_Contains (Error err)
                "duplicate key value violates unique constraint"
        then ret (Err ErrLinkKeyGenerationFailed)
        else ret (Err ErrLinkCreationFailedServ)
    | Ok link => ret (Ok link)
    end.

Definition LinkService_GetLinkByKey (s : LinkService) (ctx : Context) (key : string)
  : M (result Link) :=
  r <- LinkRepository_FindByKey (LinkService_repo s) ctx key ;;
  match r with
  | Err err =>
      if errors_Is err gorm_ErrRecordNotFound then ret (Err ErrLinkNotFound)
      else ret (Err err)
  | Ok link => ret (Ok link)
  end.

Definition LinkService_UpdateLinkTarget (s : LinkService) (ctx : Context)
    (updatingUserID linkID targetID : uint) : M (result unit) :=
  if (linkID =? 0) || (targetID =? 0) || (updatingUserID =? 0)
  then ret (Err (fmt_Errorf EmptyString ErrLinkInvalidInput
                            ": geçersiz linkID, targetID veya updatingUserID"))
  else
    let updateData : gmap string Value := {[ "target_id" := VUint targetID ]} in
    r <- LinkRepository_Update (LinkService_repo s) ctx linkID updateData updatingUserID ;;
    match r with
    | Err err =>
        if errors_Is err gorm_ErrRecordNotFound then ret (Err ErrLinkNotFound)
        else ret (Err ErrLinkUpdateFailedServ)
    | Ok _ => ret (Ok tt)
    end.

Definition LinkService_GetLinkByID (s : LinkService) (ctx : Context) (id : uint)
  : M (result Link) :=
  r <- LinkRepository_FindByID (LinkService_repo s) ctx id ;;
  match r with
  | Err err =>
      if errors_Is err gorm_ErrRecordNotFound then ret (Err ErrLinkNotFound)
      else ret (Err err)
  | Ok link => ret (Ok link)
  end.

Definition LinkService_DeleteLink (s : LinkService) (ctx : Context)
    (deletingUserID linkID : uint) : M (result unit) :=
  if (linkID =? 0) || (deletingUserID =? 0)
  then ret (Err (fmt_Errorf EmptyString ErrLinkInvalidInput
                            ": geçersiz linkID veya deletingUserID"))
  else
    f <- LinkRepository_FindByID (LinkService_repo s) ctx linkID ;;
    match f with
    | Err err =>
        if errors_Is err gorm_ErrRecordNotFound then ret (Err ErrLinkNotFound)
        else ret (Err err)
    | Ok link =>
        d <- LinkRepository_Delete (LinkService_repo s) ctx link deletingUserID ;;
        match d with
        | Err err =>
            if errors_Is err gorm_ErrRecordNotFound then ret (Err ErrLinkNotFound)
            else ret (Err ErrLinkDeletionFailedServ)
        | Ok _ => ret (Ok tt)
        end
    end.

(** Modelled from the spec: [TypeService.GetTypeByName] (the type service
    is not part of the sources) reads the static type table. *)
Definition TypeService_GetTypeByName (name : string) : M (result Type_) :=
  TypeRepository_FindByName name.

(** *** The appointment service (second file of services/link_service.go) *)

Record AppointmentService : Type := mkAppointmentService {
  AppointmentService_repo : Repository;
  AppointmentService_linkService : LinkService
}.

(** The service's [db] field is [configs.GetDB()], the pool, on which
    [gorm_Transaction] begins. *)
Definition NewAppointmentService : AppointmentService :=
  mkAppointmentService NewAppointmentRepository NewLinkService.

Definition ValidateAppointmentDetail (detail : AppointmentDetail) : result unit :=
  if String.eqb (AppointmentDetail_Name detail) EmptyString then Err ErrAppointmentNameRequired
  else if (DurationMinutes detail <=? 0)%Z then Err ErrAppointmentDurationRequired
  else if (BookingLeadTime detail <? 0)%Z
  then Err (fmt_Errorf EmptyString ErrAppInvalidInput ": rezervasyon öncesi süre negatif olamaz")
  else if (BookingHorizonDays detail <=? 0)%Z
  then Err (fmt_Errorf EmptyString ErrAppInvalidInput ": rezervasyon ufku pozitif olmalı")
  else if (BufferTimeBefore detail <? 0)%Z || (BufferTimeAfter detail <? 0)%Z
  then Err (fmt_Errorf EmptyString ErrAppInvalidInput ": tampon süreler negatif olamaz")
  else Ok tt.

(** The closure handed to [s.db.Transaction] by [CreateAppointment]. *)
Definition CreateAppointment_tx (s : AppointmentService) (ctx : Context)
    (providerUserID : uint) (orgID : option uint) (detailData : AppointmentDetail)
    (appointmentType : Type_) (tx : DB) : M (result Appointment) :=
  let txCtx := contextWithUserID ctx providerUserID in
  let linkRepoTx := NewLinkRepositoryTx tx in
  let appointmentRepoTx := NewAppointmentRepositoryTx tx in
  lr <- LinkService_CreateLink (AppointmentService_linkService s) txCtx
          providerUserID (ID (Type_Base appointmentType)) ;;
  match lr with
  | Err _ => ret (Err ErrAppGenericLinkError)
  | Ok link =>
      let appointment :=
        mkAppointment zeroBase (ID (Link_Base link)) providerUserID orgID true
                      zeroLink detailData in
      cr <- AppointmentRepository_Create appointmentRepoTx txCtx appointment ;;
      match cr with
      | Err _ => ret (Err ErrAppointmentCreationFailed)
      | Ok appointment =>
          ur <- LinkService_UpdateLinkTarget (AppointmentService_linkService s) txCtx
                  providerUserID (ID (Link_Base link)) (ID (Appointment_Base appointment)) ;;
          match ur with
          | Err _ => ret (Err ErrAppGenericLinkError)
          | Ok _ =>
              let link' :=
                if ID (Type_Base (Link_Type link)) =? 0
                then Link_with_Type appointmentType link else link in
              ret (Ok (with_Link link' appointment))
          end
      end
  end.

Definition AppointmentService_CreateAppointment (s : AppointmentService) (ctx : Context)
    (providerUserID : uint) (orgID : option uint) (detailData : AppointmentDetail)
  : M (result Appointment) :=
  match ValidateAppointmentDetail detailData with
  | Err err => ret (Err (fmt_Errorf EmptyString ErrAppInvalidInput (": " ++ Error err)))
  | Ok _ =>
      if providerUserID =? 0
      then ret (Err (fmt_Errorf EmptyString ErrAppInvalidInput ": Geçersiz sağlayıcı kullanıcı ID"))
      else
        t <- TypeService_GetTypeByName TypeNameAppointment ;;
        match t with
        | Err _ => ret (Err ErrAppGenericTypeError)
        | Ok appointmentType =>
            gorm_Transaction
              (CreateAppointment_tx s ctx providerUserID orgID detailData appointmentType)
        end
  end.

Definition AppointmentService_GetAppointmentByKey (s : AppointmentService)
    (ctx : Context) (key : string) : M (result Appointment) :=
  if String.eqb key EmptyString then ret (Err ErrAppointmentNotFound)
  else
    lr <- LinkService_GetLinkByKey (AppointmentService_linkService s) ctx key ;;
    match lr with
    | Err err =>
        if errors_Is err ErrLinkNotFound then ret (Err ErrAppointmentNotFound)
        else ret (Err err)
    | Ok link =>
        if negb (String.eqb (Name (Link_Type link)) TypeNameAppointment)
        then ret (Err ErrAppointmentNotFound)
        else
          ar <- AppointmentRepository_FindByID (AppointmentService_repo s) ctx
                  (TargetID link) ;;
          match ar with
          | Err err =>
              if errors_Is err repositories_ErrNotFound
              then ret (Err ErrAppointmentNotFound)
              else ret (Err err)
          | Ok appointment =>
              w <- get ;;
              if negb (Appointment_IsEnabled appointment)
              then ret (Err ErrAppointmentNotFound)
              else
                match AppointmentDetail_ExpiresAt (Appointment_Detail appointment) with
                | Some ExpiresAt =>
                    if Time_After (now w) ExpiresAt
                    then ret (Err ErrAppointmentNotFound)
                    else ret (Ok appointment)
                | None => ret (Ok appointment)
                end
          end
    end.

(** *** The form service (second file of services/card_service.go) *)

Record FormService : Type := mkFormService {
  FormService_repo : Repository;
  FormService_linkService : LinkService
}.

Definition NewFormService : FormService :=
  mkFormService NewFormRepository NewLinkService.

Definition ValidateFormDetail (detail : FormDetail) : result unit :=
  if String.eqb (FormDetail_Title detail) EmptyString then Err ErrFormTitleRequired
  else if match SubmissionLimit detail with Some n => (n <? 0)%Z | None => false end
  then Err (fmt_Errorf EmptyString ErrFrmInvalidInput ": gönderim limiti negatif olamaz")
  else if match LimitPerUser detail with Some n => (n <? 0)%Z | None => false end
  then Err (fmt_Errorf EmptyString ErrFrmInvalidInput ": kullanıcı başına limit negatif olamaz")
  else Ok tt.

(** The closure handed to [s.db.Transaction] by [CreateForm]. *)
Definition CreateForm_tx (s : FormService) (ctx : Context) (creatorUserID : uint)
    (orgID : option uint) (detailData : FormDetail) (formType : Type_) (tx : DB)
  : M (result Form) :=
  let txCtx := contextWithUserID ctx creatorUserID in
  let linkRepoTx := NewLinkRepositoryTx tx in
  let formRepoTx := NewFormRepositoryTx tx in
  lr <- LinkService_CreateLink (FormService_linkService s) txCtx creatorUserID
          (ID (Type_Base formType)) ;;
  match lr with
  | Err _ => ret (Err ErrFrmLinkCreationFailed)
  | Ok link =>
      let form :=
        mkForm zeroBase (ID (Link_Base link)) creatorUserID orgID true zeroLink
               detailData in
      cr <- FormRepository_Create formRepoTx txCtx form ;;
      match cr with
      | Err _ => ret (Err ErrFormCreationFailed)
      | Ok form =>
          let updateData : gmap string Value :=
            {[ "target_id" := VUint (ID (Form_Base form)) ]} in
          ur <- LinkRepository_Update linkRepoTx txCtx (ID (Link_Base link)) updateData
                  creatorUserID ;;
          match ur with
          | Err _ => ret (Err ErrFrmLinkUpdateFailed)
          | Ok _ =>
              let link' :=
                if ID (Type_Base (Link_Type link)) =? 0
                then Link_with_Type formType link else link in
              ret (Ok (with_Link link' form))
          end
      end
  end.

Definition FormService_CreateForm (s : FormService) (ctx : Context)
    (creatorUserID : uint) (orgID : option uint) (detailData : FormDetail)
  : M (result Form) :=
  match ValidateFormDetail detailData with
  | Err err => ret (Err (fmt_Errorf EmptyString ErrFrmInvalidInput (": " ++ Error err)))
  | Ok _ =>
      if creatorUserID =? 0
      then ret (Err (fmt_Errorf EmptyString ErrFrmInvalidInput ": Geçersiz oluşturan kullanıcı ID"))
      else
        t <- TypeService_GetTypeByName TypeNameForm ;;
        match t with
        | Err _ => ret (Err ErrFrmTypeNotFound)
        | Ok formType =>
            w <- get ;;
            let hashed :=
              if negb (String.eqb (FormDetail_PasswordHash detailData) EmptyString)
              then match bcrypt w (FormDetail_PasswordHash detailData) with
                   | Some h => Ok (FormDetail_with_PasswordHash h detailData)
                   | None => Err (Sentinel ErrFrmPasswordHashingFailed)
                   end
              else Ok detailData in
            match hashed with
            | Err e => ret (Err e)
            | Ok detailData =>
                gorm_Transaction
                  (CreateForm_tx s ctx creatorUserID orgID detailData formType)
            end
        end
  end.

Definition FormService_GetFormByKey (s : FormService) (ctx : Context) (key : string)
  : M (result Form) :=
  if String.eqb key EmptyString then ret (Err ErrFormNotFound)
  else
    lr <- LinkService_GetLinkByKey (FormService_linkService s) ctx key ;;
    match lr with
    | Err _ => ret (Err ErrFormNotFound)
    | Ok link =>
        if negb (String.eqb (Name (Link_Type link)) TypeNameForm)
        then ret (Err ErrFormNotFound)
        else
          fr <- FormRepository_FindByID (FormService_repo s) ctx (TargetID link) ;;
          match fr with
          | Err err => ret (Err err)
          | Ok form =>
              w <- get ;;
              if negb (Form_IsEnabled form) then ret (Err ErrFormNotFound)
              else
                match ClosesAt (Form_Detail form) with
                | Some closesAt =>
                    if Time_After (now w) closesAt then ret (Err ErrFormNotFound)
                    else ret (Ok form)
                | None => ret (Ok form)
                end
          end
    end.

(** *** services/card_service.go *)

Record CardService : Type := mkCardService {
  CardService_repo : Repository;
  CardService_linkRepo : LinkRepository
}.

Definition NewCardService : CardService :=
  mkCardService NewCardRepository NewLinkRepository.

Definition ValidateCardDetail (detail : CardDetail) : result unit :=
  if String.eqb (FirstName detail) EmptyString || String.eqb (LastName detail) EmptyString
  then Err ErrCardNameRequired
  else Ok tt.

(** Modelled from the spec: [utils.GenerateSecureRandomString] (package
    utils is not part of the sources) is the key generator of the spec,
    section 4.1: [length] characters of the 62-symbol alphabet from the
    secure source, or the source's error. *)
Definition utils_GenerateSecureRandomString (length : Z) : M (result string) :=
  generateSecureRandomStringForLink length.

Definition maxKeyAttempts : nat := 5.

(** The key loop of [CreateCard], with [n] attempts left; [Ok EmptyString] is the
    loop running out with [linkKey] still empty. *)
Fixpoint CreateCard_key_loop (tx : DB) (n : nat) : M (result string) :=
  match n with
  | O => ret (Ok EmptyString)
  | S n' =>
      g <- utils_GenerateSecureRandomString 20 ;;
      match g with
      | Err _ => ret (Err ErrCrdLinkCreationFailed)
      | Ok keyAttempt =>
          c <- gorm_Count tx (fun x : Link => String.eqb (Key x) keyAttempt) ;;
          match c with
          | Err _ => ret (Err ErrCrdLinkCreationFailed)
          | Ok count =>
              if count =? 0 then ret (Ok keyAttempt)
              else CreateCard_key_loop tx n'
          end
      end
  end.

(** The closure handed to [s.db.Transaction] by [CreateCard]. *)
Definition CreateCard_tx (s : CardService) (ctx : Context) (creatorUserID : uint)
    (detailData : CardDetail) (cardType : Type_) (tx : DB) : M (result Card) :=
  let txCtx := contextWithUserID ctx creatorUserID in
  let linkRepoTx := NewLinkRepositoryTx tx in
  let cardRepoTx := NewCardRepositoryTx tx in
  kr <- CreateCard_key_loop tx maxKeyAttempts ;;
  match kr with
  | Err e => ret (Err e)
  | Ok linkKey =>
      if String.eqb linkKey EmptyString then ret (Err ErrCrdLinkCreationFailed)
      else
        let link := mkLink zeroBase linkKey (ID (Type_Base cardType)) 0 creatorUserID
                           zeroType in
        lr <- LinkRepository_Create linkRepoTx txCtx link ;;
        match lr with
        | Err _ => ret (Err ErrCrdLinkCreationFailed)
        | Ok link =>
            let card := mkCard zeroBase (ID (Link_Base link)) creatorUserID None true
                               zeroLink detailData in
            cr <- CardRepository_CreateCard cardRepoTx txCtx card ;;
            match cr with
            | Err _ => ret (Err ErrCardCreationFailed)
            | Ok card =>
                let updateData : gmap string Value :=
                  {[ "target_id" := VUint (ID (Card_Base card)) ]} in
                ur <- LinkRepository_Update linkRepoTx txCtx (ID (Link_Base link))
                        updateData creatorUserID ;;
                match ur with
                | Err _ => ret (Err ErrCrdLinkUpdateFailed)
                | Ok _ => ret (Ok (with_Link (Link_with_Type cardType link) card))
                end
            end
        end
  end.

Definition CardService_CreateCard (s : CardService) (ctx : Context)
    (creatorUserID : uint) (detailData : CardDetail) : M (result Card) :=
  match ValidateCardDetail detailData with
  | Err err => ret (Err (fmt_Errorf EmptyString ErrCrdInvalidInput (": " ++ Error err)))
  | Ok _ =>
      if creatorUserID =? 0
      then ret (Err (fmt_Errorf EmptyString ErrCrdInvalidInput ": Geçersiz oluşturan kullanıcı ID"))
      else
        t <- TypeRepository_FindByName TypeNameCard ;;
        match t with
        | Err _ => ret (Err ErrCrdTypeNotFound)
        | Ok cardType =>
            gorm_Transaction (CreateCard_tx s ctx creatorUserID detailData cardType)
        end
  end.

Definition CardService_GetCardByKey (s : CardService) (ctx : Context) (key : string)
  : M (result Card) :=
  if String.eqb key EmptyString then ret (Err ErrCardNotFound)
  else
    lr <- LinkRepository_FindByKey (CardService_linkRepo s) ctx key ;;
    match lr with
    | Err err =>
        if errors_Is err gorm_ErrRecordNotFound then ret (Err ErrCardNotFound)
        else ret (Err err)
    | Ok link =>
        if negb (String.eqb (Name (Link_Type link)) TypeNameCard)
        then ret (Err ErrCardNotFound)
        else
          cr <- CardRepository_GetCardByID (CardService_repo s) (TargetID link) ;;
          match cr with
          | Err err =>
              if errors_Is err repositories_ErrNotFound then ret (Err ErrCardNotFound)
              else ret (Err err)
          | Ok card =>
              if negb (Card_IsEnabled card) then ret (Err ErrCardNotFound)
              else ret (Ok card)
          end
    end.

(** *** The invitation service: the public lookup *)

Record InvitationService : Type := mkInvitationService {
  InvitationService_repo : Repository;
  InvitationService_linkService : LinkService
}.

Definition NewInvitationService : InvitationService :=
  mkInvitationService NewInvitationRepository NewLinkService.

Definition InvitationService_GetInvitationByKey (s : InvitationService)
    (ctx : Context) (key : string) : M (result Invitation) :=
  if String.eqb key EmptyString then ret (Err ErrInvitationNotFound)
  else
    lr <- LinkService_GetLinkByKey (InvitationService_linkService s) ctx key ;;
    match lr with
    | Err err =>
        if errors_Is err ErrLinkNotFound then ret (Err ErrInvitationNotFound)
        else ret (Err err)
    | Ok link =>
        if negb (String.eqb (Name (Link_Type link)) TypeNameInvitation)
        then ret (Err ErrInvitationNotFound)
        else
          ir <- InvitationRepository_FindByID (InvitationService_repo s) ctx
                  (TargetID link) ;;
          match ir with
          | Err err =>
              if errors_Is err repositories_ErrNotFound
              then ret (Err ErrInvitationNotFound)
              else ret (Err err)
          | Ok invitation =>
              w <- get ;;
              if negb (Invitation_IsEnabled invitation)
              then ret (Err ErrInvitationNotFound)
              else
                match InvitationDetail_ExpiresAt (Invitation_Detail invitation) with
                | Some ExpiresAt =>
                    if Time_After (now w) ExpiresAt
                    then ret (Err ErrInvitationNotFound)
                    else ret (Ok invitation)
                | None => ret (Ok invitation)
                end
          end
    end.

End services.
Export services.

(** ** Package handlers: the public dispatch *)

Module handlers.

(** What a handler sends: the status, the template rendered or the text
    sent, the message and the resource bound to the template. *)
Inductive Payload : Type :=
  | NoPayload
  | InvitationPayload (i : Invitation)
  | AppointmentPayload (a : Appointment)
  | FormPayload (f : Form)
  | CardPayload (c : Card).

Record Response : Type := mkResponse {
  StatusCode : N;
  Body : string;
  Message : string;
  Bound : Payload
}.

Definition StatusOK : N := 200.
Definition StatusNotFound : N := 404.
Definition StatusInternalServerError : N := 500.

Record LinkHandler : Type := mkLinkHandler {
  linkService : LinkService;
  invitationService : InvitationService;
  appointmentService : AppointmentService;
  formService : FormService;
  cardService : CardService
}.

Definition NewLinkHandler : LinkHandler :=
  mkLinkHandler NewLinkService NewInvitationService NewAppointmentService
                NewFormService NewCardService.

Definition renderNotFound (message : string) : Response :=
  mkResponse StatusNotFound "errors/404" message NoPayload.

Definition renderError (message : string) : Response :=
  mkResponse StatusInternalServerError "errors/500" message NoPayload.

(** [LinkHandler.HandleLink]; [key] is [c.Params("key")] and [ctx] is
    [c.UserContext()].  The invitation branch calls the invitation
    service's public by-key lookup, [GetInvitationByKey] (the call site
    names it [GetCardByKey], a method the invitation service does not
    have). *)
Definition LinkHandler_HandleLink (h : LinkHandler) (ctx : Context) (key : string)
  : M Response :=
  if negb (String.length key =? 20)%nat then ret (renderNotFound "Geçersiz Link")
  else
    lr <- LinkService_GetLinkByKey (linkService h) ctx key ;;
    match lr with
    | Err err =>
        if errors_Is err ErrLinkNotFound then ret (renderNotFound "Link Bulunamadı")
        else ret (renderError "Link bilgileri alınırken bir sorun oluştu.")
    | Ok link =>
        let name := Name (Link_Type link) in
        if String.eqb name TypeNameInvitation then
          r <- InvitationService_GetInvitationByKey (invitationService h) ctx key ;;
          match r with
          | Err invErr =>
              if errors_Is invErr ErrInvitationNotFound
              then ret (renderNotFound "Davetiye Bulunamadı")
              else ret (renderError "Davetiye yüklenirken bir sorun oluştu.")
          | Ok invitation =>
              ret (mkResponse StatusOK "public/invitation_view" EmptyString
                              (InvitationPayload invitation))
          end
        else if String.eqb name TypeNameAppointment then
          r <- AppointmentService_GetAppointmentByKey (appointmentService h) ctx key ;;
          match r with
          | Err appErr =>
              if errors_Is appErr ErrAppointmentNotFound
              then ret (renderNotFound "Randevu Hizmeti Bulunamadı")
              else ret (renderError "Randevu hizmeti yüklenirken bir sorun oluştu.")
          | Ok appointment =>
              ret (mkResponse StatusOK "public/appointment_booking" EmptyString
                              (AppointmentPayload appointment))
          end
        else if String.eqb name TypeNameForm then
          r <- FormService_GetFormByKey (formService h) ctx key ;;
          match r with
          | Err formErr =>
              if errors_Is formErr ErrFormNotFound
              then ret (renderNotFound "Form Bulunamadı")
              else ret (renderError "Form yüklenirken bir sorun oluştu.")
          | Ok form => ret (mkResponse StatusOK "public/form_fill" EmptyString (FormPayload form))
          end
        else if String.eqb name TypeNameCard then
          r <- CardService_GetCardByKey (cardService h) ctx key ;;
          match r with
          | Err cardErr =>
              if errors_Is cardErr ErrCardNotFound
              then ret (renderNotFound "Kartvizit Bulunamadı")
              else ret (renderError "Kartvizit yüklenirken bir sorun oluştu.")
          | Ok card => ret (mkResponse StatusOK "public/card_view" EmptyString (CardPayload card))
          end
        else ret (renderNotFound "Geçersiz Link Türü")
    end.

(** [PublicLinkHandler.HandleLink], the handler the router mounts on
    [GET /:key]. *)
Definition PublicLinkHandler_HandleLink (h : LinkHandler) (ctx : Context) (key : string)
  : M Response :=
  if negb (String.length key =? 20)%nat
  then ret (mkResponse StatusNotFound "Geçersiz link formatı." EmptyString NoPayload)
  else
    lr <- LinkService_GetLinkByKey (linkService h) ctx key ;;
    match lr with
    | Err err =>
        if errors_Is err ErrLinkNotFound
        then ret (mkResponse StatusNotFound "errors/404" EmptyString NoPayload)
        else ret (mkResponse StatusInternalServerError
                             "Link bilgileri alınırken bir hata oluştu." EmptyString NoPayload)
    | Ok link =>
        let name := Name (Link_Type link) in
        if String.eqb name TypeNameInvitation then
          r <- InvitationService_GetInvitationByKey (invitationService h) ctx key ;;
          match r with
          | Err invErr =>
              if errors_Is invErr ErrInvitationNotFound
              then ret (mkResponse StatusNotFound "errors/404" EmptyString NoPayload)
              else ret (mkResponse StatusInternalServerError
                                   "Davetiye yüklenirken hata." EmptyString NoPayload)
          | Ok invitation =>
              ret (mkResponse StatusOK "public/invitation_view" EmptyString
                              (InvitationPayload invitation))
          end
        else if String.eqb name TypeNameAppointment then
          r <- AppointmentService_GetAppointmentByKey (appointmentService h) ctx key ;;
          match r with
          | Err _ => ret (mkResponse StatusNotFound EmptyString EmptyString NoPayload)
          | Ok appointment =>
              ret (mkResponse StatusOK "public/appointment_booking" EmptyString
                              (AppointmentPayload appointment))
          end
        else if String.eqb name TypeNameForm then
          r <- FormService_GetFormByKey (formService h) ctx key ;;
          match r with
          | Err _ => ret (mkResponse StatusNotFound EmptyString EmptyString NoPayload)
          | Ok form => ret (mkResponse StatusOK "public/form_fill" EmptyString (FormPayload form))
          end
        else if String.eqb name TypeNameCard then
          r <- CardService_GetCardByKey (cardService h) ctx key ;;
          match r with
          | Err _ => ret (mkResponse StatusNotFound EmptyString EmptyString NoPayload)
          | Ok card => ret (mkResponse StatusOK "public/card_view" EmptyString (CardPayload card))
          end
        else ret (mkResponse StatusNotFound "Geçersiz link türü." EmptyString NoPayload)
    end.

End handlers.
Export handlers.

(** ** Package seeders *)

Module seeders.

Definition typesToSeed : list Type_ :=
  [mkType zeroBase TypeNameInvitation "Dijital Davetiye Hizmeti";
   mkType zeroBase TypeNameAppointment "Online Randevu Hizmeti";
   mkType zeroBase TypeNameForm "Online Form Hizmeti";
   mkType zeroBase TypeNameCard "Dijital Kartvizit Hizmeti"].

(** The loop of [SeedTypes] over the types still to seed, carrying
    [createdCount] and [errorOccurred]. *)
Fixpoint SeedTypes_loop (db : DB) (todo : list Type_) (createdCount : Z)
    (errorOccurred : bool) : M (Z * bool) :=
  match todo with
  | [] => ret (createdCount, errorOccurred)
  | typeToSeed :: rest =>
      result <- gorm_First db (fun t : Type_ => String.eqb (Name t) (Name typeToSeed)) ;;
      match result with
      | Ok _ => SeedTypes_loop db rest createdCount errorOccurred
      | Err e =>
          if negb (errors_Is e gorm_ErrRecordNotFound)
          then SeedTypes_loop db rest createdCount true
          else
            c <- gorm_insert db typeToSeed ;;
            match c with
            | Err _ => SeedTypes_loop db rest createdCount true
            | Ok _ => SeedTypes_loop db rest (createdCount + 1)%Z errorOccurred
            end
      end
  end.

Definition SeedTypes (db : DB) : M (result unit) :=
  r <- SeedTypes_loop db typesToSeed 0%Z false ;;
  if snd r
  then ret (Err (errors_New "hizmet türleri seed edilirken en az bir hata oluştu"))
  else ret (Ok tt).

End seeders.
Export seeders.

(** * Vocabulary of the properties, and sample worlds *)

(** The alphabet of the spec: a-z, A-Z, 0-9. *)
Definition alnum (c : ascii) : bool :=
  let n := N_of_ascii c in
  ((97 <=? n) && (n <=? 122)) || ((65 <=? n) && (n <=? 90)) || ((48 <=? n) && (n <=? 57)).
Arguments alnum : simpl never.

(** Whether the next [n] draws of the reader all succeed. *)
Definition draws_ok (n : nat) (rd : list (option N)) : Prop :=
  forall i, (i < n)%nat -> exists raw, rd !! i = Some (Some raw).

Definition emptyTables : Tables := mkTables [] [] [] [] [] [].

(** A sample world: the given committed tables and coming draws, no open
    transaction, no faults, the clock at 1000. *)
Definition world_of (t : Tables) (rd : list (option N)) : World :=
  mkWorld t None (fun _ => 100) rd [] (fun _ => None) false 1000%Z (fun p => Some ("$2a$" ++ p)).

(** The database part of a world. *)
Definition store (w : World) : Tables * option Tables := (committed w, txview w).

(** The condition [key = ?] of the existence check. *)
Definition key_is (k : string) : Link -> bool := fun x => String.eqb (Key x) k.

(** One attempt that collides: a candidate is generated and the existence
    check counts at least one row with that key. *)
Definition attempt_collides (tx : DB) (w w' : World) : Prop :=
  exists key w1 count,
    generateSecureRandomStringForLink 20 w = (Ok key, w1) /\
    gorm_Count tx (key_is key) w1 = (Ok count, w') /\
    count <> 0.

(** [n] attempts in a row that all collide, from world [w] to world [w']. *)
Fixpoint attempts_collide (tx : DB) (n : nat) (w w' : World) : Prop :=
  match n with
  | O => w' = w
  | S n' => exists w1, attempt_collides tx w w1 /\ attempts_collide tx n' w1 w'
  end.

(** The error of the hook when the bound is exhausted. *)
Definition KeyExhaustionError : error :=
  errors_New "benzersiz link anahtarı üretilemedi (maksimum deneme aşıldı)".

(** A stored link of type 4 owned by user 7, its target filled in. *)
Definition link_row (id : uint) (key : string) (deleted : option Time) : Link :=
  mkLink (mkBaseModel id deleted) key 4 (id + 40) 7 zeroType.

(** The 20 draws that make the generator answer one letter 20 times:
    [draws 0] gives the key of 20 a's, [draws 1] of 20 b's, ... *)
Definition draws (n : N) : list (option N) := repeat (Some n) 20.

(** Two stored keys, for the scenario of the spec in which the first two
    candidates collide and the third is issued. *)
Definition two_links : Tables :=
  mkTables [link_row 1 "aaaaaaaaaaaaaaaaaaaa" None; link_row 2 "bbbbbbbbbbbbbbbbbbbb" None]
           [] [] [] [] [].

(** The test [CreateLink] applies to the error of [Create]. *)
Definition is_duplicate_key (err : error) : bool :=
  errors_Is err gorm_ErrDuplicatedKey
  || strings_Contains (Error err) "duplicate key value violates unique constraint".

(** A soft-deleted link still owns its key in the unique index, but the
    existence check does not count it. *)
Definition deleted_link : Tables :=
  mkTables [link_row 1 "aaaaaaaaaaaaaaaaaaaa" (Some 5%Z)] [] [] [] [] [].

(** The race of the spec: no row holds the candidate when it is checked,
    another transaction commits the same key before the INSERT, and the
    driver reports the unique violation on the INSERT (statement number 1,
    after the existence check).  A second candidate was available. *)
Definition racing_world : World :=
  mkWorld emptyTables None (fun _ => 100) (draws 0 ++ draws 1)%list []
    (fun n => if (n =? 1)%nat
              then Some "ERROR: duplicate key value violates unique constraint (SQLSTATE 23505)"
              else None)
    false 1000%Z (fun p => Some p).

(** The error of the [BeforeUpdate] hook. *)
Definition KeyImmutableError : error := errors_New "link anahtarı (Key) değiştirilemez".

(** The value an update map gives to the key column, if any. *)
Definition key_entry (data : gmap string Value) : option Value :=
  match data !! "Key" with
  | Some v => Some v
  | None => data !! "key"
  end.

(** One row with a 20-character key, as issuance leaves it once the target
    is filled in. *)
Definition one_link : Tables :=
  mkTables [link_row 1 "aaaaaaaaaaaaaaaaaaaa" None] [] [] [] [] [].

(** The update map that sets the key column to the empty string. *)
Definition blank_key : gmap string Value := {[ "key" := VString EmptyString ]}.

(** The keys stored, committed and as the open transaction sees them. *)
Definition keys (t : Tables) : list string := map Key (links t).
Definition stored_keys (w : World) : list string * option (list string) :=
  (keys (committed w), keys <$> txview w).

(** The type table as seeded at bootstrap. *)
Definition seeded : Tables :=
  mkTables []
    [mkType (mkBaseModel 1 None) "INVITATION" EmptyString;
     mkType (mkBaseModel 2 None) "APPOINTMENT" EmptyString;
     mkType (mkBaseModel 3 None) "FORM" EmptyString;
     mkType (mkBaseModel 4 None) "CARD" EmptyString]
    [] [] [] [].

(** A store whose statement number 4 fails.  In each of the three creation
    operations statement 0 reads the type, 1 begins the transaction, 2 is
    the existence check of the key, 3 inserts the link and 4 inserts the
    resource row. *)
Definition resource_insert_fails : World :=
  mkWorld seeded None (fun _ => 0) (draws 0 ++ draws 1)%list []
    (fun n => if (n =? 4)%nat
              then Some "ERROR: canceling statement due to statement timeout (SQLSTATE 57014)"
              else None)
    false 1000%Z (fun p => Some p).

(** A valid appointment, form and card. *)
Definition an_appointment : AppointmentDetail :=
  mkAppointmentDetail "Muayene" 30 0 0 60 30 EmptyString None.

Definition a_form : FormDetail := mkFormDetail "Anket" None None None EmptyString.

Definition a_card : CardDetail := mkCardDetail "Ada" "Lovelace".

(** A step taken inside the open transaction: the committed tables are as
    before and the transaction is still open. *)
Definition tx_only (w w' : World) : Prop :=
  committed w' = committed w /\ is_Some (txview w').

(** A computation that only reads: the world it leaves differs from the
    one it found by the statements recorded. *)
Definition read_only (w w' : World) : Prop := w' = with_statements (statements w') w.

(** The visibility rule of a public lookup at time [t]: enabled, and not
    past the expiry timestamp when there is one. *)
Definition visible (t : Time) (enabled : bool) (expiry : option Time) : bool :=
  enabled && match expiry with
             | Some e => negb (Time_After t e)
             | None => true
             end.

(** A published but expired appointment: its link and its row, the request
    arriving at time 1000. *)
Definition expired_appointment : Tables :=
  mkTables [mkLink (mkBaseModel 1 None) "aaaaaaaaaaaaaaaaaaaa" 2 1 7 zeroType]
    (types seeded)
    [mkAppointment (mkBaseModel 1 None) 1 7 None true zeroLink
       (mkAppointmentDetail "Muayene" 30 0 0 60 30 EmptyString (Some 500%Z))]
    [] [] [].

(** The four names the dispatch knows. *)
Definition supported (name : string) : Prop :=
  name = TypeNameInvitation \/ name = TypeNameAppointment \/
  name = TypeNameForm \/ name = TypeNameCard.

(** A link of a type the dispatch does not know. *)
Definition survey_link : Tables :=
  mkTables [mkLink (mkBaseModel 1 None) "aaaaaaaaaaaaaaaaaaaa" 9 1 7 zeroType]
    (types seeded ++ [mkType (mkBaseModel 9 None) "SURVEY" EmptyString])
    [] [] [] [].

(** The store answers the next [n] statements: none of them is failed by
    the fault schedule. *)
Definition answers (n : nat) (w : World) : Prop :=
  forall i, (i < n)%nat -> faults w (length (statements w) + i) = None.

(** The query [FindByKey] and [FindByID] share once their guard has passed:
    the first live link that matches, with its type preloaded, and the
    repository's treatment of the error. *)
Definition find_link (db : DB) (cond : Link -> bool) : M (result Link) :=
  f <- gorm_First db cond ;;
  found <- match f with
           | Err e => ret (Err e)
           | Ok l => preload_Type db l
           end ;;
  match found with
  | Err err =>
      if errors_Is err gorm_ErrRecordNotFound
      then ret (Err gorm_ErrRecordNotFound)
      else ret (Err err)
  | Ok link => ret (Ok link)
  end.

(** The condition [id = ?]. *)
Definition id_is (id : uint) : Link -> bool := fun l => ID (Link_Base l) =? id.

(** What [Preload("Type")] may attach to a link read from [t]: the live type
    row the link points to, or the zero value when there is none. *)
Definition preloaded (t : Tables) (l : Link) (ty : Type_) : Prop :=
  (ty = zeroType /\
   forall t0, In t0 (types t) -> live t0 = true -> ID (Type_Base t0) <> TypeID l) \/
  (In ty (types t) /\ live ty = true /\ ID (Type_Base ty) = TypeID l).

(** A computation that only queries: the world it leaves differs from the
    one it found by SELECT statements appended to the trace. *)
Definition queries_only (w w' : World) : Prop :=
  exists ss, w' = with_statements (statements w ++ ss)%list w /\
             Forall (fun st => stmt_verb st = SELECT) ss.

(** Whether what a response binds to its template may be shown at time
    [t]: a resource that passes the visibility rule. *)
Definition servable (t : Time) (p : Payload) : bool :=
  match p with
  | NoPayload => false
  | InvitationPayload i =>
      visible t (Invitation_IsEnabled i) (InvitationDetail_ExpiresAt (Invitation_Detail i))
  | AppointmentPayload a =>
      visible t (Appointment_IsEnabled a) (AppointmentDetail_ExpiresAt (Appointment_Detail a))
  | FormPayload f => visible t (Form_IsEnabled f) (ClosesAt (Form_Detail f))
  | CardPayload c => visible t (Card_IsEnabled c) None
  end.

(** The two outcomes of a dispatch: the page of a visible resource, or an
    error page that binds nothing. *)
Definition served_or_refused (t : Time) (key : string) (resp : Response) : Prop :=
  (StatusCode resp = StatusOK /\ String.length key = 20%nat /\
   servable t (Bound resp) = true) \/
  ((StatusCode resp = StatusNotFound \/ StatusCode resp = StatusInternalServerError) /\
   Bound resp = NoPayload).

(** Every live link with the key [key] in the tables [t] still has the
    placeholder target 0: issued, not yet pointing at its resource. *)
Definition unfilled (t : Tables) (key : string) : Prop :=
  forall y, In y (links t) -> live y = true -> Key y = key -> TargetID y = 0.

(** The handle the link service reads through under [ctx]. *)
Definition LinkService_db (s : LinkService) (ctx : Context) : DB :=
  LinkRepository_getDB (LinkService_repo s) ctx.

(** An appointment link as issuance leaves it before the target is filled
    in. *)
Definition issued_link : Tables :=
  mkTables [mkLink (mkBaseModel 1 None) "aaaaaaaaaaaaaaaaaaaa" 2 0 7 zeroType]
    (types seeded) [] [] [] [].

(** Some live link of [t] carries the key. *)
Definition has_live_key (t : Tables) (key : string) : Prop :=
  exists y, In y (links t) /\ live y = true /\ Key y = key.

(** No live link of [t] with the key is of the type called [name]. *)
Definition typed_otherwise (t : Tables) (key name : string) : Prop :=
  forall y ty, In y (links t) -> live y = true -> Key y = key ->
               preloaded t y ty -> Name ty <> name.

(** The trace after the two SELECTs of a link lookup. *)
Definition after_link_lookup (db : DB) (w : World) : World :=
  with_statements
    (statements w ++ [mkStmt db SELECT (Some t_links); mkStmt db SELECT (Some t_types)])%list w.

(** The target backfill applied to one row: the live row with the id gets
    the target, every other row is left as it is. *)
Definition retarget (linkID targetID : uint) (l : Link) : Link :=
  if live l && id_is linkID l then Link_with_TargetID targetID l else l.

(** The update map of the target backfill. *)
Definition target_update (targetID : uint) : gmap string Value :=
  {[ "target_id" := VUint targetID ]}.

(** The details the three validations let through. *)
Definition valid_appointment (d : AppointmentDetail) : Prop :=
  AppointmentDetail_Name d <> EmptyString /\ (0 < DurationMinutes d)%Z /\
  (0 <= BookingLeadTime d)%Z /\ (0 < BookingHorizonDays d)%Z /\
  (0 <= BufferTimeBefore d)%Z /\ (0 <= BufferTimeAfter d)%Z.

Definition valid_form (d : FormDetail) : Prop :=
  FormDetail_Title d <> EmptyString /\
  (forall n, SubmissionLimit d = Some n -> (0 <= n)%Z) /\
  (forall n, LimitPerUser d = Some n -> (0 <= n)%Z).

Definition valid_card (d : CardDetail) : Prop :=
  FirstName d <> EmptyString /\ LastName d <> EmptyString.

(** What a creation call answers to input it refuses: an error that wraps
    [invalid], and no sentinel among [reasons], in the world it was called
    in. *)
Definition refused_as {A} (invalid : sentinel) (reasons : list sentinel)
    (run : result A * World) (w : World) : Prop :=
  exists e, run = (Err e, w) /\ errors_Is e invalid = true /\
            Forall (fun r => errors_Is e r = false) reasons.

(** Some live row of the type table of [t] has the name. *)
Definition has_type (t : Tables) (name : string) : Prop :=
  exists ty, In ty (types t) /\ live ty = true /\ Name ty = name.

(** [t'] is [t] with the type rows [added] appended and nothing else
    changed. *)
Definition types_appended (t t' : Tables) (added : list Type_) : Prop :=
  t' = with_rows (types t ++ added)%list t.

(** The soft delete applied to one row: the live row with the id gets the
    deletion stamp [t], every other row is left as it is. *)
Definition deleted_at (t : Time) (linkID : uint) (l : Link) : Link :=
  if live l && id_is linkID l
  then Link_with_Base (mkBaseModel (ID (Link_Base l)) (Some t)) l
  else l.

(** Some live link of [t] has the id. *)
Definition has_live_id (t : Tables) (id : uint) : Prop :=
  exists y, In y (links t) /\ live y = true /\ ID (Link_Base y) = id.

(** A live link to delete, and the world in which user 7 deletes it. *)
Definition before_delete : World := world_of two_links [].

(** The world in which the closure of a transaction on the pool starts: the
    BEGIN is recorded and the transaction sees the committed tables. *)
Definition begun (w : World) : World :=
  with_txview (Some (committed w))
    (with_statements (statements w ++ [mkStmt Pool BEGIN None])%list w).

(** The tables [t] after a card was created in them: the issued link with
    its target filled in and the card row are appended, nothing else
    changes. *)
Definition with_new_card (t : Tables) (link : Link) (stored : Card) : Tables :=
  mkTables (links t ++ [Link_with_TargetID (ID (Card_Base stored)) link])%list
           (types t) (appointments t) (forms t)
           (cards t ++ [stored])%list (invitations t).

(** The link and the card row [CreateCard] writes for user [creatorUserID],
    type [cardType] and detail [d]. *)
Definition issued_for_card (creatorUserID : uint) (cardType : Type_) (d : CardDetail)
    (link : Link) (stored : Card) : Prop :=
  String.length (Key link) = 20%nat /\
  Forall (fun c => alnum c = true) (String.list_ascii_of_string (Key link)) /\
  ID (Link_Base link) <> 0 /\ ID (Card_Base stored) <> 0 /\
  link = mkLink (mkBaseModel (ID (Link_Base link)) None) (Key link)
                (ID (Type_Base cardType)) 0 creatorUserID zeroType /\
  stored = mkCard (mkBaseModel (ID (Card_Base stored)) None) (ID (Link_Base link))
                  creatorUserID None true zeroLink d.

(** The primary key of the type table: no two rows of [t] share an id. *)
Definition type_ids_unique (t : Tables) : Prop :=
  forall t1 t2, In t1 (types t) -> In t2 (types t) ->
                ID (Type_Base t1) = ID (Type_Base t2) -> t1 = t2.

(** A card as a fresh read shows it: the embedded link carries the card's
    id as its target. *)
Definition as_read_back (card : Card) : Card :=
  with_Link (Link_with_TargetID (ID (Card_Base card)) (Card_Link card)) card.

(** The card [CreateCard] returns for user 7 and [a_card] in the seeded
    store when the generator answers twenty a's. *)
Definition first_card : Card :=
  mkCard (mkBaseModel 101 None) 101 7 None true
    (mkLink (mkBaseModel 101 None) "aaaaaaaaaaaaaaaaaaaa" 4 0 7
            (mkType (mkBaseModel 4 None) "CARD" EmptyString))
    a_card.

(** The link issuance leaves for user [creatorUserID] and type [ty]. *)
Definition issued_to (creatorUserID : uint) (ty : Type_) (link : Link) : Prop :=
  String.length (Key link) = 20%nat /\
  Forall (fun c => alnum c = true) (String.list_ascii_of_string (Key link)) /\
  ID (Link_Base link) <> 0 /\
  link = mkLink (mkBaseModel (ID (Link_Base link)) None) (Key link)
                (ID (Type_Base ty)) 0 creatorUserID zeroType.

(** The tables [t] after an appointment, or a form, was created in them. *)
Definition with_new_appointment (t : Tables) (link : Link) (stored : Appointment) : Tables :=
  mkTables (links t ++ [Link_with_TargetID (ID (Appointment_Base stored)) link])%list
           (types t) (appointments t ++ [stored])%list (forms t) (cards t) (invitations t).

Definition with_new_form (t : Tables) (link : Link) (stored : Form) : Tables :=
  mkTables (links t ++ [Link_with_TargetID (ID (Form_Base stored)) link])%list
           (types t) (appointments t) (forms t ++ [stored])%list (cards t) (invitations t).

(** The detail [CreateForm] stores: the password, when there is one, is
    replaced by what bcrypt made of it. *)
Definition hashed_detail (w : World) (d d' : FormDetail) : Prop :=
  if String.eqb (FormDetail_PasswordHash d) EmptyString then d' = d
  else exists h, bcrypt w (FormDetail_PasswordHash d) = Some h /\
                 d' = FormDetail_with_PasswordHash h d.

(** An appointment and a form as a fresh read shows them: the embedded
    link carries the resource's id as its target. *)
Definition appointment_as_read_back (a : Appointment) : Appointment :=
  with_Link (Link_with_TargetID (ID (Appointment_Base a)) (Appointment_Link a)) a.

Definition form_as_read_back (f : Form) : Form :=
  with_Link (Link_with_TargetID (ID (Form_Base f)) (Form_Link f)) f.

(** The trace after the three SELECTs of a resource lookup by id. *)
Definition after_resource_lookup (db : DB) (t : TableName) (w : World) : World :=
  with_statements
    (statements w ++ [mkStmt db SELECT (Some t); mkStmt db SELECT (Some t_links);
                      mkStmt db SELECT (Some t_types)])%list w.

(** The appointment and the form the creation calls return for user 7 in
    the seeded store when the generator answers twenty a's. *)
Definition first_appointment : Appointment :=
  mkAppointment (mkBaseModel 101 None) 101 7 None true
    (mkLink (mkBaseModel 101 None) "aaaaaaaaaaaaaaaaaaaa" 2 0 7
            (mkType (mkBaseModel 2 None) "APPOINTMENT" EmptyString))
    an_appointment.

Definition first_form : Form :=
  mkForm (mkBaseModel 101 None) 101 7 None true
    (mkLink (mkBaseModel 101 None) "aaaaaaaaaaaaaaaaaaaa" 3 0 7
            (mkType (mkBaseModel 3 None) "FORM" EmptyString))
    a_form.

(** The tables [t] are [t0] with [newlink], a live link of type [typ] with
    a key and an id no row of [t0] has, appended to the links; the type
    table is the one of [t0], with unique ids. *)
Definition link_published (t0 t : Tables) (newlink : Link) (typ : Type_) : Prop :=
  links t = (links t0 ++ [newlink])%list /\ types t = types t0 /\
  (forall y, In y (links t0) ->
     Key y <> Key newlink /\ ID (Link_Base y) <> ID (Link_Base newlink)) /\
  Key newlink <> EmptyString /\ live newlink = true /\
  TypeID newlink = ID (Type_Base typ) /\
  In typ (types t0) /\ live typ = true /\ type_ids_unique t0.

Section Published.
Context {T : Type} `{Schema T} `{Resource T}.

(** The tables [t] are [t0] with the live resource row [stored], of an id no
    row of [t0] has, appended to its table; [stored] and [newlink] point at
    each other. *)
Definition resource_published (t0 t : Tables) (stored : T) (newlink : Link) : Prop :=
  rows t = (rows t0 ++ [stored])%list /\
  (forall c, In c (rows t0) -> ID (base c) <> ID (base stored)) /\
  live stored = true /\ ID (base stored) <> 0 /\
  LinkID_of stored = ID (Link_Base newlink) /\
  TargetID newlink = ID (base stored).

End Published.

(** The pages the dispatch renders. *)
Definition card_page (c : Card) : Response :=
  mkResponse StatusOK "public/card_view" EmptyString (CardPayload c).
Definition appointment_page (a : Appointment) : Response :=
  mkResponse StatusOK "public/appointment_booking" EmptyString (AppointmentPayload a).
Definition form_page (f : Form) : Response :=
  mkResponse StatusOK "public/form_fill" EmptyString (FormPayload f).

(** * Properties *)

(** ** Tactics for the state monad *)

Ltac unfold_monad := unfold bind, ret, get, modify in *.

Create HintDb go_model.

(** ** The key generator (spec 4.1) *)

Lemma charsetForLink_length : String.length charsetForLink = 62%nat.
Proof. reflexivity. Qed.

Lemma charsetForLink_NoDup : NoDup (String.list_ascii_of_string charsetForLink).
Proof. apply (bool_decide_unpack _). vm_compute. reflexivity. Qed.

(** The charset is exactly the set of alphanumeric bytes. *)
Lemma charsetForLink_alnum (c : ascii) :
  In c (String.list_ascii_of_string charsetForLink) <-> alnum c = true.
Proof.
  split.
  - intros Hin.
    assert (Hall : forallb alnum (String.list_ascii_of_string charsetForLink) = true)
      by reflexivity.
    rewrite forallb_forall in Hall. auto.
  - intros Hc.
    assert (Hdec : existsb (Ascii.eqb c) (String.list_ascii_of_string charsetForLink) = true).
    { destruct c as [[] [] [] [] [] [] [] []]; vm_compute in Hc; try discriminate Hc;
        reflexivity. }
    apply existsb_exists in Hdec. destruct Hdec as (x & Hx & Heq).
    apply Ascii.eqb_eq in Heq. subst. exact Hx.
Qed.

Lemma get_In (s : string) (n : nat) (c : ascii) :
  String.get n s = Some c -> In c (String.list_ascii_of_string s).
Proof.
  revert n. induction s as [|a s IH]; intros [|n] Hg; simpl in *; try discriminate.
  - left. congruence.
  - right. eauto.
Qed.

Lemma get_in_range (s : string) (n : nat) :
  (n < String.length s)%nat -> exists c, String.get n s = Some c.
Proof.
  revert n. induction s as [|a s IH]; intros [|n] Hlt; simpl in *; try lia; eauto.
  apply IH. lia.
Qed.

Lemma byte_at_charset (i : N) :
  i < 62 -> alnum (byte_at charsetForLink i) = true.
Proof.
  intros Hi. unfold byte_at.
  destruct (get_in_range charsetForLink (N.to_nat i)) as [c Hc].
  { rewrite charsetForLink_length. lia. }
  rewrite Hc. change (default "000"%char (Some c)) with c.
  apply charsetForLink_alnum. eapply get_In. eassumption.
Qed.

(** [rand.Int] answers below [max]. *)
Lemma rand_Int_lt (max : N) (w w' : World) (i : N) :
  max <> 0 -> rand_Int max w = (Ok i, w') -> i < max.
Proof.
  intros Hmax. unfold rand_Int.
  destruct (reader w) as [|[raw|] rd]; intros Heq; inversion Heq; subst.
  apply N.mod_lt. assumption.
Qed.

Lemma fill_bytes_ok (n : nat) (w w' : World) (s : string) :
  fill_bytes 62 n w = (Ok s, w') ->
  String.length s = n /\
  Forall (fun c => alnum c = true) (String.list_ascii_of_string s) /\
  draws_ok n (reader w) /\ reader w' = drop n (reader w) /\
  with_reader (reader w) w' = w.
Proof.
  revert w w' s. induction n as [|n IH]; intros w w' s Hrun.
  - cbn [fill_bytes] in Hrun. unfold_monad. inversion Hrun; subst.
    repeat split; try constructor.
    + intros i Hi. lia.
    + destruct w'; reflexivity.
  - cbn [fill_bytes] in Hrun. unfold_monad.
    destruct (rand_Int 62 w) as [r w1] eqn:Hr.
    destruct r as [idx|e]; [|discriminate].
    destruct (fill_bytes 62 n w1) as [rest w2] eqn:Hrest.
    destruct rest as [s0|e]; [|discriminate].
    inversion Hrun; subst s w'. clear Hrun.
    pose proof (rand_Int_lt 62 w w1 idx ltac:(lia) Hr) as Hlt.
    destruct (IH _ _ _ Hrest) as (Hlen & Hall & Hdraws & Hrd & Hw).
    unfold rand_Int in Hr.
    destruct (reader w) as [|[raw|] rd] eqn:Hreader; inversion Hr; subst idx w1; clear Hr.
    repeat split.
    + cbn [String.length]. congruence.
    + cbn [String.list_ascii_of_string]. constructor;
        [apply byte_at_charset; assumption | assumption].
    + intros [|i] Hi; [cbn; eauto|]. cbn. apply Hdraws. lia.
    + rewrite Hrd. reflexivity.
    + destruct w, w2; cbn in *. inversion Hw; subst. reflexivity.
Qed.

Lemma fill_bytes_draws_ok (n : nat) (w : World) :
  draws_ok n (reader w) -> exists s, fst (fill_bytes 62 n w) = Ok s.
Proof.
  revert w. induction n as [|n IH]; intros w Hd.
  - simpl. eauto.
  - simpl. unfold_monad.
    destruct (Hd 0%nat ltac:(lia)) as [raw Hraw].
    unfold rand_Int. destruct (reader w) as [|[raw'|] rd] eqn:Hreader;
      simpl in Hraw; try discriminate.
    destruct (IH (with_reader rd w)) as [s Hs].
    { intros i Hi. simpl. destruct (Hd (S i) ltac:(lia)) as [r Hr].
      simpl in Hr. eauto. }
    destruct (fill_bytes 62 n (with_reader rd w)) as [rest w2].
    simpl in Hs. subst. simpl. eauto.
Qed.

Lemma fill_bytes_failure (n : nat) (w : World) :
  ~ draws_ok n (reader w) -> exists e, fst (fill_bytes 62 n w) = Err e.
Proof.
  intros Hnot.
  destruct (fill_bytes 62 n w) as [[s|e] w'] eqn:Hrun; simpl; [|eauto].
  exfalso. apply Hnot. apply fill_bytes_ok in Hrun. tauto.
Qed.

(** C4. For every positive length: when the generator returns a key, the
    key has exactly that many characters and each one is of the alphabet
    a-z, A-Z, 0-9 (which is exactly the 62 distinct bytes of the charset);
    when one of the reads of the secure source it needs fails (a failing
    read, or the source running dry), it returns an error and no key; and
    when every read succeeds it returns a key. *)
Theorem generateSecureRandomStringForLink_spec (length : Z) (w : World) :
  (0 < length)%Z ->
  (forall s w', generateSecureRandomStringForLink length w = (Ok s, w') ->
     String.length s = Z.to_nat length /\
     Forall (fun c => alnum c = true /\ In c (String.list_ascii_of_string charsetForLink))
            (String.list_ascii_of_string s)) /\
  ((exists i, (i < Z.to_nat length)%nat /\
              (reader w !! i = Some None \/ reader w !! i = None)) ->
     exists e, fst (generateSecureRandomStringForLink length w) = Err e) /\
  (draws_ok (Z.to_nat length) (reader w) ->
     exists s, fst (generateSecureRandomStringForLink length w) = Ok s) /\
  (String.length charsetForLink = 62%nat /\
   NoDup (String.list_ascii_of_string charsetForLink)).
Proof.
  intros Hpos. unfold generateSecureRandomStringForLink.
  destruct (Z.leb_spec length 0) as [Hle|_]; [lia|].
  rewrite charsetForLink_length. change (N.of_nat 62) with 62.
  repeat split.
  - apply fill_bytes_ok in H. tauto.
  - apply fill_bytes_ok in H. destruct H as (_ & Hall & _).
    eapply Forall_impl; [exact Hall|]. intros c Hc. split; [exact Hc|].
    apply charsetForLink_alnum. exact Hc.
  - intros (i & Hi & Hfail). apply fill_bytes_failure. intros Hd.
    destruct (Hd i Hi) as [raw Hraw]. destruct Hfail; congruence.
  - apply fill_bytes_draws_ok.
  - apply charsetForLink_NoDup.
Qed.

Lemma generateSecureRandomStringForLink_spec_witness :
  String.length "aB9" = 3%nat /\
  Forall (fun c => alnum c = true /\ In c (String.list_ascii_of_string charsetForLink))
         (String.list_ascii_of_string "aB9").
Proof.
  destruct (generateSecureRandomStringForLink_spec 3
              (world_of emptyTables [Some 0; Some 27; Some 61]) ltac:(lia)) as [H _].
  apply (H "aB9" (world_of emptyTables [])). vm_compute. reflexivity.
Defined.

(** ** Frame facts: what each primitive leaves alone *)

Lemma rand_Int_frame (max : N) (w w' : World) (r : result N) :
  rand_Int max w = (r, w') -> w' = with_reader (reader w') w.
Proof.
  unfold rand_Int. destruct w as [c t sq rd st fl tr nw bc]; cbn.
  destruct rd as [|[raw|] rd]; intros Heq; inversion Heq; reflexivity.
Qed.

Lemma fill_bytes_frame (max : N) (n : nat) (w w' : World) (r : result string) :
  fill_bytes max n w = (r, w') -> w' = with_reader (reader w') w.
Proof.
  revert w w' r. induction n as [|n IH]; intros w w' r Hrun;
    cbn [fill_bytes] in Hrun; unfold_monad.
  - inversion Hrun; subst. destruct w'; reflexivity.
  - destruct (rand_Int max w) as [r1 w1] eqn:Hr.
    apply rand_Int_frame in Hr.
    destruct r1 as [idx|e].
    + destruct (fill_bytes max n w1) as [rest w2] eqn:Hrest.
      apply IH in Hrest.
      assert (w' = w2) by (destruct rest; inversion Hrun; reflexivity). subst w2.
      rewrite Hrest, Hr. destruct w; reflexivity.
    + inversion Hrun; subst. exact Hr.
Qed.

Lemma generate_frame (length : Z) (w w' : World) (r : result string) :
  generateSecureRandomStringForLink length w = (r, w') ->
  w' = with_reader (reader w') w.
Proof.
  unfold generateSecureRandomStringForLink.
  destruct (length <=? 0)%Z.
  - unfold ret. intros Heq; inversion Heq; subst. destruct w'; reflexivity.
  - apply fill_bytes_frame.
Qed.

Lemma gorm_Count_frame {T} `{Schema T} (db : DB) (cond : T -> bool) (w w' : World)
    (r : result N) :
  gorm_Count db cond w = (r, w') ->
  w' = with_statements (statements w ++ [mkStmt db COUNT (Some table)])%list w.
Proof.
  unfold gorm_Count, exec. unfold_monad.
  destruct (faults w (length (statements w))); cbn;
    intros Heq; inversion Heq; reflexivity.
Qed.

Lemma view_write (db : DB) (f : Tables -> Tables) (w : World) :
  view db (write db f w) = f (view db w).
Proof.
  destruct db; cbn; [reflexivity|]. unfold write.
  destruct (txview w) eqn:Htx; cbn; rewrite ?Htx; reflexivity.
Qed.

(** ** The bounded retry of [BeforeCreate] (spec 4.3) *)

(** What the existence check reports: the number of live rows the handle
    sees that satisfy the condition; it is non-zero exactly when there is
    one. *)
Lemma gorm_Count_present {T} `{Schema T} (db : DB) (cond : T -> bool) (n : N)
    (w w' : World) :
  gorm_Count db cond w = (Ok n, w') ->
  n = N.of_nat (length (List.filter (fun x => live x && cond x) (rows (view db w)))) /\
  (n <> 0 <-> exists y, In y (rows (view db w)) /\ live y = true /\ cond y = true).
Proof.
  unfold gorm_Count, exec. unfold_monad.
  destruct (faults w (length (statements w))); cbn; [discriminate|].
  replace (rows (view db _)) with (rows (view db w)) by (destruct db; reflexivity).
  intros Heq; inversion Heq; subst. split; [reflexivity|].
  destruct (List.filter (fun x => live x && cond x) (rows (view db w))) as [|y ys] eqn:Hf.
  - split; [intros Hne; contradiction Hne; reflexivity|].
    intros (y & Hin & Hl & Hc).
    assert (Hy : In y (List.filter (fun x => live x && cond x) (rows (view db w)))).
    { apply filter_In. split; [exact Hin|]. rewrite Hl, Hc. reflexivity. }
    rewrite Hf in Hy. destruct Hy.
  - split; [|intros _; cbn; lia].
    intros _. exists y.
    assert (Hy : In y (List.filter (fun x => live x && cond x) (rows (view db w)))).
    { rewrite Hf. left. reflexivity. }
    apply filter_In in Hy. destruct Hy as [Hin Hb].
    apply andb_true_iff in Hb. tauto.
Qed.

Lemma attempt_collides_store (tx : DB) (w w' : World) :
  attempt_collides tx w w' -> store w' = store w /\ sequences w' = sequences w.
Proof.
  intros (key & w1 & count & Hg & Hc & _).
  apply generate_frame in Hg. apply gorm_Count_frame in Hc.
  rewrite Hc, Hg. split; reflexivity.
Qed.

Lemma attempts_collide_store (tx : DB) (n : nat) (w w' : World) :
  attempts_collide tx n w w' -> store w' = store w /\ sequences w' = sequences w.
Proof.
  revert w. induction n as [|n IH]; intros w; cbn.
  - intros ->. split; reflexivity.
  - intros (w1 & Ha & Hrest). apply attempt_collides_store in Ha.
    apply IH in Hrest. destruct Ha, Hrest. split; congruence.
Qed.

Lemma BeforeCreate_loop_exhausted (tx : DB) (l : Link) (n : nat) (w w' : World) :
  attempts_collide tx n w w' ->
  BeforeCreate_loop tx l n w = (Err KeyExhaustionError, w').
Proof.
  revert w. induction n as [|n IH]; intros w; cbn [attempts_collide BeforeCreate_loop].
  - intros ->. reflexivity.
  - intros (w1 & (key & w0 & count & Hg & Hc & Hne) & Hrest).
    unfold bind at 1. rewrite Hg. unfold bind at 1.
    fold (key_is key). rewrite Hc.
    destruct (N.eqb_spec count 0) as [|_]; [contradiction|].
    apply IH. exact Hrest.
Qed.

Lemma BeforeCreate_loop_found (tx : DB) (l : Link) (k m : nat)
    (w w1 w2 w3 : World) (key : string) :
  attempts_collide tx k w w1 ->
  generateSecureRandomStringForLink 20 w1 = (Ok key, w2) ->
  gorm_Count tx (key_is key) w2 = (Ok 0, w3) ->
  BeforeCreate_loop tx l (k + S m) w = (Ok (Link_with_Key key l), w3).
Proof.
  revert w. induction k as [|k IH]; intros w; cbn [attempts_collide].
  - intros -> Hg Hc. cbn [Nat.add BeforeCreate_loop].
    unfold bind at 1. rewrite Hg. unfold bind at 1.
    fold (key_is key). rewrite Hc. reflexivity.
  - intros (w0 & (key0 & w0' & count & Hg0 & Hc0 & Hne) & Hrest) Hg Hc.
    cbn [Nat.add BeforeCreate_loop].
    unfold bind at 1. rewrite Hg0. unfold bind at 1.
    fold (key_is key0). rewrite Hc0.
    destruct (N.eqb_spec count 0) as [|_]; [contradiction|].
    apply IH; assumption.
Qed.

(** What an accepted INSERT returns: the row as stored, now in the table
    the handle reads. *)
Lemma gorm_insert_Ok {T} `{Schema T} (db : DB) (x x' : T) (w w' : World) :
  gorm_insert db x w = (Ok x', w') ->
  (exists id, x' = with_base (mkBaseModel id (DeletedAt (base x))) x) /\
  exists w0, rows (view db w') = rows (view db (write db (fun t => with_rows (rows t ++ [x']) t) w0)).
Proof.
  unfold gorm_insert, exec. unfold_monad.
  destruct (faults w (length (statements w))); [intros Heq; discriminate|].
  cbn. destruct (ID (base x) =? 0); cbn.
  - match goal with |- context [existsb ?f ?l] => destruct (existsb f l) end;
      intros Heq; inversion Heq; subst.
    split; [eauto|]. eexists. reflexivity.
  - match goal with |- context [existsb ?f ?l] => destruct (existsb f l) end;
      intros Heq; inversion Heq; subst.
    split; [eauto|]. eexists. reflexivity.
Qed.

Lemma gorm_insert_Link_Ok (db : DB) (l l' : Link) (w w' : World) :
  gorm_insert db l w = (Ok l', w') ->
  Key l' = Key l /\ TypeID l' = TypeID l /\ TargetID l' = TargetID l /\
  CreatorUserID l' = CreatorUserID l /\ In l' (links (view db w')).
Proof.
  intros Hins. apply gorm_insert_Ok in Hins.
  destruct Hins as ([id ->] & w0 & Hrows). cbn in Hrows |- *.
  repeat split. rewrite Hrows, view_write. cbn.
  apply in_or_app. right. left. reflexivity.
Qed.

(** A refused or failed INSERT leaves the tables as they were. *)
Lemma gorm_insert_Err {T} `{Schema T} (db : DB) (x : T) (e : error) (w w' : World) :
  gorm_insert db x w = (Err e, w') -> store w' = store w.
Proof.
  unfold gorm_insert, exec. unfold_monad.
  destruct (faults w (length (statements w))); [intros Heq; inversion Heq; reflexivity|].
  cbn. destruct (ID (base x) =? 0); cbn;
    match goal with |- context [existsb ?f ?l] => destruct (existsb f l) end;
    intros Heq; inversion Heq; reflexivity.
Qed.

(** When the store takes it: no fault on the statement, and no stored row
    (soft-deleted ones included) has the new id or clashes on a unique
    index. *)
Lemma gorm_insert_accepted {T} `{Schema T} (db : DB) (x : T) (w : World) :
  faults w (length (statements w)) = None ->
  ID (base x) = 0 ->
  (forall y, In y (rows (view db w)) ->
     ID (base y) <> sequences w table + 1 /\
     unique_conflict
       (with_base (mkBaseModel (sequences w table + 1) (DeletedAt (base x))) x) y = false) ->
  exists w',
    gorm_insert db x w
    = (Ok (with_base (mkBaseModel (sequences w table + 1) (DeletedAt (base x))) x), w').
Proof.
  intros Hfault Hid Hfree. unfold gorm_insert, exec, nextval. unfold_monad.
  rewrite Hfault, Hid. cbn.
  match goal with |- context [existsb ?f ?l] => destruct (existsb f l) eqn:Hex end.
  - exfalso. apply existsb_exists in Hex. destruct Hex as (y & Hin & Hy).
    replace (rows (view db _)) with (rows (view db w)) in Hin by (destruct db; reflexivity).
    destruct (Hfree y Hin) as [Hne Hu].
    apply orb_true_iff in Hy. destruct Hy as [Hy|Hy].
    + apply N.eqb_eq in Hy. contradiction.
    + congruence.
  - eexists. reflexivity.
Qed.

Lemma attempts_collide_statements (tx : DB) (n : nat) (w w' : World) :
  attempts_collide tx n w w' ->
  statements w' = (statements w ++ repeat (mkStmt tx COUNT (Some t_links)) n)%list.
Proof.
  revert w. induction n as [|n IH]; intros w; cbn [attempts_collide repeat].
  - intros ->. rewrite app_nil_r. reflexivity.
  - intros (w1 & (key & w0 & count & Hg & Hc & _) & Hrest).
    apply IH in Hrest. apply generate_frame in Hg. apply gorm_Count_frame in Hc.
    rewrite Hrest, Hc, Hg. cbn. rewrite <- app_assoc. reflexivity.
Qed.

(** C3. Issuing through the [BeforeCreate] hook (the link enters with an
    empty key).  If each of the 10 attempts generates a key that the
    existence check reports present, the hook and with it [Create] return
    the key-exhaustion error, the tables are untouched and the only
    statements sent are the 10 existence checks (no INSERT).  If the first
    [k] attempts collide, [k < 10], and attempt [k+1] generates a key
    reported absent, the hook succeeds with exactly that candidate as the
    link's key and [Create] goes on to insert that link: the link it
    returns carries that key and is in the table, and it does return one
    whenever the store takes the row (no fault on the INSERT, and no stored
    row, soft-deleted ones included, holds that key or the next id). *)
Theorem BeforeCreate_bounded_retry (db : DB) (l : Link) (w : World) :
  Key l = EmptyString ->
  (forall w', attempts_collide db 10 w w' ->
     Link_BeforeCreate db l w = (Err KeyExhaustionError, w') /\
     gorm_Create_Link db l w = (Err KeyExhaustionError, w') /\
     store w' = store w /\
     statements w' = (statements w ++ repeat (mkStmt db COUNT (Some t_links)) 10)%list) /\
  (forall k w1 key w2 w3, (k < 10)%nat ->
     attempts_collide db k w w1 ->
     generateSecureRandomStringForLink 20 w1 = (Ok key, w2) ->
     gorm_Count db (key_is key) w2 = (Ok 0, w3) ->
     Link_BeforeCreate db l w = (Ok (Link_with_Key key l), w3) /\
     gorm_Create_Link db l w = gorm_insert db (Link_with_Key key l) w3 /\
     (forall l' w4, gorm_Create_Link db l w = (Ok l', w4) ->
        Key l' = key /\ In l' (links (view db w4))) /\
     (ID (Link_Base l) = 0 ->
      faults w3 (length (statements w3)) = None ->
      (forall y, In y (links (view db w3)) ->
         ID (Link_Base y) <> sequences w3 t_links + 1 /\ Key y <> key) ->
      exists l' w4, gorm_Create_Link db l w = (Ok l', w4) /\
                    Key l' = key /\ In l' (links (view db w4)))).
Proof.
  intros Hkey.
  assert (Hhook : Link_BeforeCreate db l w = BeforeCreate_loop db l 10 w).
  { unfold Link_BeforeCreate. rewrite Hkey. reflexivity. }
  split.
  - intros w' Hall.
    pose proof (BeforeCreate_loop_exhausted db l 10 w w' Hall) as Hloop.
    rewrite Hhook. repeat split.
    + exact Hloop.
    + unfold gorm_Create_Link, bind. rewrite Hhook, Hloop. reflexivity.
    + apply (attempts_collide_store db 10 w w' Hall).
    + apply (attempts_collide_statements db 10 w w' Hall).
  - intros k w1 key w2 w3 Hk Hcoll Hg Hc.
    assert (Hloop : BeforeCreate_loop db l 10 w = (Ok (Link_with_Key key l), w3)).
    { replace 10%nat with (k + S (9 - k))%nat by lia.
      eapply BeforeCreate_loop_found; eassumption. }
    assert (Hcreate : gorm_Create_Link db l w = gorm_insert db (Link_with_Key key l) w3).
    { unfold gorm_Create_Link, bind. rewrite Hhook, Hloop. reflexivity. }
    rewrite Hhook. split; [exact Hloop|]. split; [exact Hcreate|]. split.
    + intros l' w4 Hrun. rewrite Hcreate in Hrun.
      apply gorm_insert_Link_Ok in Hrun. split; apply Hrun.
    + intros Hid Hfault Hfree.
      destruct (gorm_insert_accepted db (Link_with_Key key l) w3 Hfault) as [w4 Hins].
      { exact Hid. }
      { intros y Hin. destruct (Hfree y Hin) as [Hne Hk']. split; [exact Hne|].
        cbn. apply String.eqb_neq. congruence. }
      eexists. exists w4. rewrite Hcreate. split; [exact Hins|].
      apply gorm_insert_Link_Ok in Hins. split; apply Hins.
Qed.

Lemma BeforeCreate_bounded_retry_witness :
  exists w3,
    Link_BeforeCreate Pool zeroLink (world_of two_links (draws 0 ++ draws 1 ++ draws 2)%list)
    = (Ok (Link_with_Key "cccccccccccccccccccc" zeroLink), w3).
Proof.
  eexists.
  refine (proj1 (proj2 (BeforeCreate_bounded_retry Pool zeroLink
                          (world_of two_links (draws 0 ++ draws 1 ++ draws 2)%list)
                          eq_refl) 2%nat _ _ _ _ _ _ _ _)).
  - lia.
  - cbn [attempts_collide].
    eexists. split.
    { do 3 eexists. split; [vm_compute; reflexivity|].
      split; [vm_compute; reflexivity|discriminate]. }
    eexists. split.
    { do 3 eexists. split; [vm_compute; reflexivity|].
      split; [vm_compute; reflexivity|discriminate]. }
    reflexivity.
  - vm_compute. reflexivity.
  - vm_compute. reflexivity.
Defined.

(** ** The link service: input guards (C10) *)

(** C10. [CreateLink] with a zero [typeID] or [creatorUserID], and
    [UpdateLinkTarget] with a zero [linkID], [targetID] or
    [updatingUserID], return an error wrapping [ErrLinkInvalidInput] and
    leave the world as it was: no statement is sent, no random byte is
    drawn.  Hence [UpdateLinkTarget] never succeeds with target 0. *)
Theorem link_service_rejects_zero_ids (s : LinkService) (ctx : Context) (w : World) :
  (forall creatorUserID typeID,
     typeID = 0 \/ creatorUserID = 0 ->
     exists e, LinkService_CreateLink s ctx creatorUserID typeID w = (Err e, w) /\
               errors_Is e ErrLinkInvalidInput = true) /\
  (forall updatingUserID linkID targetID,
     linkID = 0 \/ targetID = 0 \/ updatingUserID = 0 ->
     exists e, LinkService_UpdateLinkTarget s ctx updatingUserID linkID targetID w
               = (Err e, w) /\
               errors_Is e ErrLinkInvalidInput = true) /\
  (forall updatingUserID linkID targetID w',
     LinkService_UpdateLinkTarget s ctx updatingUserID linkID targetID w = (Ok tt, w') ->
     targetID <> 0).
Proof.
  repeat split.
  - intros creatorUserID typeID Hz. unfold LinkService_CreateLink.
    assert (Hb : (typeID =? 0) || (creatorUserID =? 0) = true).
    { destruct Hz as [->| ->]; [reflexivity|]. apply orb_true_r. }
    rewrite Hb. eexists. split; reflexivity.
  - intros updatingUserID linkID targetID Hz. unfold LinkService_UpdateLinkTarget.
    assert (Hb : (linkID =? 0) || (targetID =? 0) || (updatingUserID =? 0) = true).
    { destruct Hz as [->|[->| ->]]; rewrite ?orb_true_r; reflexivity. }
    rewrite Hb. eexists. split; reflexivity.
  - intros updatingUserID linkID targetID w' Hrun ->.
    unfold LinkService_UpdateLinkTarget in Hrun.
    replace ((linkID =? 0) || (0 =? 0) || (updatingUserID =? 0)) with true in Hrun
      by (cbn; rewrite orb_true_r; reflexivity).
    discriminate Hrun.
Qed.

Lemma link_service_rejects_zero_ids_witness :
  (exists e, LinkService_CreateLink NewLinkService context_Background 0 4
               (world_of two_links []) = (Err e, world_of two_links []) /\
             errors_Is e ErrLinkInvalidInput = true) /\
  (exists e, LinkService_UpdateLinkTarget NewLinkService context_Background 7 1 0
               (world_of two_links []) = (Err e, world_of two_links []) /\
             errors_Is e ErrLinkInvalidInput = true).
Proof.
  destruct (link_service_rejects_zero_ids NewLinkService context_Background
              (world_of two_links [])) as (Hc & Hu & _).
  split.
  - apply (Hc 0 4). right. reflexivity.
  - apply (Hu 7 1 0). right. left. reflexivity.
Defined.

(** ** A duplicate key at INSERT time (C2) *)

(** Whatever the error-translation setting, the error of a violated unique
    index passes that test. *)
Lemma duplicate_error_detected (w : World) : is_duplicate_key (duplicate_error w) = true.
Proof. unfold duplicate_error. destruct (TranslateError w); reflexivity. Qed.

Lemma gorm_insert_frame {T} `{Schema T} (db : DB) (x : T) (r : result T) (w w' : World) :
  gorm_insert db x w = (r, w') ->
  reader w' = reader w /\
  statements w' = (statements w ++ [mkStmt db INSERT (Some table)])%list.
Proof.
  unfold gorm_insert, exec, nextval. unfold_monad.
  destruct (faults w (length (statements w))); [intros Heq; inversion Heq; split; reflexivity|].
  cbn. destruct (ID (base x) =? 0); cbn;
    match goal with |- context [existsb ?f ?l] => destruct (existsb f l) end;
    intros Heq; inversion Heq; split; try reflexivity;
    destruct db; cbn; try reflexivity; destruct (txview w); reflexivity.
Qed.

(** C2, as the code has it.  When the hook has chosen a key and the INSERT
    then fails with a duplicate-key error, [CreateLink] does not generate
    another candidate: it returns [ErrLinkKeyGenerationFailed] from the
    world the failed INSERT left, with the tables unchanged, no further
    random draw and that single INSERT as the last statement sent. *)
Theorem CreateLink_duplicate_key_is_fatal (s : LinkService) (ctx : Context)
    (creatorUserID typeID : uint) (w w1 w2 : World) (l' : Link) (err : error) :
  typeID <> 0 -> creatorUserID <> 0 ->
  let db := LinkRepository_getDB (LinkService_repo s) (contextWithUserID ctx creatorUserID) in
  Link_BeforeCreate db (mkLink zeroBase EmptyString typeID 0 creatorUserID zeroType) w
  = (Ok l', w1) ->
  gorm_insert db l' w1 = (Err err, w2) ->
  is_duplicate_key err = true ->
  LinkService_CreateLink s ctx creatorUserID typeID w = (Err ErrLinkKeyGenerationFailed, w2) /\
  store w2 = store w1 /\ reader w2 = reader w1 /\
  statements w2 = (statements w1 ++ [mkStmt db INSERT (Some t_links)])%list.
Proof.
  intros Hty Hcr db Hhook Hins Hdup.
  split.
  - unfold LinkService_CreateLink.
    destruct (N.eqb_spec typeID 0) as [|_]; [contradiction|].
    destruct (N.eqb_spec creatorUserID 0) as [|_]; [contradiction|].
    cbn [orb]. unfold bind at 1. unfold LinkRepository_Create, gorm_Create_Link.
    fold db. unfold bind at 1. rewrite Hhook, Hins.
    unfold is_duplicate_key in Hdup. rewrite Hdup. reflexivity.
  - split; [exact (gorm_insert_Err db l' err w1 w2 Hins)|].
    exact (gorm_insert_frame db l' _ w1 w2 Hins).
Qed.

Lemma CreateLink_duplicate_key_is_fatal_witness :
  fst (LinkService_CreateLink NewLinkService context_Background 7 4
         (world_of deleted_link (draws 0 ++ draws 1)%list))
  = Err (Sentinel ErrLinkKeyGenerationFailed).
Proof.
  refine (f_equal fst (proj1 (CreateLink_duplicate_key_is_fatal NewLinkService
            context_Background 7 4
            (world_of deleted_link (draws 0 ++ draws 1)%list) _ _ _ _ _ _ _ _ _))).
  - discriminate.
  - discriminate.
  - vm_compute. reflexivity.
  - vm_compute. reflexivity.
  - vm_compute. reflexivity.
Defined.

(** C2, counterexample: the INSERT fails on the unique constraint and the
    failure is surfaced to the caller as an error; the loop is not
    re-entered (the draws of the second candidate are still unread, one
    existence check and one INSERT were sent), although issuing again from
    the world it left succeeds. *)
Lemma CreateLink_duplicate_key_not_retried :
  let run := LinkService_CreateLink NewLinkService context_Background 7 4 racing_world in
  fst run = Err (Sentinel ErrLinkKeyGenerationFailed) /\
  reader (snd run) = draws 1 /\
  statements (snd run)
  = [mkStmt Pool COUNT (Some t_links); mkStmt Pool INSERT (Some t_links)] /\
  links (committed (snd run)) = [] /\
  is_Err (fst (LinkService_CreateLink NewLinkService context_Background 7 4 (snd run)))
  = false.
Proof. vm_compute. repeat split; reflexivity. Qed.

(** ** Caller-supplied keys (C9) *)

Lemma CreateCard_key_loop_exhausted (tx : DB) (n : nat) (w w' : World) :
  attempts_collide tx n w w' ->
  CreateCard_key_loop tx n w = (Ok EmptyString, w').
Proof.
  revert w. induction n as [|n IH]; intros w; cbn [attempts_collide CreateCard_key_loop].
  - intros ->. reflexivity.
  - intros (w1 & (key & w0 & count & Hg & Hc & Hne) & Hrest).
    unfold utils_GenerateSecureRandomString.
    unfold bind at 1. rewrite Hg. unfold bind at 1.
    fold (key_is key). rewrite Hc.
    destruct (N.eqb_spec count 0) as [|_]; [contradiction|].
    apply IH. exact Hrest.
Qed.

Lemma CreateCard_key_loop_found (tx : DB) (k m : nat) (w w1 w2 w3 : World) (key : string) :
  attempts_collide tx k w w1 ->
  generateSecureRandomStringForLink 20 w1 = (Ok key, w2) ->
  gorm_Count tx (key_is key) w2 = (Ok 0, w3) ->
  CreateCard_key_loop tx (k + S m) w = (Ok key, w3).
Proof.
  revert w. induction k as [|k IH]; intros w; cbn [attempts_collide].
  - intros -> Hg Hc. cbn [Nat.add CreateCard_key_loop].
    unfold utils_GenerateSecureRandomString.
    unfold bind at 1. rewrite Hg. unfold bind at 1.
    fold (key_is key). rewrite Hc. reflexivity.
  - intros (w0 & (key0 & w0' & count & Hg0 & Hc0 & Hne) & Hrest) Hg Hc.
    cbn [Nat.add CreateCard_key_loop].
    unfold utils_GenerateSecureRandomString.
    unfold bind at 1. rewrite Hg0. unfold bind at 1.
    fold (key_is key0). rewrite Hc0.
    destruct (N.eqb_spec count 0) as [|_]; [contradiction|].
    apply IH; assumption.
Qed.

Lemma generated_key_nonempty (w w' : World) (key : string) :
  generateSecureRandomStringForLink 20 w = (Ok key, w') -> key <> EmptyString.
Proof.
  unfold generateSecureRandomStringForLink. cbn [Z.leb Z.compare].
  rewrite charsetForLink_length. change (N.of_nat 62) with 62.
  intros Hg. apply fill_bytes_ok in Hg. destruct Hg as [Hlen _].
  intros ->. discriminate Hlen.
Qed.

(** C9. A link that enters [Create] with a non-empty key passes the hook
    untouched: the hook returns it as given in the same world (no random
    draw, no existence check), [Create] is the bare INSERT of that link,
    the link it returns carries the given key, is in the table, and cost
    one INSERT statement and no draw, and it does return one whenever the
    store takes the row.  The card service takes this
    path: its own loop stops after 5 colliding attempts with no key (and
    [CreateCard] then fails before any INSERT), and a candidate it finds
    free is non-empty, so the repository [Create] it calls with that key is
    the bare INSERT. *)
Theorem BeforeCreate_passthrough (db : DB) (l : Link) (w : World) :
  Key l <> EmptyString ->
  Link_BeforeCreate db l w = (Ok l, w) /\
  gorm_Create_Link db l w = gorm_insert db l w /\
  (forall l' w', gorm_Create_Link db l w = (Ok l', w') ->
     Key l' = Key l /\ In l' (links (view db w')) /\ reader w' = reader w /\
     statements w' = (statements w ++ [mkStmt db INSERT (Some t_links)])%list) /\
  (ID (Link_Base l) = 0 ->
   faults w (length (statements w)) = None ->
   (forall y, In y (links (view db w)) ->
      ID (Link_Base y) <> sequences w t_links + 1 /\ Key y <> Key l) ->
   exists l' w', gorm_Create_Link db l w = (Ok l', w') /\
                 Key l' = Key l /\ In l' (links (view db w'))) /\
  (forall s ctx creatorUserID detailData cardType w',
     attempts_collide db 5 w w' ->
     CreateCard_tx s ctx creatorUserID detailData cardType db w
     = (Err ErrCrdLinkCreationFailed, w') /\
     store w' = store w /\
     statements w' = (statements w ++ repeat (mkStmt db COUNT (Some t_links)) 5)%list) /\
  (forall k w1 key w2 w3 ctx creatorUserID typeID, (k < 5)%nat ->
     attempts_collide db k w w1 ->
     generateSecureRandomStringForLink 20 w1 = (Ok key, w2) ->
     gorm_Count db (key_is key) w2 = (Ok 0, w3) ->
     CreateCard_key_loop db maxKeyAttempts w = (Ok key, w3) /\
     key <> EmptyString /\
     LinkRepository_Create (NewLinkRepositoryTx db) (contextWithUserID ctx creatorUserID)
       (mkLink zeroBase key typeID 0 creatorUserID zeroType) w3
     = gorm_insert
         (LinkRepository_getDB (NewLinkRepositoryTx db) (contextWithUserID ctx creatorUserID))
         (mkLink zeroBase key typeID 0 creatorUserID zeroType) w3).
Proof.
  intros Hkey.
  assert (Hhook : forall l0 w0, Key l0 <> EmptyString ->
                                Link_BeforeCreate db l0 w0 = (Ok l0, w0)).
  { intros l0 w0 Hne. unfold Link_BeforeCreate.
    destruct (String.eqb_spec (Key l0) EmptyString) as [|_]; [contradiction|].
    reflexivity. }
  assert (Hcreate : forall l0 w0, Key l0 <> EmptyString ->
                                  gorm_Create_Link db l0 w0 = gorm_insert db l0 w0).
  { intros l0 w0 Hne. unfold gorm_Create_Link, bind. rewrite (Hhook l0 w0 Hne).
    reflexivity. }
  split; [apply Hhook; assumption|].
  split; [apply Hcreate; assumption|].
  split; [|split; [|split]].
  - intros l' w' Hrun. rewrite (Hcreate l w Hkey) in Hrun.
    pose proof (gorm_insert_Link_Ok db l l' w w' Hrun) as (Hk & _ & _ & _ & Hin).
    pose proof (gorm_insert_frame db l _ w w' Hrun) as (Hrd & Hst).
    repeat split; assumption.
  - intros Hid Hfault Hfree.
    destruct (gorm_insert_accepted db l w Hfault) as [w' Hins].
    { exact Hid. }
    { intros y Hin. destruct (Hfree y Hin) as [Hne Hk']. split; [exact Hne|].
      cbn. apply String.eqb_neq. congruence. }
    eexists. exists w'. rewrite (Hcreate l w Hkey). split; [exact Hins|].
    apply gorm_insert_Link_Ok in Hins. split; apply Hins.
  - intros s ctx creatorUserID detailData cardType w' Hall.
    split; [|split].
    + unfold CreateCard_tx, maxKeyAttempts. unfold bind at 1.
      rewrite (CreateCard_key_loop_exhausted db 5 w w' Hall). reflexivity.
    + apply (attempts_collide_store db 5 w w' Hall).
    + apply (attempts_collide_statements db 5 w w' Hall).
  - intros k w1 key w2 w3 ctx creatorUserID typeID Hk Hcoll Hg Hc.
    pose proof (generated_key_nonempty w1 w2 key Hg) as Hne.
    split; [|split].
    + unfold maxKeyAttempts. replace 5%nat with (k + S (4 - k))%nat by lia.
      eapply CreateCard_key_loop_found; eassumption.
    + exact Hne.
    + unfold LinkRepository_Create, gorm_Create_Link, bind, Link_BeforeCreate.
      cbn [Key].
      destruct (String.eqb_spec key EmptyString) as [|_]; [contradiction|].
      reflexivity.
Qed.

Lemma BeforeCreate_passthrough_witness :
  Link_BeforeCreate Pool (link_row 0 "cardkey0000000000000" None)
    (world_of two_links (draws 0))
  = (Ok (link_row 0 "cardkey0000000000000" None), world_of two_links (draws 0)).
Proof.
  exact (proj1 (BeforeCreate_passthrough Pool (link_row 0 "cardkey0000000000000" None)
                  (world_of two_links (draws 0)) ltac:(discriminate))).
Defined.

(** ** Key immutability on update (C5) *)

Lemma Statement_Changed_Key_spec (model : Link) (data : gmap string Value) :
  Statement_Changed_Key (mkStatement model data)
  = match key_entry data with
    | Some v => negb (bool_decide (v = VString (Key model)))
    | None => false
    end.
Proof.
  unfold Statement_Changed_Key, key_entry. cbn.
  destruct (data !! "Key"); [reflexivity|]. destruct (data !! "key"); reflexivity.
Qed.

(** What holds: an update whose map gives the key column any value other
    than the empty string is refused by the hook before any statement is
    sent; the world is unchanged. *)
Lemma LinkRepository_Update_rejects_key (r : LinkRepository) (ctx : Context)
    (id updatedByUserID : uint) (data : gmap string Value) (v : Value) (w : World) :
  id <> 0 -> key_entry data = Some v -> v <> VString EmptyString ->
  LinkRepository_Update r ctx id data updatedByUserID w = (Err KeyImmutableError, w).
Proof.
  intros Hid Hentry Hv. unfold LinkRepository_Update.
  destruct (N.eqb_spec id 0) as [|_]; [contradiction|].
  assert (Hsize : size data <> 0%nat).
  { intros Hz. apply map_size_empty_inv in Hz. subst data.
    unfold key_entry in Hentry. rewrite !lookup_empty in Hentry. discriminate. }
  destruct (Nat.eqb_spec (size data) 0) as [|_]; [contradiction|].
  unfold bind at 1. unfold gorm_Updates_Link, Link_BeforeUpdate.
  rewrite Statement_Changed_Key_spec, Hentry. cbn [Key zeroLink].
  rewrite bool_decide_eq_false_2 by exact Hv. reflexivity.
Qed.

(** C5, at the failing input.  The hook compares the map's value with the
    key of the blank model value [&models.Link{}] that
    [LinkRepository.Update] gives to [Model], so an update that sets the key
    to the empty string is not seen as a change: [Update] returns no error
    and the stored key is overwritten. *)
Theorem LinkRepository_Update_blank_key_overwrites :
  let run := LinkRepository_Update NewLinkRepository context_Background 1 blank_key 7
               (world_of one_link []) in
  map Key (links (committed (world_of one_link []))) = ["aaaaaaaaaaaaaaaaaaaa"] /\
  fst run = Ok tt /\
  map Key (links (committed (snd run))) = [EmptyString] /\
  statements (snd run) = [mkStmt Pool UPDATE (Some t_links)].
Proof. vm_compute. repeat split; reflexivity. Qed.

Lemma write_keys (db : DB) (f : Tables -> Tables) (w : World) :
  (forall t, keys (f t) = keys t) -> stored_keys (write db f w) = stored_keys w.
Proof.
  intros Hf. unfold stored_keys, write.
  destruct db; cbn.
  - rewrite Hf. destruct (txview w); cbn; rewrite ?Hf; reflexivity.
  - destruct (txview w) eqn:Htx; cbn; rewrite ?Htx, ?Hf; cbn; rewrite ?Hf; reflexivity.
Qed.

Lemma set_columns_keeps_key (data : gmap string Value) (l l' : Link) :
  key_entry data = None -> set_columns data l = Ok l' -> Key l' = Key l.
Proof.
  intros Hentry. unfold key_entry in Hentry.
  destruct (data !! "Key") eqn:HK; [discriminate|].
  unfold set_columns.
  match goal with |- context [negb ?b] => destruct b end; cbn [negb]; [|discriminate].
  unfold column at 1. rewrite HK, Hentry. cbn [as_string].
  destruct (as_uint (column data "TypeID" "type_id") (TypeID l)); [|discriminate].
  destruct (as_uint (column data "TargetID" "target_id") (TargetID l)); [|discriminate].
  destruct (as_uint (column data "CreatorUserID" "creator_user_id") (CreatorUserID l));
    [|discriminate].
  intros Heq; inversion Heq; reflexivity.
Qed.

Lemma update_row_keeps_key (data : gmap string Value) (cond : Link -> bool) (l : Link) :
  key_entry data = None -> Key (update_row data cond l) = Key l.
Proof.
  intros Hentry. unfold update_row.
  destruct (live l && cond l); [|reflexivity].
  destruct (set_columns data l) eqn:Hset; [|reflexivity].
  eapply set_columns_keeps_key; eassumption.
Qed.

(** What holds: an update whose map does not name the key column (the
    target backfill is one) leaves every stored key as it was, whatever it
    returns. *)
Lemma LinkRepository_Update_keeps_keys (r : LinkRepository) (ctx : Context)
    (id updatedByUserID : uint) (data : gmap string Value) (w : World) :
  key_entry data = None ->
  stored_keys (snd (LinkRepository_Update r ctx id data updatedByUserID w)) = stored_keys w.
Proof.
  intros Hentry. unfold LinkRepository_Update.
  destruct (id =? 0); [reflexivity|].
  destruct (size data =? 0)%nat; [reflexivity|].
  set (db := LinkRepository_getDB r (contextWithUserID ctx updatedByUserID)).
  set (by_id := fun l : Link => ID (Link_Base l) =? id).
  unfold bind at 1. unfold gorm_Updates_Link, Link_BeforeUpdate.
  rewrite Statement_Changed_Key_spec, Hentry.
  unfold bind at 1, exec. cbn [fst snd].
  destruct (faults w (length (statements w))); [reflexivity|]. cbn [fmap option_fmap option_map].
  unfold bind at 1, get.
  destruct (set_columns data zeroLink); [|reflexivity].
  match goal with |- context [existsb ?f ?l] => destruct (existsb f l) end; [reflexivity|].
  unfold bind at 1, modify, ret.
  match goal with
  | |- context [write db ?f ?w0] =>
      assert (Hkeys : stored_keys (write db f w0) = stored_keys w);
      [rewrite write_keys; [reflexivity|]|]
  end.
  { intros t. unfold keys. cbn. rewrite map_map. apply map_ext.
    intros l. apply update_row_keeps_key. exact Hentry. }
  match goal with |- context [N.of_nat ?n =? 0] => destruct (N.of_nat n =? 0) end;
    [|exact Hkeys].
  unfold bind.
  match goal with
  | |- context [gorm_Count db by_id ?w0] =>
      destruct (gorm_Count db by_id w0) as [c w1] eqn:Hc
  end.
  apply gorm_Count_frame in Hc.
  assert (stored_keys w1 = stored_keys w) by (rewrite Hc; exact Hkeys).
  destruct c as [[|p]|e]; assumption.
Qed.

(** ** Link creation and the enclosing transaction (C1) *)

(** C1, at the failing input.  The resource insert fails and each
    operation returns its creation error after rolling the transaction
    back.  [CreateAppointment] and [CreateForm] issue the link through the
    link service, whose repository is bound to the connection pool and is
    given a context without a ["tx"] value: the link row was committed on
    its own and is still there, with target 0, after the rollback.
    [CreateCard] issues it through the repository built on the transaction
    handle: nothing is left. *)
Theorem CreateAppointment_rollback_leaves_link :
  let app := AppointmentService_CreateAppointment NewAppointmentService
               context_Background 7 None an_appointment resource_insert_fails in
  let frm := FormService_CreateForm NewFormService context_Background 7 None a_form
               resource_insert_fails in
  let crd := CardService_CreateCard NewCardService context_Background 7 a_card
               resource_insert_fails in
  (fst app = Err (Sentinel ErrAppointmentCreationFailed) /\
   appointments (committed (snd app)) = [] /\
   txview (snd app) = None /\
   links (committed (snd app))
   = [mkLink (mkBaseModel 1 None) "aaaaaaaaaaaaaaaaaaaa" 2 0 7 zeroType]) /\
  (fst frm = Err (Sentinel ErrFormCreationFailed) /\
   forms (committed (snd frm)) = [] /\
   txview (snd frm) = None /\
   links (committed (snd frm))
   = [mkLink (mkBaseModel 1 None) "aaaaaaaaaaaaaaaaaaaa" 3 0 7 zeroType]) /\
  (fst crd = Err (Sentinel ErrCardCreationFailed) /\
   cards (committed (snd crd)) = [] /\
   txview (snd crd) = None /\
   links (committed (snd crd)) = []).
Proof. vm_compute. repeat split; reflexivity. Qed.

(** The statements of the failing appointment creation, in order: the link
    is checked and inserted on the pool, between BEGIN and ROLLBACK. *)
Example CreateAppointment_statements :
  statements (snd (AppointmentService_CreateAppointment NewAppointmentService
                     context_Background 7 None an_appointment resource_insert_fails))
  = [mkStmt Pool SELECT (Some t_types); mkStmt Pool BEGIN None;
     mkStmt Pool COUNT (Some t_links); mkStmt Pool INSERT (Some t_links);
     mkStmt Tx INSERT (Some t_appointments); mkStmt Pool ROLLBACK None].
Proof. vm_compute. reflexivity. Qed.

(** On success, too, the appointment's link is written outside the
    transaction: both the insert and the target backfill go to the pool. *)
Example CreateAppointment_success_statements :
  let run := AppointmentService_CreateAppointment NewAppointmentService
               context_Background 7 None an_appointment
               (world_of seeded (draws 0)) in
  is_Err (fst run) = false /\
  statements (snd run)
  = [mkStmt Pool SELECT (Some t_types); mkStmt Pool BEGIN None;
     mkStmt Pool COUNT (Some t_links); mkStmt Pool INSERT (Some t_links);
     mkStmt Tx INSERT (Some t_appointments); mkStmt Pool UPDATE (Some t_links);
     mkStmt Pool COMMIT None] /\
  map TargetID (links (committed (snd run))) = [101].
Proof. vm_compute. repeat split; reflexivity. Qed.

(** *** The card path is atomic *)

Lemma tx_only_refl (w : World) : is_Some (txview w) -> tx_only w w.
Proof. intros Hs. split; [reflexivity|exact Hs]. Qed.

Lemma tx_only_trans (w1 w2 w3 : World) : tx_only w1 w2 -> tx_only w2 w3 -> tx_only w1 w3.
Proof. intros [H1 _] [H2 H3]. split; [congruence|exact H3]. Qed.

Lemma store_tx_only (w w' : World) :
  is_Some (txview w) -> store w' = store w -> tx_only w w'.
Proof.
  intros Hs Hst. unfold store in Hst. inversion Hst as [[Hc Ht]].
  split; [exact Hc|]. rewrite Ht. exact Hs.
Qed.

Lemma gorm_Count_store {T} `{Schema T} (db : DB) (cond : T -> bool) (r : result N)
    (w w' : World) :
  gorm_Count db cond w = (r, w') -> store w' = store w.
Proof. intros Hc. apply gorm_Count_frame in Hc. rewrite Hc. reflexivity. Qed.

Lemma generate_store (length : Z) (r : result string) (w w' : World) :
  generateSecureRandomStringForLink length w = (r, w') -> store w' = store w.
Proof. intros Hg. apply generate_frame in Hg. rewrite Hg. reflexivity. Qed.

Lemma gorm_First_store {T} `{Schema T} (db : DB) (cond : T -> bool) (r : result T)
    (w w' : World) :
  gorm_First db cond w = (r, w') -> store w' = store w.
Proof.
  unfold gorm_First, exec. unfold_monad.
  destruct (faults w (length (statements w))); cbn.
  - intros Heq; inversion Heq; reflexivity.
  - match goal with |- context [first_by_id ?l] => destruct (first_by_id l) end;
      intros Heq; inversion Heq; reflexivity.
Qed.

Lemma BeforeCreate_loop_store (tx : DB) (l : Link) (n : nat) (r : result Link)
    (w w' : World) :
  BeforeCreate_loop tx l n w = (r, w') -> store w' = store w.
Proof.
  revert w. induction n as [|n IH]; intros w; cbn [BeforeCreate_loop].
  - intros Heq; inversion Heq; reflexivity.
  - unfold bind at 1.
    destruct (generateSecureRandomStringForLink 20 w) as [g w1] eqn:Hg.
    apply generate_store in Hg.
    destruct g as [key|e]; [|intros Heq; inversion Heq; subst; exact Hg].
    unfold bind at 1.
    match goal with
    | |- context [gorm_Count tx ?c w1] => destruct (gorm_Count tx c w1) as [c0 w2] eqn:Hc
    end.
    apply gorm_Count_store in Hc.
    destruct c0 as [count|e]; [|intros Heq; inversion Heq; subst; congruence].
    destruct (count =? 0).
    + intros Heq; inversion Heq; subst; congruence.
    + intros Hrest. apply IH in Hrest. congruence.
Qed.

Lemma Link_BeforeCreate_store (tx : DB) (l : Link) (r : result Link) (w w' : World) :
  Link_BeforeCreate tx l w = (r, w') -> store w' = store w.
Proof.
  unfold Link_BeforeCreate. destruct (negb (String.eqb (Key l) EmptyString)).
  - intros Heq; inversion Heq; reflexivity.
  - apply BeforeCreate_loop_store.
Qed.

Lemma CreateCard_key_loop_store (tx : DB) (n : nat) (r : result string) (w w' : World) :
  CreateCard_key_loop tx n w = (r, w') -> store w' = store w.
Proof.
  revert w. induction n as [|n IH]; intros w; cbn [CreateCard_key_loop].
  - intros Heq; inversion Heq; reflexivity.
  - unfold utils_GenerateSecureRandomString. unfold bind at 1.
    destruct (generateSecureRandomStringForLink 20 w) as [g w1] eqn:Hg.
    apply generate_store in Hg.
    destruct g as [key|e]; [|intros Heq; inversion Heq; subst; exact Hg].
    unfold bind at 1.
    match goal with
    | |- context [gorm_Count tx ?c w1] => destruct (gorm_Count tx c w1) as [c0 w2] eqn:Hc
    end.
    apply gorm_Count_store in Hc.
    destruct c0 as [count|e]; [|intros Heq; inversion Heq; subst; congruence].
    destruct (count =? 0).
    + intros Heq; inversion Heq; subst; congruence.
    + intros Hrest. apply IH in Hrest. congruence.
Qed.

Lemma gorm_insert_Tx {T} `{Schema T} (x : T) (r : result T) (w w' : World) :
  is_Some (txview w) -> gorm_insert Tx x w = (r, w') -> tx_only w w'.
Proof.
  intros Hs. unfold gorm_insert, exec, nextval. unfold_monad.
  destruct (faults w (length (statements w))); cbn.
  { intros Heq; inversion Heq; subst. split; [reflexivity|exact Hs]. }
  destruct Hs as [t0 Ht].
  destruct (ID (base x) =? 0); cbn; rewrite ?Ht;
    match goal with |- context [existsb ?f ?l] => destruct (existsb f l) end;
    intros Heq; inversion Heq; subst; split; cbn; rewrite ?Ht; eauto.
Qed.

Lemma gorm_Updates_Link_Tx (model : Link) (cond : Link -> bool) (data : gmap string Value)
    (r : result N) (w w' : World) :
  is_Some (txview w) -> gorm_Updates_Link Tx model cond data w = (r, w') -> tx_only w w'.
Proof.
  intros Hs. unfold gorm_Updates_Link.
  destruct (Link_BeforeUpdate (mkStatement model data)).
  2:{ intros Heq; inversion Heq; subst. apply tx_only_refl, Hs. }
  unfold exec. unfold_monad.
  destruct (faults w (length (statements w))); cbn.
  { intros Heq; inversion Heq; subst. split; [reflexivity|exact Hs]. }
  destruct (set_columns data model).
  2:{ intros Heq; inversion Heq; subst. split; [reflexivity|exact Hs]. }
  destruct Hs as [t0 Ht]. rewrite ?Ht.
  match goal with |- context [existsb ?f ?l] => destruct (existsb f l) end;
    intros Heq; inversion Heq; subst; split; cbn; rewrite ?Ht; eauto.
Qed.

Lemma LinkRepository_Update_Tx (ctx : Context) (id updatedByUserID : uint)
    (data : gmap string Value) (r : result unit) (w w' : World) :
  ctx_tx ctx = None -> is_Some (txview w) ->
  LinkRepository_Update (NewLinkRepositoryTx Tx) ctx id data updatedByUserID w = (r, w') ->
  tx_only w w'.
Proof.
  intros Hctx Hs. unfold LinkRepository_Update.
  destruct (id =? 0); [intros Heq; inversion Heq; subst; apply tx_only_refl, Hs|].
  destruct (size data =? 0)%nat;
    [intros Heq; inversion Heq; subst; apply tx_only_refl, Hs|].
  unfold LinkRepository_getDB, contextWithUserID. cbn [ctx_tx]. rewrite Hctx.
  cbn [NewLinkRepositoryTx LinkRepository_db].
  unfold bind at 1.
  match goal with
  | |- context [gorm_Updates_Link Tx ?m ?c data w] =>
      destruct (gorm_Updates_Link Tx m c data w) as [u w1] eqn:Hu
  end.
  apply (gorm_Updates_Link_Tx _ _ _ _ _ _ Hs) in Hu.
  destruct u as [n|e]; [|intros Heq; inversion Heq; subst; exact Hu].
  destruct (n =? 0); [|intros Heq; inversion Heq; subst; exact Hu].
  unfold bind.
  match goal with
  | |- context [gorm_Count Tx ?c w1] => destruct (gorm_Count Tx c w1) as [c0 w2] eqn:Hc
  end.
  apply gorm_Count_store in Hc.
  assert (tx_only w w2).
  { eapply tx_only_trans; [exact Hu|]. apply store_tx_only; [apply Hu|exact Hc]. }
  destruct c0 as [[|p]|e]; intros Heq; inversion Heq; subst; assumption.
Qed.

Lemma gorm_Create_Link_Tx (l : Link) (r : result Link) (w w' : World) :
  is_Some (txview w) -> gorm_Create_Link Tx l w = (r, w') -> tx_only w w'.
Proof.
  intros Hs. unfold gorm_Create_Link, bind.
  destruct (Link_BeforeCreate Tx l w) as [h w1] eqn:Hh.
  apply Link_BeforeCreate_store in Hh.
  pose proof (store_tx_only w w1 Hs Hh) as Hstep.
  destruct h as [l'|e]; [|intros Heq; inversion Heq; subst; exact Hstep].
  intros Hins. eapply tx_only_trans; [exact Hstep|].
  exact (@gorm_insert_Tx Link _ l' r w1 w' (proj2 Hstep) Hins).
Qed.

(** Every step of the closure of [CreateCard] stays inside the
    transaction. *)
Lemma CreateCard_tx_only (s : CardService) (ctx : Context) (creatorUserID : uint)
    (detailData : CardDetail) (cardType : Type_) (r : result Card) (w w' : World) :
  ctx_tx ctx = None -> is_Some (txview w) ->
  CreateCard_tx s ctx creatorUserID detailData cardType Tx w = (r, w') ->
  tx_only w w'.
Proof.
  intros Hctx Hs. unfold CreateCard_tx. unfold bind at 1.
  destruct (CreateCard_key_loop Tx maxKeyAttempts w) as [kr w1] eqn:Hk.
  apply CreateCard_key_loop_store in Hk.
  pose proof (store_tx_only w w1 Hs Hk) as H1.
  destruct kr as [linkKey|e]; [|intros Heq; inversion Heq; subst; exact H1].
  destruct (String.eqb linkKey EmptyString);
    [intros Heq; inversion Heq; subst; exact H1|].
  unfold bind at 1. unfold LinkRepository_Create, LinkRepository_getDB, contextWithUserID.
  cbn [ctx_tx]. rewrite Hctx. cbn [NewLinkRepositoryTx LinkRepository_db].
  match goal with
  | |- context [gorm_Create_Link Tx ?l w1] =>
      destruct (gorm_Create_Link Tx l w1) as [lr w2] eqn:Hl
  end.
  apply (gorm_Create_Link_Tx _ _ _ _ (proj2 H1)) in Hl.
  pose proof (tx_only_trans _ _ _ H1 Hl) as H2.
  destruct lr as [link|e]; [|intros Heq; inversion Heq; subst; exact H2].
  unfold bind at 1. unfold CardRepository_CreateCard.
  cbn [NewCardRepositoryTx Repository_db].
  match goal with
  | |- context [gorm_insert Tx ?c w2] =>
      destruct (gorm_insert Tx c w2) as [cr w3] eqn:Hc
  end.
  apply (@gorm_insert_Tx Card _ _ _ _ _ (proj2 H2)) in Hc.
  pose proof (tx_only_trans _ _ _ H2 Hc) as H3.
  destruct cr as [card|e]; [|intros Heq; inversion Heq; subst; exact H3].
  unfold bind at 1.
  match goal with
  | |- context [LinkRepository_Update ?r ?c ?i ?d ?u w3] =>
      destruct (LinkRepository_Update r c i d u w3) as [ur w4] eqn:Hu
  end.
  apply LinkRepository_Update_Tx in Hu; [|reflexivity|exact (proj2 H3)].
  pose proof (tx_only_trans _ _ _ H3 Hu) as H4.
  destruct ur; intros Heq; inversion Heq; subst; exact H4.
Qed.

(** A transaction whose closure stays inside it and that returns an error
    leaves the committed tables as they were at BEGIN. *)
Lemma gorm_Transaction_Err {A} (fc : DB -> M (result A)) (e : error) (w w' : World) :
  (forall w0 r w1, is_Some (txview w0) -> fc Tx w0 = (r, w1) -> tx_only w0 w1) ->
  gorm_Transaction fc w = (Err e, w') ->
  committed w' = committed w /\ (txview w = None -> txview w' = None).
Proof.
  intros Hfc. unfold gorm_Transaction, exec. unfold bind at 1.
  destruct (faults w (length (statements w))); cbn [fmap option_fmap option_map].
  { unfold ret. intros Heq; inversion Heq; subst. split; [reflexivity|tauto]. }
  unfold bind at 1, modify. unfold bind at 1.
  match goal with
  | |- context [fc Tx ?w0] => destruct (fc Tx w0) as [r w1] eqn:Hr
  end.
  apply Hfc in Hr; [|cbn; eauto]. destruct Hr as [Hc _]. cbn in Hc.
  destruct r as [a|e0].
  - unfold bind at 1.
    destruct (faults w1 (length (statements w1))); cbn [fmap option_fmap option_map].
    + unfold bind, modify, ret. intros Heq; inversion Heq; subst.
      split; [exact Hc|reflexivity].
    + unfold bind, modify, ret. intros Heq; discriminate Heq.
  - unfold bind, modify, ret. intros Heq; inversion Heq; subst.
    split; [exact Hc|reflexivity].
Qed.

(** The card service keeps the promise of the spec: whenever [CreateCard]
    returns an error, the committed tables are exactly as before the call
    and no transaction is left open (the request context carries no
    handle of its own, as everywhere in the code). *)
Theorem CreateCard_atomic (s : CardService) (ctx : Context) (creatorUserID : uint)
    (detailData : CardDetail) (e : error) (w w' : World) :
  ctx_tx ctx = None -> txview w = None ->
  CardService_CreateCard s ctx creatorUserID detailData w = (Err e, w') ->
  committed w' = committed w /\ txview w' = None.
Proof.
  intros Hctx Htx. unfold CardService_CreateCard.
  destruct (ValidateCardDetail detailData);
    [|intros Heq; inversion Heq; subst; split; [reflexivity|exact Htx]].
  destruct (creatorUserID =? 0);
    [intros Heq; inversion Heq; subst; split; [reflexivity|exact Htx]|].
  unfold bind at 1. unfold TypeRepository_FindByName.
  match goal with
  | |- context [gorm_First Pool ?c w] => destruct (gorm_First Pool c w) as [t w1] eqn:Ht
  end.
  apply gorm_First_store in Ht. unfold store in Ht. inversion Ht as [[Hc1 Ht1]].
  destruct t as [cardType|e0].
  - intros Hrun. apply gorm_Transaction_Err in Hrun.
    + destruct Hrun as [Hc Hv]. split; [congruence|]. apply Hv. congruence.
    + intros w0 r w2 Hs Hbody. eapply CreateCard_tx_only; eassumption.
  - intros Heq; inversion Heq; subst. split; congruence.
Qed.

Lemma CreateCard_atomic_witness :
  committed (snd (CardService_CreateCard NewCardService context_Background 7 a_card
                    resource_insert_fails))
  = committed resource_insert_fails.
Proof.
  refine (proj1 (CreateCard_atomic NewCardService context_Background 7 a_card
                   (Sentinel ErrCardCreationFailed) resource_insert_fails _ eq_refl eq_refl _)).
  vm_compute. reflexivity.
Defined.

(** ** The public lookups (C6) *)

Lemma read_only_refl (w : World) : read_only w w.
Proof. unfold read_only. destruct w; reflexivity. Qed.

Lemma read_only_trans (w1 w2 w3 : World) :
  read_only w1 w2 -> read_only w2 w3 -> read_only w1 w3.
Proof. unfold read_only. intros H1 H2. rewrite H2, H1. reflexivity. Qed.

Lemma read_only_now (w w' : World) : read_only w w' -> now w' = now w.
Proof. intros H. rewrite H. reflexivity. Qed.

#[global] Hint Resolve read_only_refl : go_model.

(** Close a goal [read_only w w'] reached by returning from world [w1]
    with [H : read_only w w1]. *)
Ltac returned H :=
  let Heq := fresh "Heq" in
  intros Heq; inversion Heq; subst; first [exact H | solve [auto with go_model]].

Lemma gorm_First_read_only {T} `{Schema T} (db : DB) (cond : T -> bool) (r : result T)
    (w w' : World) :
  gorm_First db cond w = (r, w') -> read_only w w'.
Proof.
  unfold gorm_First, exec, read_only. unfold_monad.
  destruct (faults w (length (statements w))); cbn.
  - intros Heq; inversion Heq; reflexivity.
  - match goal with |- context [first_by_id ?l] => destruct (first_by_id l) end;
      intros Heq; inversion Heq; reflexivity.
Qed.

Lemma gorm_Find_read_only {T} `{Schema T} (db : DB) (cond : T -> bool)
    (r : result (list T)) (w w' : World) :
  gorm_Find db cond w = (r, w') -> read_only w w'.
Proof.
  unfold gorm_Find, exec, read_only. unfold_monad.
  destruct (faults w (length (statements w))); cbn;
    intros Heq; inversion Heq; reflexivity.
Qed.

Lemma preload_Type_read_only (db : DB) (l : Link) (r : result Link) (w w' : World) :
  preload_Type db l w = (r, w') -> read_only w w'.
Proof.
  unfold preload_Type, bind.
  match goal with
  | |- context [gorm_Find db ?c w] => destruct (gorm_Find db c w) as [ts w1] eqn:Hf
  end.
  apply gorm_Find_read_only in Hf.
  destruct ts as [[|t ts]|e]; returned Hf.
Qed.

Lemma LinkRepository_FindByKey_read_only (r : LinkRepository) (ctx : Context)
    (key : string) (res : result Link) (w w' : World) :
  LinkRepository_FindByKey r ctx key w = (res, w') -> read_only w w'.
Proof.
  unfold LinkRepository_FindByKey.
  destruct (String.eqb key EmptyString); [returned (read_only_refl w)|].
  unfold bind at 1.
  match goal with
  | |- context [gorm_First ?db ?c w] => destruct (gorm_First db c w) as [f w1] eqn:Hf
  end.
  apply gorm_First_read_only in Hf.
  unfold bind at 1.
  destruct f as [l|e].
  - destruct (preload_Type (LinkRepository_getDB r ctx) l w1) as [p w2] eqn:Hp.
    apply preload_Type_read_only in Hp.
    pose proof (read_only_trans _ _ _ Hf Hp) as H2.
    destruct p as [l'|e]; [returned H2|].
    destruct (errors_Is e gorm_ErrRecordNotFound); returned H2.
  - unfold ret. destruct (errors_Is e gorm_ErrRecordNotFound); returned Hf.
Qed.

Lemma LinkService_GetLinkByKey_read_only (s : LinkService) (ctx : Context)
    (key : string) (res : result Link) (w w' : World) :
  LinkService_GetLinkByKey s ctx key w = (res, w') -> read_only w w'.
Proof.
  unfold LinkService_GetLinkByKey, bind.
  destruct (LinkRepository_FindByKey (LinkService_repo s) ctx key w) as [r w1] eqn:Hr.
  apply LinkRepository_FindByKey_read_only in Hr.
  destruct r as [l|e]; [returned Hr|].
  destruct (errors_Is e gorm_ErrRecordNotFound); returned Hr.
Qed.

Section ResourceReads.
Context {T : Type} `{Schema T} `{Resource T}.

Lemma preload_Link_Type_read_only (db : DB) (x : T) (r : result T) (w w' : World) :
  preload_Link_Type db x w = (r, w') -> read_only w w'.
Proof.
  unfold preload_Link_Type. unfold bind at 1.
  match goal with
  | |- context [gorm_Find db ?c w] => destruct (gorm_Find db c w) as [ls w1] eqn:Hf
  end.
  apply gorm_Find_read_only in Hf.
  destruct ls as [[|l ls]|e]; try returned Hf.
  unfold bind.
  destruct (preload_Type db l w1) as [t w2] eqn:Hp.
  apply preload_Type_read_only in Hp.
  pose proof (read_only_trans _ _ _ Hf Hp) as H2.
  destruct t; returned H2.
Qed.

Lemma First_with_preloads_read_only (db : DB) (id : uint) (r : result T) (w w' : World) :
  First_with_preloads db id w = (r, w') -> read_only w w'.
Proof.
  unfold First_with_preloads, bind.
  match goal with
  | |- context [gorm_First db ?c w] => destruct (gorm_First db c w) as [f w1] eqn:Hf
  end.
  apply gorm_First_read_only in Hf.
  destruct f as [x|e]; [|returned Hf].
  intros Hp. apply preload_Link_Type_read_only in Hp.
  eapply read_only_trans; eassumption.
Qed.

Lemma Repository_FindByID_read_only (msg : string) (r : Repository) (ctx : Context)
    (id : uint) (res : result T) (w w' : World) :
  Repository_FindByID msg r ctx id w = (res, w') -> read_only w w'.
Proof.
  unfold Repository_FindByID.
  destruct (id =? 0); [returned (read_only_refl w)|].
  unfold bind.
  destruct (First_with_preloads (Repository_getDB r ctx) id w) as [f w1] eqn:Hf.
  apply First_with_preloads_read_only in Hf.
  destruct f as [x|e]; [returned Hf|].
  destruct (errors_Is e gorm_ErrRecordNotFound); returned Hf.
Qed.

End ResourceReads.

Lemma CardRepository_GetCardByID_read_only (r : Repository) (id : uint)
    (res : result Card) (w w' : World) :
  CardRepository_GetCardByID r id w = (res, w') -> read_only w w'.
Proof.
  unfold CardRepository_GetCardByID, bind.
  destruct (First_with_preloads (Repository_db r) id w) as [f w1] eqn:Hf.
  apply (First_with_preloads_read_only (T:=Card)) in Hf.
  destruct f as [x|e]; [returned Hf|].
  destruct (errors_Is e gorm_ErrRecordNotFound); returned Hf.
Qed.

Ltac error_return :=
  let Heq := fresh "Heq" in
  intros Heq; inversion Heq; subst; discriminate.

Lemma visible_enabled_unexpired (t : Time) (enabled : bool) (expiry : option Time) :
  visible t enabled expiry = true <->
  enabled = true /\ forall e, expiry = Some e -> Time_After t e = false.
Proof.
  unfold visible. split.
  - intros Hv. apply andb_true_iff in Hv. destruct Hv as [He Hx].
    split; [exact He|]. intros e ->. apply negb_true_iff in Hx. exact Hx.
  - intros [-> Hx]. cbn. destruct expiry as [e|]; [|reflexivity].
    rewrite (Hx e eq_refl). reflexivity.
Qed.

Lemma GetAppointmentByKey_returns_visible (s : AppointmentService) (ctx : Context)
    (key : string) (w w' : World) (a : Appointment) :
  AppointmentService_GetAppointmentByKey s ctx key w = (Ok a, w') ->
  visible (now w) (Appointment_IsEnabled a)
          (AppointmentDetail_ExpiresAt (Appointment_Detail a)) = true.
Proof.
  unfold AppointmentService_GetAppointmentByKey.
  destruct (String.eqb key EmptyString); [error_return|].
  unfold bind at 1.
  destruct (LinkService_GetLinkByKey (AppointmentService_linkService s) ctx key w)
    as [lr w1] eqn:Hl.
  apply LinkService_GetLinkByKey_read_only in Hl.
  destruct lr as [link|e]; [|destruct (errors_Is e ErrLinkNotFound); error_return].
  destruct (negb (String.eqb (Name (Link_Type link)) TypeNameAppointment)); [error_return|].
  unfold bind at 1.
  destruct (AppointmentRepository_FindByID (AppointmentService_repo s) ctx (TargetID link) w1)
    as [ar w2] eqn:Ha.
  apply Repository_FindByID_read_only in Ha.
  pose proof (read_only_now _ _ (read_only_trans _ _ _ Hl Ha)) as Hnow.
  destruct ar as [x|e]; [|destruct (errors_Is e repositories_ErrNotFound); error_return].
  unfold bind, get. rewrite Hnow. unfold visible.
  destruct (Appointment_IsEnabled x) eqn:He; cbn [negb]; [|error_return].
  destruct (AppointmentDetail_ExpiresAt (Appointment_Detail x)) as [t|] eqn:Hx.
  - destruct (Time_After (now w) t) eqn:Ht; [error_return|].
    intros Heq; inversion Heq; subst. rewrite He, Hx. cbn. rewrite Ht. reflexivity.
  - intros Heq; inversion Heq; subst. rewrite He, Hx. reflexivity.
Qed.

Lemma GetAppointmentByKey_checks (s : AppointmentService) (ctx : Context)
    (key : string) (w w1 w2 : World) (link : Link) (a : Appointment) :
  key <> EmptyString ->
  LinkService_GetLinkByKey (AppointmentService_linkService s) ctx key w = (Ok link, w1) ->
  Name (Link_Type link) = TypeNameAppointment ->
  AppointmentRepository_FindByID (AppointmentService_repo s) ctx (TargetID link) w1
  = (Ok a, w2) ->
  AppointmentService_GetAppointmentByKey s ctx key w
  = (if visible (now w) (Appointment_IsEnabled a)
                (AppointmentDetail_ExpiresAt (Appointment_Detail a))
     then Ok a else Err ErrAppointmentNotFound, w2).
Proof.
  intros Hkey Hl Hname Ha. unfold AppointmentService_GetAppointmentByKey.
  destruct (String.eqb_spec key EmptyString) as [|_]; [contradiction|].
  pose proof (read_only_now _ _ (read_only_trans _ _ _
                (LinkService_GetLinkByKey_read_only _ _ _ _ _ _ Hl)
                (Repository_FindByID_read_only _ _ _ _ _ _ _ Ha))) as Hnow.
  unfold bind at 1. rewrite Hl, Hname. cbn [String.eqb negb].
  rewrite String.eqb_refl. cbn [negb].
  unfold bind at 1. rewrite Ha. unfold bind, get. rewrite Hnow. unfold visible.
  destruct (Appointment_IsEnabled a); cbn [negb andb]; [|reflexivity].
  destruct (AppointmentDetail_ExpiresAt (Appointment_Detail a)) as [t|]; [|reflexivity].
  destruct (Time_After (now w) t); reflexivity.
Qed.

Lemma GetFormByKey_returns_visible (s : FormService) (ctx : Context)
    (key : string) (w w' : World) (f : Form) :
  FormService_GetFormByKey s ctx key w = (Ok f, w') ->
  visible (now w) (Form_IsEnabled f) (ClosesAt (Form_Detail f)) = true.
Proof.
  unfold FormService_GetFormByKey.
  destruct (String.eqb key EmptyString); [error_return|].
  unfold bind at 1.
  destruct (LinkService_GetLinkByKey (FormService_linkService s) ctx key w)
    as [lr w1] eqn:Hl.
  apply LinkService_GetLinkByKey_read_only in Hl.
  destruct lr as [link|e]; [|error_return].
  destruct (negb (String.eqb (Name (Link_Type link)) TypeNameForm)); [error_return|].
  unfold bind at 1.
  destruct (FormRepository_FindByID (FormService_repo s) ctx (TargetID link) w1)
    as [fr w2] eqn:Ha.
  apply Repository_FindByID_read_only in Ha.
  pose proof (read_only_now _ _ (read_only_trans _ _ _ Hl Ha)) as Hnow.
  destruct fr as [x|e]; [|error_return].
  unfold bind, get. rewrite Hnow. unfold visible.
  destruct (Form_IsEnabled x) eqn:He; cbn [negb]; [|error_return].
  destruct (ClosesAt (Form_Detail x)) as [t|] eqn:Hx.
  - destruct (Time_After (now w) t) eqn:Ht; [error_return|].
    intros Heq; inversion Heq; subst. rewrite He, Hx. cbn. rewrite Ht. reflexivity.
  - intros Heq; inversion Heq; subst. rewrite He, Hx. reflexivity.
Qed.

Lemma GetFormByKey_checks (s : FormService) (ctx : Context)
    (key : string) (w w1 w2 : World) (link : Link) (f : Form) :
  key <> EmptyString ->
  LinkService_GetLinkByKey (FormService_linkService s) ctx key w = (Ok link, w1) ->
  Name (Link_Type link) = TypeNameForm ->
  FormRepository_FindByID (FormService_repo s) ctx (TargetID link) w1 = (Ok f, w2) ->
  FormService_GetFormByKey s ctx key w
  = (if visible (now w) (Form_IsEnabled f) (ClosesAt (Form_Detail f))
     then Ok f else Err ErrFormNotFound, w2).
Proof.
  intros Hkey Hl Hname Ha. unfold FormService_GetFormByKey.
  destruct (String.eqb_spec key EmptyString) as [|_]; [contradiction|].
  pose proof (read_only_now _ _ (read_only_trans _ _ _
                (LinkService_GetLinkByKey_read_only _ _ _ _ _ _ Hl)
                (Repository_FindByID_read_only _ _ _ _ _ _ _ Ha))) as Hnow.
  unfold bind at 1. rewrite Hl, Hname. rewrite String.eqb_refl. cbn [negb].
  unfold bind at 1. rewrite Ha. unfold bind, get. rewrite Hnow. unfold visible.
  destruct (Form_IsEnabled f); cbn [negb andb]; [|reflexivity].
  destruct (ClosesAt (Form_Detail f)) as [t|]; [|reflexivity].
  destruct (Time_After (now w) t); reflexivity.
Qed.

Lemma GetInvitationByKey_returns_visible (s : InvitationService) (ctx : Context)
    (key : string) (w w' : World) (i : Invitation) :
  InvitationService_GetInvitationByKey s ctx key w = (Ok i, w') ->
  visible (now w) (Invitation_IsEnabled i)
          (InvitationDetail_ExpiresAt (Invitation_Detail i)) = true.
Proof.
  unfold InvitationService_GetInvitationByKey.
  destruct (String.eqb key EmptyString); [error_return|].
  unfold bind at 1.
  destruct (LinkService_GetLinkByKey (InvitationService_linkService s) ctx key w)
    as [lr w1] eqn:Hl.
  apply LinkService_GetLinkByKey_read_only in Hl.
  destruct lr as [link|e]; [|destruct (errors_Is e ErrLinkNotFound); error_return].
  destruct (negb (String.eqb (Name (Link_Type link)) TypeNameInvitation)); [error_return|].
  unfold bind at 1.
  destruct (InvitationRepository_FindByID (InvitationService_repo s) ctx (TargetID link) w1)
    as [ar w2] eqn:Ha.
  apply Repository_FindByID_read_only in Ha.
  pose proof (read_only_now _ _ (read_only_trans _ _ _ Hl Ha)) as Hnow.
  destruct ar as [x|e]; [|destruct (errors_Is e repositories_ErrNotFound); error_return].
  unfold bind, get. rewrite Hnow. unfold visible.
  destruct (Invitation_IsEnabled x) eqn:He; cbn [negb]; [|error_return].
  destruct (InvitationDetail_ExpiresAt (Invitation_Detail x)) as [t|] eqn:Hx.
  - destruct (Time_After (now w) t) eqn:Ht; [error_return|].
    intros Heq; inversion Heq; subst. rewrite He, Hx. cbn. rewrite Ht. reflexivity.
  - intros Heq; inversion Heq; subst. rewrite He, Hx. reflexivity.
Qed.

Lemma GetInvitationByKey_checks (s : InvitationService) (ctx : Context)
    (key : string) (w w1 w2 : World) (link : Link) (i : Invitation) :
  key <> EmptyString ->
  LinkService_GetLinkByKey (InvitationService_linkService s) ctx key w = (Ok link, w1) ->
  Name (Link_Type link) = TypeNameInvitation ->
  InvitationRepository_FindByID (InvitationService_repo s) ctx (TargetID link) w1
  = (Ok i, w2) ->
  InvitationService_GetInvitationByKey s ctx key w
  = (if visible (now w) (Invitation_IsEnabled i)
                (InvitationDetail_ExpiresAt (Invitation_Detail i))
     then Ok i else Err ErrInvitationNotFound, w2).
Proof.
  intros Hkey Hl Hname Ha. unfold InvitationService_GetInvitationByKey.
  destruct (String.eqb_spec key EmptyString) as [|_]; [contradiction|].
  pose proof (read_only_now _ _ (read_only_trans _ _ _
                (LinkService_GetLinkByKey_read_only _ _ _ _ _ _ Hl)
                (Repository_FindByID_read_only _ _ _ _ _ _ _ Ha))) as Hnow.
  unfold bind at 1. rewrite Hl, Hname. rewrite String.eqb_refl. cbn [negb].
  unfold bind at 1. rewrite Ha. unfold bind, get. rewrite Hnow. unfold visible.
  destruct (Invitation_IsEnabled i); cbn [negb andb]; [|reflexivity].
  destruct (InvitationDetail_ExpiresAt (Invitation_Detail i)) as [t|]; [|reflexivity].
  destruct (Time_After (now w) t); reflexivity.
Qed.

Lemma GetCardByKey_returns_visible (s : CardService) (ctx : Context)
    (key : string) (w w' : World) (c : Card) :
  CardService_GetCardByKey s ctx key w = (Ok c, w') ->
  visible (now w) (Card_IsEnabled c) None = true.
Proof.
  unfold CardService_GetCardByKey.
  destruct (String.eqb key EmptyString); [error_return|].
  unfold bind at 1.
  destruct (LinkRepository_FindByKey (CardService_linkRepo s) ctx key w) as [lr w1].
  destruct lr as [link|e]; [|destruct (errors_Is e gorm_ErrRecordNotFound); error_return].
  destruct (negb (String.eqb (Name (Link_Type link)) TypeNameCard)); [error_return|].
  unfold bind.
  destruct (CardRepository_GetCardByID (CardService_repo s) (TargetID link) w1)
    as [cr w2].
  destruct cr as [x|e]; [|destruct (errors_Is e repositories_ErrNotFound); error_return].
  unfold visible.
  destruct (Card_IsEnabled x) eqn:He; cbn [negb]; [|error_return].
  intros Heq; inversion Heq; subst. rewrite He. reflexivity.
Qed.

Lemma GetCardByKey_checks (s : CardService) (ctx : Context)
    (key : string) (w w1 w2 : World) (link : Link) (c : Card) :
  key <> EmptyString ->
  LinkRepository_FindByKey (CardService_linkRepo s) ctx key w = (Ok link, w1) ->
  Name (Link_Type link) = TypeNameCard ->
  CardRepository_GetCardByID (CardService_repo s) (TargetID link) w1 = (Ok c, w2) ->
  CardService_GetCardByKey s ctx key w
  = (if visible (now w) (Card_IsEnabled c) None then Ok c else Err ErrCardNotFound, w2).
Proof.
  intros Hkey Hl Hname Ha. unfold CardService_GetCardByKey.
  destruct (String.eqb_spec key EmptyString) as [|_]; [contradiction|].
  unfold bind at 1. rewrite Hl, Hname. rewrite String.eqb_refl. cbn [negb].
  unfold bind. rewrite Ha. unfold visible.
  destruct (Card_IsEnabled c); reflexivity.
Qed.

Lemma visible_false (t : Time) (enabled : bool) (expiry : option Time) :
  enabled = false \/ (exists e, expiry = Some e /\ Time_After t e = true) ->
  visible t enabled expiry = false.
Proof.
  unfold visible. intros [->|(e & -> & He)]; [reflexivity|].
  rewrite He. apply andb_false_r.
Qed.

(** C6. The public lookup of each resource type, at the time [now w] of the
    request.  What it returns is enabled and not past its expiry timestamp
    (an appointment's or invitation's [ExpiresAt], a form's [ClosesAt]; a
    card has no such field).  And when the resource the key leads to is
    disabled, or its expiry timestamp lies before the current time, the
    lookup returns the service's not-found error. *)
Theorem public_lookup_visibility (ctx : Context) (key : string) (w : World) :
  (forall s a w',
     AppointmentService_GetAppointmentByKey s ctx key w = (Ok a, w') ->
     Appointment_IsEnabled a = true /\
     forall e, AppointmentDetail_ExpiresAt (Appointment_Detail a) = Some e ->
               Time_After (now w) e = false) /\
  (forall s link w1 a w2,
     key <> EmptyString ->
     LinkService_GetLinkByKey (AppointmentService_linkService s) ctx key w = (Ok link, w1) ->
     Name (Link_Type link) = TypeNameAppointment ->
     AppointmentRepository_FindByID (AppointmentService_repo s) ctx (TargetID link) w1
     = (Ok a, w2) ->
     Appointment_IsEnabled a = false \/
     (exists e, AppointmentDetail_ExpiresAt (Appointment_Detail a) = Some e /\
                Time_After (now w) e = true) ->
     AppointmentService_GetAppointmentByKey s ctx key w = (Err ErrAppointmentNotFound, w2)) /\
  (forall s f w',
     FormService_GetFormByKey s ctx key w = (Ok f, w') ->
     Form_IsEnabled f = true /\
     forall e, ClosesAt (Form_Detail f) = Some e -> Time_After (now w) e = false) /\
  (forall s link w1 f w2,
     key <> EmptyString ->
     LinkService_GetLinkByKey (FormService_linkService s) ctx key w = (Ok link, w1) ->
     Name (Link_Type link) = TypeNameForm ->
     FormRepository_FindByID (FormService_repo s) ctx (TargetID link) w1 = (Ok f, w2) ->
     Form_IsEnabled f = false \/
     (exists e, ClosesAt (Form_Detail f) = Some e /\ Time_After (now w) e = true) ->
     FormService_GetFormByKey s ctx key w = (Err ErrFormNotFound, w2)) /\
  (forall s c w',
     CardService_GetCardByKey s ctx key w = (Ok c, w') -> Card_IsEnabled c = true) /\
  (forall s link w1 c w2,
     key <> EmptyString ->
     LinkRepository_FindByKey (CardService_linkRepo s) ctx key w = (Ok link, w1) ->
     Name (Link_Type link) = TypeNameCard ->
     CardRepository_GetCardByID (CardService_repo s) (TargetID link) w1 = (Ok c, w2) ->
     Card_IsEnabled c = false ->
     CardService_GetCardByKey s ctx key w = (Err ErrCardNotFound, w2)) /\
  (forall s i w',
     InvitationService_GetInvitationByKey s ctx key w = (Ok i, w') ->
     Invitation_IsEnabled i = true /\
     forall e, InvitationDetail_ExpiresAt (Invitation_Detail i) = Some e ->
               Time_After (now w) e = false) /\
  (forall s link w1 i w2,
     key <> EmptyString ->
     LinkService_GetLinkByKey (InvitationService_linkService s) ctx key w = (Ok link, w1) ->
     Name (Link_Type link) = TypeNameInvitation ->
     InvitationRepository_FindByID (InvitationService_repo s) ctx (TargetID link) w1
     = (Ok i, w2) ->
     Invitation_IsEnabled i = false \/
     (exists e, InvitationDetail_ExpiresAt (Invitation_Detail i) = Some e /\
                Time_After (now w) e = true) ->
     InvitationService_GetInvitationByKey s ctx key w = (Err ErrInvitationNotFound, w2)).
Proof.
  repeat match goal with |- _ /\ _ => split end.
  - intros s a w' Hrun. apply visible_enabled_unexpired.
    eapply GetAppointmentByKey_returns_visible. eassumption.
  - intros s link w1 a w2 Hkey Hl Hname Ha Hhidden.
    rewrite (GetAppointmentByKey_checks s ctx key w w1 w2 link a Hkey Hl Hname Ha).
    rewrite (visible_false _ _ _ Hhidden). reflexivity.
  - intros s f w' Hrun. apply visible_enabled_unexpired.
    eapply GetFormByKey_returns_visible. eassumption.
  - intros s link w1 f w2 Hkey Hl Hname Ha Hhidden.
    rewrite (GetFormByKey_checks s ctx key w w1 w2 link f Hkey Hl Hname Ha).
    rewrite (visible_false _ _ _ Hhidden). reflexivity.
  - intros s c w' Hrun. apply GetCardByKey_returns_visible in Hrun.
    apply visible_enabled_unexpired in Hrun. apply Hrun.
  - intros s link w1 c w2 Hkey Hl Hname Ha Hhidden.
    rewrite (GetCardByKey_checks s ctx key w w1 w2 link c Hkey Hl Hname Ha).
    rewrite (visible_false _ _ None (or_introl Hhidden)). reflexivity.
  - intros s i w' Hrun. apply visible_enabled_unexpired.
    eapply GetInvitationByKey_returns_visible. eassumption.
  - intros s link w1 i w2 Hkey Hl Hname Ha Hhidden.
    rewrite (GetInvitationByKey_checks s ctx key w w1 w2 link i Hkey Hl Hname Ha).
    rewrite (visible_false _ _ _ Hhidden). reflexivity.
Qed.

Lemma public_lookup_visibility_witness :
  fst (AppointmentService_GetAppointmentByKey NewAppointmentService context_Background
         "aaaaaaaaaaaaaaaaaaaa" (world_of expired_appointment []))
  = Err (Sentinel ErrAppointmentNotFound).
Proof.
  refine (f_equal fst
            (proj1 (proj2 (public_lookup_visibility context_Background
                             "aaaaaaaaaaaaaaaaaaaa" (world_of expired_appointment [])))
               NewAppointmentService _ _ _ _ _ _ _ _ _)).
  - discriminate.
  - vm_compute. reflexivity.
  - vm_compute. reflexivity.
  - vm_compute. reflexivity.
  - right. exists 500%Z. split; vm_compute; reflexivity.
Defined.

(** ** The public dispatch (C7, C8) *)

(** C7. A request whose key is not exactly 20 bytes long gets a 404 from
    either handler, and the world is left as it was: no statement is sent
    to the store. *)
Theorem HandleLink_rejects_wrong_length (h : LinkHandler) (ctx : Context) (key : string)
    (w : World) :
  String.length key <> 20%nat ->
  (exists resp, LinkHandler_HandleLink h ctx key w = (resp, w) /\
                StatusCode resp = StatusNotFound) /\
  (exists resp, PublicLinkHandler_HandleLink h ctx key w = (resp, w) /\
                StatusCode resp = StatusNotFound) /\
  statements (snd (LinkHandler_HandleLink h ctx key w)) = statements w /\
  statements (snd (PublicLinkHandler_HandleLink h ctx key w)) = statements w.
Proof.
  intros Hlen.
  unfold LinkHandler_HandleLink, PublicLinkHandler_HandleLink.
  destruct (Nat.eqb_spec (String.length key) 20) as [|_]; [contradiction|].
  cbn [negb]. unfold ret. cbn [snd].
  repeat split; eexists; split; reflexivity.
Qed.

Lemma HandleLink_rejects_wrong_length_witness :
  exists resp,
    PublicLinkHandler_HandleLink NewLinkHandler context_Background "short"
      (world_of two_links [])
    = (resp, world_of two_links []) /\
    StatusCode resp = StatusNotFound.
Proof.
  exact (proj1 (proj2 (HandleLink_rejects_wrong_length NewLinkHandler context_Background
                         "short" (world_of two_links []) ltac:(discriminate)))).
Defined.

(** C8. When the key resolves to a link whose type name is none of the
    four supported ones, both handlers fall to the default branch and answer
    404, from the world the link lookup left (no resource service is
    called).  The handlers are total functions: every request gets a
    response. *)
Theorem HandleLink_unknown_type (h : LinkHandler) (ctx : Context) (key : string)
    (w w1 : World) (link : Link) :
  String.length key = 20%nat ->
  LinkService_GetLinkByKey (linkService h) ctx key w = (Ok link, w1) ->
  ~ supported (Name (Link_Type link)) ->
  LinkHandler_HandleLink h ctx key w = (renderNotFound "Geçersiz Link Türü", w1) /\
  PublicLinkHandler_HandleLink h ctx key w
  = (mkResponse StatusNotFound "Geçersiz link türü." EmptyString NoPayload, w1) /\
  StatusCode (fst (LinkHandler_HandleLink h ctx key w)) = StatusNotFound /\
  StatusCode (fst (PublicLinkHandler_HandleLink h ctx key w)) = StatusNotFound.
Proof.
  intros Hlen Hl Hns.
  assert (Hi : String.eqb (Name (Link_Type link)) TypeNameInvitation = false).
  { apply String.eqb_neq. intros Heq. apply Hns. left. exact Heq. }
  assert (Ha : String.eqb (Name (Link_Type link)) TypeNameAppointment = false).
  { apply String.eqb_neq. intros Heq. apply Hns. right. left. exact Heq. }
  assert (Hf : String.eqb (Name (Link_Type link)) TypeNameForm = false).
  { apply String.eqb_neq. intros Heq. apply Hns. right. right. left. exact Heq. }
  assert (Hc : String.eqb (Name (Link_Type link)) TypeNameCard = false).
  { apply String.eqb_neq. intros Heq. apply Hns. right. right. right. exact Heq. }
  assert (H1 : LinkHandler_HandleLink h ctx key w = (renderNotFound "Geçersiz Link Türü", w1)).
  { unfold LinkHandler_HandleLink. rewrite Hlen. cbn [Nat.eqb negb].
    unfold bind at 1. rewrite Hl. cbv zeta. rewrite Hi, Ha, Hf, Hc. reflexivity. }
  assert (H2 : PublicLinkHandler_HandleLink h ctx key w
               = (mkResponse StatusNotFound "Geçersiz link türü." EmptyString NoPayload, w1)).
  { unfold PublicLinkHandler_HandleLink. rewrite Hlen. cbn [Nat.eqb negb].
    unfold bind at 1. rewrite Hl. cbv zeta. rewrite Hi, Ha, Hf, Hc. reflexivity. }
  rewrite H1, H2. repeat split.
Qed.

Lemma HandleLink_unknown_type_witness :
  StatusCode (fst (PublicLinkHandler_HandleLink NewLinkHandler context_Background
                     "aaaaaaaaaaaaaaaaaaaa" (world_of survey_link [])))
  = StatusNotFound.
Proof.
  refine (proj2 (proj2 (proj2 (HandleLink_unknown_type NewLinkHandler context_Background
            "aaaaaaaaaaaaaaaaaaaa" (world_of survey_link []) _ _ eq_refl _ _)))).
  - vm_compute. reflexivity.
  - vm_compute. intros [H|[H|[H|H]]]; discriminate H.
Defined.

(** * Further properties of the code *)

(** ** The queries of gorm *)

Lemma first_by_id_cons {T} `{Schema T} (a : T) (l : list T) :
  first_by_id (a :: l)
  = match first_by_id l with
    | Some y => if ID (base y) <? ID (base a) then Some y else Some a
    | None => Some a
    end.
Proof. reflexivity. Qed.

Lemma first_by_id_In {T} `{Schema T} (l : list T) (x : T) :
  first_by_id l = Some x -> In x l.
Proof.
  revert x. induction l as [|a l IH]; intros x; [discriminate|].
  rewrite first_by_id_cons.
  destruct (first_by_id l) as [y|].
  - destruct (ID (base y) <? ID (base a)); intros Heq; inversion Heq; subst.
    + right. apply IH. reflexivity.
    + left. reflexivity.
  - intros Heq; inversion Heq. left. reflexivity.
Qed.

Lemma first_by_id_least {T} `{Schema T} (l : list T) (x : T) :
  first_by_id l = Some x -> forall y, In y l -> ID (base x) <= ID (base y).
Proof.
  revert x. induction l as [|a l IH]; intros x; [discriminate|].
  rewrite first_by_id_cons.
  destruct (first_by_id l) as [z|] eqn:Hz.
  - destruct (N.ltb_spec (ID (base z)) (ID (base a))) as [Hlt|Hge];
      intros Heq; inversion Heq; subst; intros y [->|Hy].
    + lia.
    + apply IH; [reflexivity|exact Hy].
    + lia.
    + specialize (IH z eq_refl y Hy). lia.
  - intros Heq; inversion Heq; subst. intros y [->|Hy]; [lia|].
    destruct l; [destruct Hy|]. rewrite first_by_id_cons in Hz.
    destruct (first_by_id l); [destruct (_ <? _)|]; discriminate.
Qed.

Lemma first_by_id_None {T} `{Schema T} (l : list T) : first_by_id l = None -> l = [].
Proof.
  destruct l as [|a l]; [reflexivity|]. rewrite first_by_id_cons.
  destruct (first_by_id l); [destruct (_ <? _)|]; discriminate.
Qed.

Lemma view_with_statements (db : DB) (s : list Stmt) (w : World) :
  view db (with_statements s w) = view db w.
Proof. destruct db; reflexivity. Qed.

(** What [gorm_First] answers: the statement is recorded and nothing else
    changes; a row returned is a live stored row that matches, with the
    least id among them; an error is the driver's, or not-found when no live
    row matches. *)
Lemma gorm_First_inv {T} `{Schema T} (db : DB) (cond : T -> bool) (r : result T)
    (w w' : World) :
  gorm_First db cond w = (r, w') ->
  w' = with_statements (statements w ++ [mkStmt db SELECT (Some table)])%list w /\
  match r with
  | Ok x =>
      faults w (length (statements w)) = None /\
      In x (rows (view db w)) /\ live x = true /\ cond x = true /\
      forall y, In y (rows (view db w)) -> live y = true -> cond y = true ->
                ID (base x) <= ID (base y)
  | Err e =>
      (exists msg, faults w (length (statements w)) = Some msg /\ e = DriverError msg) \/
      (faults w (length (statements w)) = None /\ e = Sentinel gorm_ErrRecordNotFound /\
       forall y, In y (rows (view db w)) -> live y = true -> cond y = false)
  end.
Proof.
  unfold gorm_First, exec. unfold_monad.
  destruct (faults w (length (statements w))) as [msg|] eqn:Hf; cbn.
  - intros Heq; inversion Heq; subst. split; [reflexivity|]. left. eauto.
  - rewrite view_with_statements.
    destruct (first_by_id _) as [x|] eqn:Hx; intros Heq; inversion Heq; subst;
      (split; [reflexivity|]).
    + pose proof (first_by_id_In _ _ Hx) as Hin.
      apply filter_In in Hin. destruct Hin as [Hin Hc].
      apply andb_true_iff in Hc. destruct Hc as [Hl Hc].
      repeat split; try assumption.
      intros y Hy Hly Hcy. apply (first_by_id_least _ _ Hx).
      apply filter_In. split; [exact Hy|]. rewrite Hly, Hcy. reflexivity.
    + right. repeat split.
      intros y Hy Hly. apply first_by_id_None in Hx.
      destruct (cond y) eqn:Hcy; [|reflexivity].
      assert (Hin : In y (List.filter (fun x => live x && cond x) (rows (view db w)))).
      { apply filter_In. split; [exact Hy|]. rewrite Hly, Hcy. reflexivity. }
      rewrite Hx in Hin. destruct Hin.
Qed.

Lemma gorm_First_none {T} `{Schema T} (db : DB) (cond : T -> bool) (w : World) :
  faults w (length (statements w)) = None ->
  (forall y, In y (rows (view db w)) -> live y = true -> cond y = false) ->
  gorm_First db cond w
  = (Err gorm_ErrRecordNotFound,
     with_statements (statements w ++ [mkStmt db SELECT (Some table)])%list w).
Proof.
  intros Hf Hnone.
  destruct (gorm_First db cond w) as [r w'] eqn:Hr.
  destruct (gorm_First_inv _ _ _ _ _ Hr) as [-> Hcase].
  destruct r as [x|e].
  - destruct Hcase as (_ & Hin & Hl & Hc & _).
    rewrite (Hnone x Hin Hl) in Hc. discriminate.
  - destruct Hcase as [(msg & Hm & _)|(_ & -> & _)]; [congruence|reflexivity].
Qed.

Lemma gorm_First_some {T} `{Schema T} (db : DB) (cond : T -> bool) (w : World) (y : T) :
  faults w (length (statements w)) = None ->
  In y (rows (view db w)) -> live y = true -> cond y = true ->
  exists x, gorm_First db cond w
            = (Ok x, with_statements (statements w ++ [mkStmt db SELECT (Some table)])%list w).
Proof.
  intros Hf Hin Hl Hc.
  destruct (gorm_First db cond w) as [r w'] eqn:Hr.
  destruct (gorm_First_inv _ _ _ _ _ Hr) as [-> Hcase].
  destruct r as [x|e]; [eauto|].
  destruct Hcase as [(msg & Hm & _)|(_ & _ & Hnone)]; [congruence|].
  rewrite (Hnone y Hin Hl) in Hc. discriminate.
Qed.

Lemma gorm_Find_inv {T} `{Schema T} (db : DB) (cond : T -> bool) (r : result (list T))
    (w w' : World) :
  gorm_Find db cond w = (r, w') ->
  w' = with_statements (statements w ++ [mkStmt db SELECT (Some table)])%list w /\
  match r with
  | Ok xs =>
      faults w (length (statements w)) = None /\
      xs = List.filter (fun x => live x && cond x) (rows (view db w))
  | Err e => exists msg, faults w (length (statements w)) = Some msg /\ e = DriverError msg
  end.
Proof.
  unfold gorm_Find, exec. unfold_monad.
  destruct (faults w (length (statements w))) as [msg|] eqn:Hf; cbn;
    intros Heq; inversion Heq; subst; (split; [reflexivity|]).
  - eauto.
  - rewrite view_with_statements. split; reflexivity.
Qed.

Lemma preload_Type_inv (db : DB) (l : Link) (r : result Link) (w w' : World) :
  preload_Type db l w = (r, w') ->
  w' = with_statements (statements w ++ [mkStmt db SELECT (Some t_types)])%list w /\
  match r with
  | Ok l' =>
      faults w (length (statements w)) = None /\
      exists ty, l' = Link_with_Type ty l /\ preloaded (view db w) l ty
  | Err e => exists msg, faults w (length (statements w)) = Some msg /\ e = DriverError msg
  end.
Proof.
  unfold preload_Type, bind.
  match goal with
  | |- context [gorm_Find db ?c w] => destruct (gorm_Find db c w) as [ts w1] eqn:Hf
  end.
  destruct (gorm_Find_inv _ _ _ _ _ Hf) as [-> Hcase].
  destruct ts as [[|t ts]|e]; intros Heq; inversion Heq; subst;
    (split; [reflexivity|]).
  - destruct Hcase as [Hf0 Hts]. split; [exact Hf0|].
    exists zeroType. split; [reflexivity|]. left. split; [reflexivity|].
    intros t0 Hin Hl Hid.
    assert (Hin' : In t0 (List.filter (fun t => live t && (ID (Type_Base t) =? TypeID l))
                                      (types (view db w)))).
    { apply filter_In. split; [exact Hin|]. rewrite Hl. apply N.eqb_eq. exact Hid. }
    cbn in Hts. rewrite <- Hts in Hin'. destruct Hin'.
  - destruct Hcase as [Hf0 Hts]. split; [exact Hf0|].
    exists t. split; [reflexivity|]. right.
    assert (Hin : In t (t :: ts)) by (left; reflexivity).
    rewrite Hts in Hin. apply filter_In in Hin. destruct Hin as [Hin Hc].
    apply andb_true_iff in Hc. destruct Hc as [Hl Hc].
    apply N.eqb_eq in Hc. auto.
  - exact Hcase.
Qed.


(** ** The lookups of the link repository and the link service *)

Lemma FindByKey_find_link (r : LinkRepository) (ctx : Context) (key : string) :
  LinkRepository_FindByKey r ctx key
  = if String.eqb key EmptyString
    then ret (Err (errors_New "aranacak link key'i boş olamaz"))
    else find_link (LinkRepository_getDB r ctx) (key_is key).
Proof. reflexivity. Qed.

Lemma FindByID_find_link (r : LinkRepository) (ctx : Context) (id : uint) :
  LinkRepository_FindByID r ctx id
  = if id =? 0 then ret (Err (errors_New "geçersiz Link ID"))
    else find_link (LinkRepository_getDB r ctx) (id_is id).
Proof. reflexivity. Qed.

Lemma find_link_inv (db : DB) (cond : Link -> bool) (r : result Link) (w w' : World) :
  find_link db cond w = (r, w') ->
  match r with
  | Ok link =>
      faults w (length (statements w)) = None /\
      faults w (S (length (statements w))) = None /\
      w' = with_statements
             (statements w ++ [mkStmt db SELECT (Some t_links);
                               mkStmt db SELECT (Some t_types)])%list w /\
      exists l ty,
        link = Link_with_Type ty l /\
        In l (links (view db w)) /\ live l = true /\ cond l = true /\
        (forall y, In y (links (view db w)) -> live y = true -> cond y = true ->
                   ID (Link_Base l) <= ID (Link_Base y)) /\
        preloaded (view db w) l ty
  | Err e =>
      (exists msg, e = DriverError msg) \/
      (e = Sentinel gorm_ErrRecordNotFound /\
       faults w (length (statements w)) = None /\
       w' = with_statements (statements w ++ [mkStmt db SELECT (Some t_links)])%list w /\
       forall y, In y (links (view db w)) -> live y = true -> cond y = false)
  end.
Proof.
  unfold find_link. unfold bind at 1.
  destruct (gorm_First db cond w) as [f w1] eqn:Hf.
  destruct (gorm_First_inv _ _ _ _ _ Hf) as [-> Hcase].
  unfold bind at 1.
  destruct f as [l|e].
  - destruct Hcase as (Hf0 & Hin & Hl & Hc & Hleast).
    match goal with
    | |- context [preload_Type db l ?w1] =>
        destruct (preload_Type db l w1) as [p w2] eqn:Hp
    end.
    destruct (preload_Type_inv _ _ _ _ _ Hp) as [-> Hpre].
    cbn [statements with_statements faults] in Hpre.
    rewrite length_app, Nat.add_1_r in Hpre.
    rewrite view_with_statements in Hpre.
    destruct p as [l'|e].
    + destruct Hpre as (Hf1 & ty & -> & Hty).
      intros Heq; inversion Heq; subst.
      split; [exact Hf0|]. split; [exact Hf1|].
      split. { cbn. rewrite <- app_assoc. reflexivity. }
      exists l, ty. repeat split; assumption.
    + destruct Hpre as (msg & _ & ->). cbn.
      intros Heq; inversion Heq; subst. left. eauto.
  - unfold ret.
    destruct Hcase as [(msg & _ & ->)|(Hf0 & -> & Hnone)]; cbn;
      intros Heq; inversion Heq; subst.
    + left. eauto.
    + right. repeat split; assumption.
Qed.

Lemma find_link_read_only (db : DB) (cond : Link -> bool) (r : result Link) (w w' : World) :
  find_link db cond w = (r, w') -> read_only w w'.
Proof.
  unfold find_link. unfold bind at 1.
  destruct (gorm_First db cond w) as [f w1] eqn:Hf.
  apply gorm_First_read_only in Hf.
  unfold bind at 1.
  destruct f as [l|e].
  - destruct (preload_Type db l w1) as [p w2] eqn:Hp.
    apply preload_Type_read_only in Hp.
    pose proof (read_only_trans _ _ _ Hf Hp) as H2.
    destruct p as [l'|e]; [returned H2|].
    destruct (errors_Is e gorm_ErrRecordNotFound); returned H2.
  - unfold ret. destruct (errors_Is e gorm_ErrRecordNotFound); returned Hf.
Qed.

Lemma find_link_none (db : DB) (cond : Link -> bool) (w : World) :
  faults w (length (statements w)) = None ->
  (forall y, In y (links (view db w)) -> live y = true -> cond y = false) ->
  find_link db cond w
  = (Err gorm_ErrRecordNotFound,
     with_statements (statements w ++ [mkStmt db SELECT (Some t_links)])%list w).
Proof.
  intros Hf Hnone. unfold find_link. unfold bind at 1.
  rewrite (@gorm_First_none Link Schema_Link db cond w Hf Hnone). reflexivity.
Qed.

Lemma GetLinkByKey_inv (s : LinkService) (ctx : Context) (key : string)
    (r : result Link) (w w' : World) :
  LinkService_GetLinkByKey s ctx key w = (r, w') ->
  (key = EmptyString /\ r = Err (errors_New "aranacak link key'i boş olamaz") /\ w' = w) \/
  (key <> EmptyString /\
   exists r0, find_link (LinkRepository_getDB (LinkService_repo s) ctx) (key_is key) w
              = (r0, w') /\
              r = match r0 with
                  | Ok link => Ok link
                  | Err e => if errors_Is e gorm_ErrRecordNotFound
                             then Err (Sentinel ErrLinkNotFound) else Err e
                  end).
Proof.
  unfold LinkService_GetLinkByKey. unfold bind at 1. rewrite FindByKey_find_link.
  destruct (String.eqb_spec key EmptyString) as [->|Hk].
  - cbn. intros Heq; inversion Heq; subst. left. auto.
  - destruct (find_link _ _ w) as [r0 w1] eqn:Hr0.
    intros Heq. right. split; [exact Hk|]. exists r0.
    destruct r0 as [l|e]; [|destruct (errors_Is e gorm_ErrRecordNotFound)];
      inversion Heq; subst; auto.
Qed.

(** X1.  What the by-key lookup of the link service returns is a stored
    link: a live row of the links table the handle reads, carrying the
    requested key (never the empty one) and the least id among the live
    rows with that key, with the type row it points to attached (or the
    zero type when that row is missing).  The lookup sends two SELECTs and
    changes nothing else. *)
Theorem GetLinkByKey_returns_live_row (s : LinkService) (ctx : Context) (key : string)
    (link : Link) (w w' : World) :
  LinkService_GetLinkByKey s ctx key w = (Ok link, w') ->
  let db := LinkRepository_getDB (LinkService_repo s) ctx in
  key <> EmptyString /\ Key link = key /\ DeletedAt (Link_Base link) = None /\
  (exists l, In l (links (view db w)) /\ link = Link_with_Type (Link_Type link) l /\
             forall y, In y (links (view db w)) -> live y = true -> Key y = key ->
                       ID (Link_Base l) <= ID (Link_Base y)) /\
  preloaded (view db w) link (Link_Type link) /\
  w' = with_statements
         (statements w ++ [mkStmt db SELECT (Some t_links);
                           mkStmt db SELECT (Some t_types)])%list w.
Proof.
  intros Hrun db.
  destruct (GetLinkByKey_inv _ _ _ _ _ _ Hrun) as [(_ & Hr & _)|(Hk & r0 & Hfind & Hr)];
    [discriminate|].
  destruct r0 as [l0|e]; [|destruct (errors_Is e gorm_ErrRecordNotFound); discriminate].
  inversion Hr; subst l0.
  pose proof (find_link_inv _ _ _ _ _ Hfind) as (_ & _ & Hw & l & ty & -> & Hin & Hl & Hc & Hleast & Hty).
  fold db in Hw, Hin, Hleast, Hty.
  unfold key_is in Hc, Hleast. apply String.eqb_eq in Hc.
  split; [exact Hk|]. split; [exact Hc|].
  split. { unfold live in Hl. cbn in *. destruct (DeletedAt (Link_Base l)); [discriminate|reflexivity]. }
  split.
  { exists l. split; [exact Hin|]. split; [reflexivity|].
    intros y Hy Hly Hky. apply Hleast; [exact Hy|exact Hly|].
    apply String.eqb_eq. exact Hky. }
  split; [exact Hty|exact Hw].
Qed.

Lemma GetLinkByKey_returns_live_row_witness :
  Key (mkLink (mkBaseModel 2 None) "bbbbbbbbbbbbbbbbbbbb" 4 42 7 zeroType)
  = "bbbbbbbbbbbbbbbbbbbb".
Proof.
  refine (proj1 (proj2 (GetLinkByKey_returns_live_row NewLinkService context_Background
            "bbbbbbbbbbbbbbbbbbbb"
            (mkLink (mkBaseModel 2 None) "bbbbbbbbbbbbbbbbbbbb" 4 42 7 zeroType)
            (world_of two_links [])
            (snd (LinkService_GetLinkByKey NewLinkService context_Background
                    "bbbbbbbbbbbbbbbbbbbb" (world_of two_links []))) _))).
  vm_compute. reflexivity.
Defined.

(** X2.  The by-key lookup reports [ErrLinkNotFound] only when no live row
    of the links table carries the key, and it does report it, after a
    single SELECT, whenever that is so and the store answers the SELECT.  A
    soft-deleted link is therefore not resolved, whatever else is stored. *)
Theorem GetLinkByKey_not_found (s : LinkService) (ctx : Context) (key : string)
    (w : World) :
  key <> EmptyString ->
  let db := LinkRepository_getDB (LinkService_repo s) ctx in
  (forall e w', LinkService_GetLinkByKey s ctx key w = (Err e, w') ->
     errors_Is e ErrLinkNotFound = true ->
     forall y, In y (links (view db w)) -> Key y = key ->
               exists t, DeletedAt (Link_Base y) = Some t) /\
  ((forall y, In y (links (view db w)) -> Key y = key ->
              exists t, DeletedAt (Link_Base y) = Some t) ->
   faults w (length (statements w)) = None ->
   LinkService_GetLinkByKey s ctx key w
   = (Err ErrLinkNotFound,
      with_statements (statements w ++ [mkStmt db SELECT (Some t_links)])%list w)).
Proof.
  intros Hk db. split.
  - intros e w' Hrun He y Hy Hky.
    destruct (GetLinkByKey_inv _ _ _ _ _ _ Hrun) as [(Hk0 & _)|(_ & r0 & Hfind & Hr)];
      [contradiction|].
    pose proof (find_link_inv _ _ _ _ _ Hfind) as Hinv.
    destruct r0 as [l0|e0]; [discriminate|].
    destruct Hinv as [(msg & ->)|(-> & _ & _ & Hnone)].
    + cbn in Hr. inversion Hr; subst. discriminate.
    + fold db in Hnone. specialize (Hnone y Hy).
      unfold live in Hnone. cbn in Hnone.
      destruct (DeletedAt (Link_Base y)) as [t|]; [eauto|].
      specialize (Hnone eq_refl). unfold key_is in Hnone.
      apply String.eqb_neq in Hnone. contradiction.
  - intros Hdel Hf.
    unfold LinkService_GetLinkByKey. unfold bind at 1. rewrite FindByKey_find_link.
    destruct (String.eqb_spec key EmptyString) as [|_]; [contradiction|].
    rewrite find_link_none; [reflexivity|exact Hf|].
    intros y Hy Hly. unfold key_is. apply String.eqb_neq. intros Hky.
    destruct (Hdel y Hy Hky) as [t Ht].
    unfold live in Hly. cbn in Hly. rewrite Ht in Hly. discriminate.
Qed.

Lemma GetLinkByKey_not_found_witness :
  fst (LinkService_GetLinkByKey NewLinkService context_Background "aaaaaaaaaaaaaaaaaaaa"
         (world_of deleted_link []))
  = Err (Sentinel ErrLinkNotFound).
Proof.
  refine (f_equal fst (proj2 (GetLinkByKey_not_found NewLinkService context_Background
            "aaaaaaaaaaaaaaaaaaaa" (world_of deleted_link []) _) _ _)).
  - discriminate.
  - intros y [<-|[]] _. exists 5%Z. reflexivity.
  - reflexivity.
Defined.

(** ** The public resolution only queries *)

Lemma queries_only_refl (w : World) : queries_only w w.
Proof.
  exists []. split; [|constructor]. rewrite app_nil_r. destruct w; reflexivity.
Qed.

Lemma queries_only_trans (w1 w2 w3 : World) :
  queries_only w1 w2 -> queries_only w2 w3 -> queries_only w1 w3.
Proof.
  intros (s1 & -> & H1) (s2 & -> & H2). exists (s1 ++ s2)%list. split.
  - cbn. rewrite app_assoc. reflexivity.
  - apply Forall_app. split; assumption.
Qed.

Lemma queries_only_select (db : DB) (t : option TableName) (w : World) :
  queries_only w (with_statements (statements w ++ [mkStmt db SELECT t])%list w).
Proof. exists [mkStmt db SELECT t]. split; [reflexivity|]. repeat constructor. Qed.

#[local] Hint Resolve queries_only_refl queries_only_select : go_model.

Lemma gorm_First_queries {T} `{Schema T} (db : DB) (cond : T -> bool) (r : result T)
    (w w' : World) :
  gorm_First db cond w = (r, w') -> queries_only w w'.
Proof. intros Hr. destruct (gorm_First_inv _ _ _ _ _ Hr) as [-> _]. auto with go_model. Qed.

Lemma gorm_Find_queries {T} `{Schema T} (db : DB) (cond : T -> bool)
    (r : result (list T)) (w w' : World) :
  gorm_Find db cond w = (r, w') -> queries_only w w'.
Proof. intros Hr. destruct (gorm_Find_inv _ _ _ _ _ Hr) as [-> _]. auto with go_model. Qed.

Lemma preload_Type_queries (db : DB) (l : Link) (r : result Link) (w w' : World) :
  preload_Type db l w = (r, w') -> queries_only w w'.
Proof. intros Hr. destruct (preload_Type_inv _ _ _ _ _ Hr) as [-> _]. auto with go_model. Qed.

Lemma find_link_queries (db : DB) (cond : Link -> bool) (r : result Link) (w w' : World) :
  find_link db cond w = (r, w') -> queries_only w w'.
Proof.
  unfold find_link. unfold bind at 1.
  destruct (gorm_First db cond w) as [f w1] eqn:Hf.
  apply gorm_First_queries in Hf.
  unfold bind at 1.
  destruct f as [l|e].
  - destruct (preload_Type db l w1) as [p w2] eqn:Hp.
    apply preload_Type_queries in Hp.
    pose proof (queries_only_trans _ _ _ Hf Hp) as H2.
    destruct p as [l'|e]; [returned H2|].
    destruct (errors_Is e gorm_ErrRecordNotFound); returned H2.
  - unfold ret. destruct (errors_Is e gorm_ErrRecordNotFound); returned Hf.
Qed.

Lemma FindByKey_queries (r : LinkRepository) (ctx : Context) (key : string)
    (res : result Link) (w w' : World) :
  LinkRepository_FindByKey r ctx key w = (res, w') -> queries_only w w'.
Proof.
  rewrite FindByKey_find_link.
  destruct (String.eqb key EmptyString); [returned (queries_only_refl w)|].
  apply find_link_queries.
Qed.

Lemma GetLinkByKey_queries (s : LinkService) (ctx : Context) (key : string)
    (res : result Link) (w w' : World) :
  LinkService_GetLinkByKey s ctx key w = (res, w') -> queries_only w w'.
Proof.
  unfold LinkService_GetLinkByKey, bind.
  destruct (LinkRepository_FindByKey (LinkService_repo s) ctx key w) as [r w1] eqn:Hr.
  apply FindByKey_queries in Hr.
  destruct r as [l|e]; [returned Hr|].
  destruct (errors_Is e gorm_ErrRecordNotFound); returned Hr.
Qed.

Section ResourceQueries.
Context {T : Type} `{Schema T} `{Resource T}.

Lemma preload_Link_Type_queries (db : DB) (x : T) (r : result T) (w w' : World) :
  preload_Link_Type db x w = (r, w') -> queries_only w w'.
Proof.
  unfold preload_Link_Type. unfold bind at 1.
  match goal with
  | |- context [gorm_Find db ?c w] => destruct (gorm_Find db c w) as [ls w1] eqn:Hf
  end.
  apply gorm_Find_queries in Hf.
  destruct ls as [[|l ls]|e]; [returned Hf| |returned Hf].
  unfold bind.
  destruct (preload_Type db l w1) as [p w2] eqn:Hp.
  apply preload_Type_queries in Hp.
  pose proof (queries_only_trans _ _ _ Hf Hp) as H2.
  destruct p; returned H2.
Qed.

Lemma First_with_preloads_queries (db : DB) (id : uint) (r : result T) (w w' : World) :
  First_with_preloads db id w = (r, w') -> queries_only w w'.
Proof.
  unfold First_with_preloads, bind.
  match goal with
  | |- context [gorm_First db ?c w] => destruct (gorm_First db c w) as [f w1] eqn:Hf
  end.
  apply gorm_First_queries in Hf.
  destruct f as [x|e]; [|returned Hf].
  intros Hp. apply preload_Link_Type_queries in Hp.
  exact (queries_only_trans _ _ _ Hf Hp).
Qed.

Lemma Repository_FindByID_queries (msg : string) (r : Repository) (ctx : Context)
    (id : uint) (res : result T) (w w' : World) :
  Repository_FindByID msg r ctx id w = (res, w') -> queries_only w w'.
Proof.
  unfold Repository_FindByID.
  destruct (id =? 0); [returned (queries_only_refl w)|].
  unfold bind.
  destruct (First_with_preloads (Repository_getDB r ctx) id w) as [f w1] eqn:Hf.
  apply First_with_preloads_queries in Hf.
  destruct f as [x|e]; [returned Hf|].
  destruct (errors_Is e gorm_ErrRecordNotFound); returned Hf.
Qed.

End ResourceQueries.

Lemma GetCardByID_queries (r : Repository) (id : uint) (res : result Card) (w w' : World) :
  CardRepository_GetCardByID r id w = (res, w') -> queries_only w w'.
Proof.
  unfold CardRepository_GetCardByID, bind.
  destruct (First_with_preloads (Repository_db r) id w) as [f w1] eqn:Hf.
  apply First_with_preloads_queries in Hf.
  destruct f as [x|e]; [returned Hf|].
  destruct (errors_Is e gorm_ErrRecordNotFound); returned Hf.
Qed.

Lemma GetAppointmentByKey_queries (s : AppointmentService) (ctx : Context) (key : string)
    (r : result Appointment) (w w' : World) :
  AppointmentService_GetAppointmentByKey s ctx key w = (r, w') -> queries_only w w'.
Proof.
  unfold AppointmentService_GetAppointmentByKey.
  destruct (String.eqb key EmptyString); [returned (queries_only_refl w)|].
  unfold bind at 1.
  destruct (LinkService_GetLinkByKey (AppointmentService_linkService s) ctx key w)
    as [lr w1] eqn:Hl.
  apply GetLinkByKey_queries in Hl.
  destruct lr as [link|e]; [|destruct (errors_Is e ErrLinkNotFound); returned Hl].
  destruct (negb (String.eqb (Name (Link_Type link)) TypeNameAppointment)); [returned Hl|].
  unfold bind at 1.
  destruct (AppointmentRepository_FindByID (AppointmentService_repo s) ctx (TargetID link) w1)
    as [ar w2] eqn:Ha.
  apply Repository_FindByID_queries in Ha.
  pose proof (queries_only_trans _ _ _ Hl Ha) as H2.
  destruct ar as [x|e]; [|destruct (errors_Is e repositories_ErrNotFound); returned H2].
  unfold bind, get.
  destruct (negb (Appointment_IsEnabled x)); [returned H2|].
  destruct (AppointmentDetail_ExpiresAt (Appointment_Detail x)) as [t|];
    [destruct (Time_After (now w2) t)|]; returned H2.
Qed.

Lemma GetInvitationByKey_queries (s : InvitationService) (ctx : Context) (key : string)
    (r : result Invitation) (w w' : World) :
  InvitationService_GetInvitationByKey s ctx key w = (r, w') -> queries_only w w'.
Proof.
  unfold InvitationService_GetInvitationByKey.
  destruct (String.eqb key EmptyString); [returned (queries_only_refl w)|].
  unfold bind at 1.
  destruct (LinkService_GetLinkByKey (InvitationService_linkService s) ctx key w)
    as [lr w1] eqn:Hl.
  apply GetLinkByKey_queries in Hl.
  destruct lr as [link|e]; [|destruct (errors_Is e ErrLinkNotFound); returned Hl].
  destruct (negb (String.eqb (Name (Link_Type link)) TypeNameInvitation)); [returned Hl|].
  unfold bind at 1.
  destruct (InvitationRepository_FindByID (InvitationService_repo s) ctx (TargetID link) w1)
    as [ar w2] eqn:Ha.
  apply Repository_FindByID_queries in Ha.
  pose proof (queries_only_trans _ _ _ Hl Ha) as H2.
  destruct ar as [x|e]; [|destruct (errors_Is e repositories_ErrNotFound); returned H2].
  unfold bind, get.
  destruct (negb (Invitation_IsEnabled x)); [returned H2|].
  destruct (InvitationDetail_ExpiresAt (Invitation_Detail x)) as [t|];
    [destruct (Time_After (now w2) t)|]; returned H2.
Qed.

Lemma GetFormByKey_queries (s : FormService) (ctx : Context) (key : string)
    (r : result Form) (w w' : World) :
  FormService_GetFormByKey s ctx key w = (r, w') -> queries_only w w'.
Proof.
  unfold FormService_GetFormByKey.
  destruct (String.eqb key EmptyString); [returned (queries_only_refl w)|].
  unfold bind at 1.
  destruct (LinkService_GetLinkByKey (FormService_linkService s) ctx key w)
    as [lr w1] eqn:Hl.
  apply GetLinkByKey_queries in Hl.
  destruct lr as [link|e]; [|returned Hl].
  destruct (negb (String.eqb (Name (Link_Type link)) TypeNameForm)); [returned Hl|].
  unfold bind at 1.
  destruct (FormRepository_FindByID (FormService_repo s) ctx (TargetID link) w1)
    as [ar w2] eqn:Ha.
  apply Repository_FindByID_queries in Ha.
  pose proof (queries_only_trans _ _ _ Hl Ha) as H2.
  destruct ar as [x|e]; [|returned H2].
  unfold bind, get.
  destruct (negb (Form_IsEnabled x)); [returned H2|].
  destruct (ClosesAt (Form_Detail x)) as [t|];
    [destruct (Time_After (now w2) t)|]; returned H2.
Qed.

Lemma GetCardByKey_queries (s : CardService) (ctx : Context) (key : string)
    (r : result Card) (w w' : World) :
  CardService_GetCardByKey s ctx key w = (r, w') -> queries_only w w'.
Proof.
  unfold CardService_GetCardByKey.
  destruct (String.eqb key EmptyString); [returned (queries_only_refl w)|].
  unfold bind at 1.
  destruct (LinkRepository_FindByKey (CardService_linkRepo s) ctx key w) as [lr w1] eqn:Hl.
  apply FindByKey_queries in Hl.
  destruct lr as [link|e]; [|destruct (errors_Is e gorm_ErrRecordNotFound); returned Hl].
  destruct (negb (String.eqb (Name (Link_Type link)) TypeNameCard)); [returned Hl|].
  unfold bind.
  destruct (CardRepository_GetCardByID (CardService_repo s) (TargetID link) w1)
    as [cr w2] eqn:Ha.
  apply GetCardByID_queries in Ha.
  pose proof (queries_only_trans _ _ _ Hl Ha) as H2.
  destruct cr as [x|e]; [|destruct (errors_Is e repositories_ErrNotFound); returned H2].
  destruct (negb (Card_IsEnabled x)); returned H2.
Qed.

Lemma LinkHandler_HandleLink_queries (h : LinkHandler) (ctx : Context) (key : string)
    (resp : Response) (w w' : World) :
  LinkHandler_HandleLink h ctx key w = (resp, w') -> queries_only w w'.
Proof.
  unfold LinkHandler_HandleLink.
  destruct (negb (String.length key =? 20)%nat); [returned (queries_only_refl w)|].
  unfold bind at 1.
  destruct (LinkService_GetLinkByKey (linkService h) ctx key w) as [lr w1] eqn:Hl.
  apply GetLinkByKey_queries in Hl.
  destruct lr as [link|e]; [|destruct (errors_Is e ErrLinkNotFound); returned Hl].
  destruct (String.eqb (Name (Link_Type link)) TypeNameInvitation).
  { unfold bind.
    destruct (InvitationService_GetInvitationByKey (invitationService h) ctx key w1)
      as [r w2] eqn:Hr.
    apply GetInvitationByKey_queries in Hr.
    pose proof (queries_only_trans _ _ _ Hl Hr) as H2.
    destruct r as [x|e]; [|destruct (errors_Is e ErrInvitationNotFound)]; returned H2. }
  destruct (String.eqb (Name (Link_Type link)) TypeNameAppointment).
  { unfold bind.
    destruct (AppointmentService_GetAppointmentByKey (appointmentService h) ctx key w1)
      as [r w2] eqn:Hr.
    apply GetAppointmentByKey_queries in Hr.
    pose proof (queries_only_trans _ _ _ Hl Hr) as H2.
    destruct r as [x|e]; [|destruct (errors_Is e ErrAppointmentNotFound)]; returned H2. }
  destruct (String.eqb (Name (Link_Type link)) TypeNameForm).
  { unfold bind.
    destruct (FormService_GetFormByKey (formService h) ctx key w1) as [r w2] eqn:Hr.
    apply GetFormByKey_queries in Hr.
    pose proof (queries_only_trans _ _ _ Hl Hr) as H2.
    destruct r as [x|e]; [|destruct (errors_Is e ErrFormNotFound)]; returned H2. }
  destruct (String.eqb (Name (Link_Type link)) TypeNameCard).
  { unfold bind.
    destruct (CardService_GetCardByKey (cardService h) ctx key w1) as [r w2] eqn:Hr.
    apply GetCardByKey_queries in Hr.
    pose proof (queries_only_trans _ _ _ Hl Hr) as H2.
    destruct r as [x|e]; [|destruct (errors_Is e ErrCardNotFound)]; returned H2. }
  returned Hl.
Qed.

Lemma PublicLinkHandler_HandleLink_queries (h : LinkHandler) (ctx : Context) (key : string)
    (resp : Response) (w w' : World) :
  PublicLinkHandler_HandleLink h ctx key w = (resp, w') -> queries_only w w'.
Proof.
  unfold PublicLinkHandler_HandleLink.
  destruct (negb (String.length key =? 20)%nat); [returned (queries_only_refl w)|].
  unfold bind at 1.
  destruct (LinkService_GetLinkByKey (linkService h) ctx key w) as [lr w1] eqn:Hl.
  apply GetLinkByKey_queries in Hl.
  destruct lr as [link|e]; [|destruct (errors_Is e ErrLinkNotFound); returned Hl].
  destruct (String.eqb (Name (Link_Type link)) TypeNameInvitation).
  { unfold bind.
    destruct (InvitationService_GetInvitationByKey (invitationService h) ctx key w1)
      as [r w2] eqn:Hr.
    apply GetInvitationByKey_queries in Hr.
    pose proof (queries_only_trans _ _ _ Hl Hr) as H2.
    destruct r as [x|e]; [|destruct (errors_Is e ErrInvitationNotFound)]; returned H2. }
  destruct (String.eqb (Name (Link_Type link)) TypeNameAppointment).
  { unfold bind.
    destruct (AppointmentService_GetAppointmentByKey (appointmentService h) ctx key w1)
      as [r w2] eqn:Hr.
    apply GetAppointmentByKey_queries in Hr.
    pose proof (queries_only_trans _ _ _ Hl Hr) as H2.
    destruct r as [x|e]; returned H2. }
  destruct (String.eqb (Name (Link_Type link)) TypeNameForm).
  { unfold bind.
    destruct (FormService_GetFormByKey (formService h) ctx key w1) as [r w2] eqn:Hr.
    apply GetFormByKey_queries in Hr.
    pose proof (queries_only_trans _ _ _ Hl Hr) as H2.
    destruct r as [x|e]; returned H2. }
  destruct (String.eqb (Name (Link_Type link)) TypeNameCard).
  { unfold bind.
    destruct (CardService_GetCardByKey (cardService h) ctx key w1) as [r w2] eqn:Hr.
    apply GetCardByKey_queries in Hr.
    pose proof (queries_only_trans _ _ _ Hl Hr) as H2.
    destruct r as [x|e]; returned H2. }
  returned Hl.
Qed.

Lemma queries_only_frame (w w' : World) :
  queries_only w w' ->
  committed w' = committed w /\ txview w' = txview w /\
  sequences w' = sequences w /\ reader w' = reader w /\
  exists ss, statements w' = (statements w ++ ss)%list /\
             Forall (fun st => stmt_verb st = SELECT) ss.
Proof.
  intros (ss & -> & Hss). repeat split. exists ss. split; [reflexivity|exact Hss].
Qed.

(** X3.  Resolving a public key never writes.  Whatever the key and the
    state of the store, each of the two dispatch handlers and each of the
    four by-key lookups behind them leaves the committed tables, the open
    transaction's view, the id sequences and the random source as it found
    them, and every statement it sends is a SELECT. *)
Theorem public_resolution_only_queries (h : LinkHandler) (ctx : Context) (key : string)
    (w : World) :
  let unchanged (w' : World) :=
    committed w' = committed w /\ txview w' = txview w /\
    sequences w' = sequences w /\ reader w' = reader w /\
    exists ss, statements w' = (statements w ++ ss)%list /\
               Forall (fun st => stmt_verb st = SELECT) ss in
  unchanged (snd (LinkHandler_HandleLink h ctx key w)) /\
  unchanged (snd (PublicLinkHandler_HandleLink h ctx key w)) /\
  unchanged (snd (InvitationService_GetInvitationByKey (invitationService h) ctx key w)) /\
  unchanged (snd (AppointmentService_GetAppointmentByKey (appointmentService h) ctx key w)) /\
  unchanged (snd (FormService_GetFormByKey (formService h) ctx key w)) /\
  unchanged (snd (CardService_GetCardByKey (cardService h) ctx key w)).
Proof.
  cbv zeta.
  refine (conj _ (conj _ (conj _ (conj _ (conj _ _))))); apply queries_only_frame.
  - destruct (LinkHandler_HandleLink h ctx key w) as [r w'] eqn:Hr.
    exact (LinkHandler_HandleLink_queries _ _ _ _ _ _ Hr).
  - destruct (PublicLinkHandler_HandleLink h ctx key w) as [r w'] eqn:Hr.
    exact (PublicLinkHandler_HandleLink_queries _ _ _ _ _ _ Hr).
  - destruct (InvitationService_GetInvitationByKey _ ctx key w) as [r w'] eqn:Hr.
    exact (GetInvitationByKey_queries _ _ _ _ _ _ Hr).
  - destruct (AppointmentService_GetAppointmentByKey _ ctx key w) as [r w'] eqn:Hr.
    exact (GetAppointmentByKey_queries _ _ _ _ _ _ Hr).
  - destruct (FormService_GetFormByKey _ ctx key w) as [r w'] eqn:Hr.
    exact (GetFormByKey_queries _ _ _ _ _ _ Hr).
  - destruct (CardService_GetCardByKey _ ctx key w) as [r w'] eqn:Hr.
    exact (GetCardByKey_queries _ _ _ _ _ _ Hr).
Qed.

(** ** What the dispatch serves *)

Lemma queries_only_now (w w' : World) : queries_only w w' -> now w' = now w.
Proof. intros (ss & -> & _). reflexivity. Qed.

Ltac refused :=
  let Heq := fresh "Heq" in
  intros Heq; inversion Heq; subst; right; split; [auto|reflexivity].

Ltac served Hlen Hv :=
  let Heq := fresh "Heq" in
  intros Heq; inversion Heq; subst; left;
  split; [reflexivity|split; [exact Hlen|exact Hv]].

Lemma LinkHandler_HandleLink_serves (h : LinkHandler) (ctx : Context) (key : string)
    (resp : Response) (w w' : World) :
  LinkHandler_HandleLink h ctx key w = (resp, w') -> served_or_refused (now w) key resp.
Proof.
  unfold LinkHandler_HandleLink, served_or_refused.
  destruct (String.length key =? 20)%nat eqn:Hlen; cbn [negb]; [|refused].
  apply Nat.eqb_eq in Hlen.
  unfold bind at 1.
  destruct (LinkService_GetLinkByKey (linkService h) ctx key w) as [lr w1] eqn:Hl.
  apply GetLinkByKey_queries, queries_only_now in Hl.
  destruct lr as [link|e]; [|destruct (errors_Is e ErrLinkNotFound); refused].
  destruct (String.eqb (Name (Link_Type link)) TypeNameInvitation).
  { unfold bind.
    destruct (InvitationService_GetInvitationByKey (invitationService h) ctx key w1)
      as [r w2] eqn:Hr.
    destruct r as [x|e]; [|destruct (errors_Is e ErrInvitationNotFound); refused].
    apply GetInvitationByKey_returns_visible in Hr. rewrite Hl in Hr. served Hlen Hr. }
  destruct (String.eqb (Name (Link_Type link)) TypeNameAppointment).
  { unfold bind.
    destruct (AppointmentService_GetAppointmentByKey (appointmentService h) ctx key w1)
      as [r w2] eqn:Hr.
    destruct r as [x|e]; [|destruct (errors_Is e ErrAppointmentNotFound); refused].
    apply GetAppointmentByKey_returns_visible in Hr. rewrite Hl in Hr. served Hlen Hr. }
  destruct (String.eqb (Name (Link_Type link)) TypeNameForm).
  { unfold bind.
    destruct (FormService_GetFormByKey (formService h) ctx key w1) as [r w2] eqn:Hr.
    destruct r as [x|e]; [|destruct (errors_Is e ErrFormNotFound); refused].
    apply GetFormByKey_returns_visible in Hr. rewrite Hl in Hr. served Hlen Hr. }
  destruct (String.eqb (Name (Link_Type link)) TypeNameCard).
  { unfold bind.
    destruct (CardService_GetCardByKey (cardService h) ctx key w1) as [r w2] eqn:Hr.
    destruct r as [x|e]; [|destruct (errors_Is e ErrCardNotFound); refused].
    apply GetCardByKey_returns_visible in Hr. rewrite Hl in Hr. served Hlen Hr. }
  refused.
Qed.

Lemma PublicLinkHandler_HandleLink_serves (h : LinkHandler) (ctx : Context) (key : string)
    (resp : Response) (w w' : World) :
  PublicLinkHandler_HandleLink h ctx key w = (resp, w') ->
  served_or_refused (now w) key resp.
Proof.
  unfold PublicLinkHandler_HandleLink, served_or_refused.
  destruct (String.length key =? 20)%nat eqn:Hlen; cbn [negb]; [|refused].
  apply Nat.eqb_eq in Hlen.
  unfold bind at 1.
  destruct (LinkService_GetLinkByKey (linkService h) ctx key w) as [lr w1] eqn:Hl.
  apply GetLinkByKey_queries, queries_only_now in Hl.
  destruct lr as [link|e]; [|destruct (errors_Is e ErrLinkNotFound); refused].
  destruct (String.eqb (Name (Link_Type link)) TypeNameInvitation).
  { unfold bind.
    destruct (InvitationService_GetInvitationByKey (invitationService h) ctx key w1)
      as [r w2] eqn:Hr.
    destruct r as [x|e]; [|destruct (errors_Is e ErrInvitationNotFound); refused].
    apply GetInvitationByKey_returns_visible in Hr. rewrite Hl in Hr. served Hlen Hr. }
  destruct (String.eqb (Name (Link_Type link)) TypeNameAppointment).
  { unfold bind.
    destruct (AppointmentService_GetAppointmentByKey (appointmentService h) ctx key w1)
      as [r w2] eqn:Hr.
    destruct r as [x|e]; [|refused].
    apply GetAppointmentByKey_returns_visible in Hr. rewrite Hl in Hr. served Hlen Hr. }
  destruct (String.eqb (Name (Link_Type link)) TypeNameForm).
  { unfold bind.
    destruct (FormService_GetFormByKey (formService h) ctx key w1) as [r w2] eqn:Hr.
    destruct r as [x|e]; [|refused].
    apply GetFormByKey_returns_visible in Hr. rewrite Hl in Hr. served Hlen Hr. }
  destruct (String.eqb (Name (Link_Type link)) TypeNameCard).
  { unfold bind.
    destruct (CardService_GetCardByKey (cardService h) ctx key w1) as [r w2] eqn:Hr.
    destruct r as [x|e]; [|refused].
    apply GetCardByKey_returns_visible in Hr. rewrite Hl in Hr. served Hlen Hr. }
  refused.
Qed.

(** X4.  The dispatch serves a resource only when it is visible.  For every
    key and every state of the store, the response of either handler is one
    of two things: status 200 for a key of exactly 20 characters, binding a
    resource that is enabled and not past its expiry at the time of the
    request; or status 404 or 500, binding nothing.  No other status is
    sent, and a disabled or expired resource is never bound to a page. *)
Theorem dispatch_serves_only_visible (h : LinkHandler) (ctx : Context) (key : string)
    (w : World) :
  served_or_refused (now w) key (fst (LinkHandler_HandleLink h ctx key w)) /\
  served_or_refused (now w) key (fst (PublicLinkHandler_HandleLink h ctx key w)).
Proof.
  split.
  - destruct (LinkHandler_HandleLink h ctx key w) as [r w'] eqn:Hr.
    exact (LinkHandler_HandleLink_serves _ _ _ _ _ _ Hr).
  - destruct (PublicLinkHandler_HandleLink h ctx key w) as [r w'] eqn:Hr.
    exact (PublicLinkHandler_HandleLink_serves _ _ _ _ _ _ Hr).
Qed.

(** ** Links of another type, and links whose target is not filled in *)

Lemma gorm_Find_run {T} `{Schema T} (db : DB) (cond : T -> bool) (w : World) :
  faults w (length (statements w)) = None ->
  gorm_Find db cond w
  = (Ok (List.filter (fun x => live x && cond x) (rows (view db w))),
     with_statements (statements w ++ [mkStmt db SELECT (Some table)])%list w).
Proof.
  intros Hf. unfold gorm_Find, exec. unfold_monad. rewrite Hf. cbn.
  rewrite view_with_statements. reflexivity.
Qed.

Lemma find_link_some (db : DB) (cond : Link -> bool) (w : World) (y : Link) :
  faults w (length (statements w)) = None ->
  faults w (S (length (statements w))) = None ->
  In y (links (view db w)) -> live y = true -> cond y = true ->
  exists link,
    find_link db cond w
    = (Ok link,
       with_statements
         (statements w ++ [mkStmt db SELECT (Some t_links);
                           mkStmt db SELECT (Some t_types)])%list w).
Proof.
  intros Hf0 Hf1 Hin Hl Hc.
  destruct (@gorm_First_some Link Schema_Link db cond w y Hf0 Hin Hl Hc) as [x Hx].
  unfold find_link. unfold bind at 1. rewrite Hx. unfold bind at 1.
  unfold preload_Type. unfold bind at 1.
  rewrite gorm_Find_run.
  2:{ cbn. rewrite length_app, Nat.add_1_r. exact Hf1. }
  cbn [statements with_statements]. rewrite <- app_assoc. cbn [app].
  match goal with
  | |- context [List.filter ?f ?l] => destruct (List.filter f l) as [|t ts]
  end; eexists; reflexivity.
Qed.

Lemma find_link_property (db : DB) (cond : Link -> bool) (link : Link) (w w' : World)
    (P : Link -> Prop) :
  find_link db cond w = (Ok link, w') ->
  (forall ty l, P l -> P (Link_with_Type ty l)) ->
  (forall y, In y (links (view db w)) -> live y = true -> cond y = true -> P y) ->
  P link.
Proof.
  intros Hfind Hty Hall.
  pose proof (find_link_inv _ _ _ _ _ Hfind)
    as (_ & _ & _ & l & ty & -> & Hin & Hl & Hc & _ & _).
  apply Hty. apply Hall; assumption.
Qed.

Lemma GetLinkByKey_Ok (s : LinkService) (ctx : Context) (key : string) (link : Link)
    (w w' : World) :
  LinkService_GetLinkByKey s ctx key w = (Ok link, w') ->
  key <> EmptyString /\ find_link (LinkService_db s ctx) (key_is key) w = (Ok link, w').
Proof.
  intros Hrun.
  destruct (GetLinkByKey_inv _ _ _ _ _ _ Hrun) as [(_ & Hr & _)|(Hk & r0 & Hfind & Hr)];
    [discriminate|].
  split; [exact Hk|].
  destruct r0 as [l0|e]; [|destruct (errors_Is e gorm_ErrRecordNotFound); discriminate].
  inversion Hr; subst. exact Hfind.
Qed.

Lemma GetLinkByKey_unfilled (s : LinkService) (ctx : Context) (key : string) (link : Link)
    (w w' : World) :
  unfilled (view (LinkService_db s ctx) w) key ->
  LinkService_GetLinkByKey s ctx key w = (Ok link, w') -> TargetID link = 0.
Proof.
  intros Hun Hrun. apply GetLinkByKey_Ok in Hrun. destruct Hrun as [_ Hfind].
  apply (find_link_property _ _ _ _ _ (fun l => TargetID l = 0) Hfind).
  - intros ty l Hl. exact Hl.
  - intros y Hy Hl Hc. apply (Hun y Hy Hl). apply String.eqb_eq. exact Hc.
Qed.

(** X5.  A link that was issued but whose target was not filled in yet is
    never resolved to a resource.  When every live link carrying the key
    still has the placeholder target 0, the by-key lookups of the
    appointment, form and invitation services return an error, whatever
    the store holds; and when such a link of the service's own type is
    found, the error is the repository's invalid-id error, not the
    service's not-found error, and the resource table is not queried (the
    world is the one the link lookup left). *)
Theorem placeholder_target_is_never_served (ctx : Context) (key : string) (w : World) :
  (forall s : AppointmentService,
     unfilled (view (LinkService_db (AppointmentService_linkService s) ctx) w) key ->
     is_Err (fst (AppointmentService_GetAppointmentByKey s ctx key w)) = true /\
     forall link w1,
       LinkService_GetLinkByKey (AppointmentService_linkService s) ctx key w = (Ok link, w1) ->
       Name (Link_Type link) = TypeNameAppointment ->
       AppointmentService_GetAppointmentByKey s ctx key w
       = (Err (errors_New "geçersiz Appointment ID"), w1)) /\
  (forall s : FormService,
     unfilled (view (LinkService_db (FormService_linkService s) ctx) w) key ->
     is_Err (fst (FormService_GetFormByKey s ctx key w)) = true /\
     forall link w1,
       LinkService_GetLinkByKey (FormService_linkService s) ctx key w = (Ok link, w1) ->
       Name (Link_Type link) = TypeNameForm ->
       FormService_GetFormByKey s ctx key w = (Err (errors_New "geçersiz Form ID"), w1)) /\
  (forall s : InvitationService,
     unfilled (view (LinkService_db (InvitationService_linkService s) ctx) w) key ->
     is_Err (fst (InvitationService_GetInvitationByKey s ctx key w)) = true /\
     forall link w1,
       LinkService_GetLinkByKey (InvitationService_linkService s) ctx key w = (Ok link, w1) ->
       Name (Link_Type link) = TypeNameInvitation ->
       InvitationService_GetInvitationByKey s ctx key w
       = (Err (errors_New "geçersiz Invitation ID"), w1)).
Proof.
  split; [|split]; intros s Hun; split.
  - unfold AppointmentService_GetAppointmentByKey.
    destruct (String.eqb key EmptyString); [reflexivity|].
    unfold bind at 1.
    destruct (LinkService_GetLinkByKey (AppointmentService_linkService s) ctx key w)
      as [lr w1] eqn:Hl.
    destruct lr as [link|e]; [|destruct (errors_Is e ErrLinkNotFound); reflexivity].
    rewrite (GetLinkByKey_unfilled _ _ _ _ _ _ Hun Hl).
    destruct (negb (String.eqb (Name (Link_Type link)) TypeNameAppointment)); reflexivity.
  - intros link w1 Hl Hname.
    pose proof (GetLinkByKey_Ok _ _ _ _ _ _ Hl) as [Hk _].
    unfold AppointmentService_GetAppointmentByKey.
    destruct (String.eqb_spec key EmptyString) as [|_]; [contradiction|].
    unfold bind at 1. rewrite Hl, Hname, (GetLinkByKey_unfilled _ _ _ _ _ _ Hun Hl).
    reflexivity.
  - unfold FormService_GetFormByKey.
    destruct (String.eqb key EmptyString); [reflexivity|].
    unfold bind at 1.
    destruct (LinkService_GetLinkByKey (FormService_linkService s) ctx key w)
      as [lr w1] eqn:Hl.
    destruct lr as [link|e]; [|reflexivity].
    rewrite (GetLinkByKey_unfilled _ _ _ _ _ _ Hun Hl).
    destruct (negb (String.eqb (Name (Link_Type link)) TypeNameForm)); reflexivity.
  - intros link w1 Hl Hname.
    pose proof (GetLinkByKey_Ok _ _ _ _ _ _ Hl) as [Hk _].
    unfold FormService_GetFormByKey.
    destruct (String.eqb_spec key EmptyString) as [|_]; [contradiction|].
    unfold bind at 1. rewrite Hl, Hname, (GetLinkByKey_unfilled _ _ _ _ _ _ Hun Hl).
    reflexivity.
  - unfold InvitationService_GetInvitationByKey.
    destruct (String.eqb key EmptyString); [reflexivity|].
    unfold bind at 1.
    destruct (LinkService_GetLinkByKey (InvitationService_linkService s) ctx key w)
      as [lr w1] eqn:Hl.
    destruct lr as [link|e]; [|destruct (errors_Is e ErrLinkNotFound); reflexivity].
    rewrite (GetLinkByKey_unfilled _ _ _ _ _ _ Hun Hl).
    destruct (negb (String.eqb (Name (Link_Type link)) TypeNameInvitation)); reflexivity.
  - intros link w1 Hl Hname.
    pose proof (GetLinkByKey_Ok _ _ _ _ _ _ Hl) as [Hk _].
    unfold InvitationService_GetInvitationByKey.
    destruct (String.eqb_spec key EmptyString) as [|_]; [contradiction|].
    unfold bind at 1. rewrite Hl, Hname, (GetLinkByKey_unfilled _ _ _ _ _ _ Hun Hl).
    reflexivity.
Qed.

Lemma placeholder_target_is_never_served_witness :
  is_Err (fst (AppointmentService_GetAppointmentByKey NewAppointmentService
                 context_Background "aaaaaaaaaaaaaaaaaaaa" (world_of issued_link [])))
  = true.
Proof.
  refine (proj1 (proj1 (placeholder_target_is_never_served context_Background
            "aaaaaaaaaaaaaaaaaaaa" (world_of issued_link [])) NewAppointmentService _)).
  intros y [<-|[]] _ _. reflexivity.
Defined.

Lemma find_link_of_another_type (db : DB) (key name : string) (w : World) :
  faults w (length (statements w)) = None ->
  faults w (S (length (statements w))) = None ->
  has_live_key (view db w) key ->
  typed_otherwise (view db w) key name ->
  exists link,
    find_link db (key_is key) w = (Ok link, after_link_lookup db w) /\
    String.eqb (Name (Link_Type link)) name = false.
Proof.
  intros Hf0 Hf1 (y & Hin & Hl & Hk) Hty.
  destruct (find_link_some db (key_is key) w y Hf0 Hf1 Hin Hl) as [link Hfind].
  { unfold key_is. apply String.eqb_eq. exact Hk. }
  exists link. split; [exact Hfind|].
  pose proof (find_link_inv _ _ _ _ _ Hfind)
    as (_ & _ & _ & l & ty & -> & Hin' & Hl' & Hc' & _ & Hpre).
  apply String.eqb_neq. cbn.
  apply (Hty l ty Hin' Hl'); [|exact Hpre].
  apply String.eqb_eq. exact Hc'.
Qed.

Lemma GetLinkByKey_find_link (s : LinkService) (ctx : Context) (key : string) (link : Link)
    (w w' : World) :
  key <> EmptyString ->
  find_link (LinkService_db s ctx) (key_is key) w = (Ok link, w') ->
  LinkService_GetLinkByKey s ctx key w = (Ok link, w').
Proof.
  intros Hk Hfind. unfold LinkService_GetLinkByKey. unfold bind at 1.
  rewrite FindByKey_find_link.
  destruct (String.eqb_spec key EmptyString) as [|_]; [contradiction|].
  unfold LinkService_db in Hfind. rewrite Hfind. reflexivity.
Qed.

(** X6.  A key is resolved only by the service of its link's type.  When the
    store answers the two SELECTs of the link lookup, some live link
    carries the key and no live link with the key is of the service's
    type, each by-key lookup returns its own not-found error right after
    the link lookup: the resource table is not queried. *)
Theorem lookup_of_another_type_is_not_found (ctx : Context) (key : string) (w : World) :
  key <> EmptyString ->
  faults w (length (statements w)) = None ->
  faults w (S (length (statements w))) = None ->
  (forall s : AppointmentService,
     let db := LinkService_db (AppointmentService_linkService s) ctx in
     has_live_key (view db w) key ->
     typed_otherwise (view db w) key TypeNameAppointment ->
     AppointmentService_GetAppointmentByKey s ctx key w
     = (Err ErrAppointmentNotFound, after_link_lookup db w)) /\
  (forall s : FormService,
     let db := LinkService_db (FormService_linkService s) ctx in
     has_live_key (view db w) key ->
     typed_otherwise (view db w) key TypeNameForm ->
     FormService_GetFormByKey s ctx key w = (Err ErrFormNotFound, after_link_lookup db w)) /\
  (forall s : InvitationService,
     let db := LinkService_db (InvitationService_linkService s) ctx in
     has_live_key (view db w) key ->
     typed_otherwise (view db w) key TypeNameInvitation ->
     InvitationService_GetInvitationByKey s ctx key w
     = (Err ErrInvitationNotFound, after_link_lookup db w)) /\
  (forall s : CardService,
     let db := LinkRepository_getDB (CardService_linkRepo s) ctx in
     has_live_key (view db w) key ->
     typed_otherwise (view db w) key TypeNameCard ->
     CardService_GetCardByKey s ctx key w = (Err ErrCardNotFound, after_link_lookup db w)).
Proof.
  intros Hk Hf0 Hf1.
  refine (conj _ (conj _ (conj _ _))); intros s db Hlive Hty;
    destruct (find_link_of_another_type db key _ w Hf0 Hf1 Hlive Hty) as (link & Hfind & Hn).
  - unfold AppointmentService_GetAppointmentByKey.
    destruct (String.eqb_spec key EmptyString) as [|_]; [contradiction|].
    unfold bind at 1. rewrite (GetLinkByKey_find_link _ _ _ _ _ _ Hk Hfind), Hn.
    reflexivity.
  - unfold FormService_GetFormByKey.
    destruct (String.eqb_spec key EmptyString) as [|_]; [contradiction|].
    unfold bind at 1. rewrite (GetLinkByKey_find_link _ _ _ _ _ _ Hk Hfind), Hn.
    reflexivity.
  - unfold InvitationService_GetInvitationByKey.
    destruct (String.eqb_spec key EmptyString) as [|_]; [contradiction|].
    unfold bind at 1. rewrite (GetLinkByKey_find_link _ _ _ _ _ _ Hk Hfind), Hn.
    reflexivity.
  - unfold CardService_GetCardByKey.
    destruct (String.eqb_spec key EmptyString) as [|_]; [contradiction|].
    unfold bind at 1. rewrite FindByKey_find_link.
    destruct (String.eqb_spec key EmptyString) as [|_]; [contradiction|].
    fold db. rewrite Hfind, Hn. reflexivity.
Qed.

Lemma lookup_of_another_type_is_not_found_witness :
  fst (FormService_GetFormByKey NewFormService context_Background "aaaaaaaaaaaaaaaaaaaa"
         (world_of issued_link []))
  = Err (Sentinel ErrFormNotFound).
Proof.
  refine (f_equal fst (proj1 (proj2 (lookup_of_another_type_is_not_found context_Background
            "aaaaaaaaaaaaaaaaaaaa" (world_of issued_link []) _ _ _)) NewFormService _ _)).
  - discriminate.
  - reflexivity.
  - reflexivity.
  - eexists. split; [left; reflexivity|]. split; reflexivity.
  - intros y ty [<-|[]] _ _ [[-> _]|(Hin & _ & Hid)]; [discriminate|].
    cbn in Hin, Hid.
    destruct Hin as [<-|[<-|[<-|[<-|[]]]]]; cbn in Hid; discriminate.
Defined.

(** ** What issuing a link leaves behind *)

Lemma view_store (db : DB) (w w' : World) : store w' = store w -> view db w' = view db w.
Proof.
  unfold store. intros Hs. inversion Hs as [[Hc Ht]].
  destruct db; cbn; rewrite ?Hc, ?Ht; reflexivity.
Qed.

Lemma generate_Ok (w w' : World) (key : string) :
  generateSecureRandomStringForLink 20 w = (Ok key, w') ->
  String.length key = 20%nat /\
  Forall (fun c => alnum c = true) (String.list_ascii_of_string key) /\
  store w' = store w /\ sequences w' = sequences w.
Proof.
  intros Hg. pose proof (generate_frame _ _ _ _ Hg) as Hw.
  unfold generateSecureRandomStringForLink in Hg. cbn [Z.leb Z.compare] in Hg.
  rewrite charsetForLink_length in Hg. change (N.of_nat 62) with 62 in Hg.
  apply fill_bytes_ok in Hg. destruct Hg as (Hlen & Hal & _).
  split; [exact Hlen|]. split; [exact Hal|]. rewrite Hw. split; reflexivity.
Qed.

Lemma BeforeCreate_loop_Ok (tx : DB) (l l' : Link) (n : nat) (w w' : World) :
  BeforeCreate_loop tx l n w = (Ok l', w') ->
  exists key,
    l' = Link_with_Key key l /\ String.length key = 20%nat /\
    Forall (fun c => alnum c = true) (String.list_ascii_of_string key) /\
    store w' = store w /\ sequences w' = sequences w.
Proof.
  revert w. induction n as [|n IH]; intros w; [discriminate|].
  cbn [BeforeCreate_loop]. unfold bind at 1.
  destruct (generateSecureRandomStringForLink 20 w) as [g w1] eqn:Hg.
  destruct g as [key|e]; [|discriminate].
  destruct (generate_Ok _ _ _ Hg) as (Hlen & Hal & Hs1 & Hq1).
  unfold bind at 1.
  match goal with
  | |- context [gorm_Count tx ?c w1] => destruct (gorm_Count tx c w1) as [c0 w2] eqn:Hc
  end.
  pose proof (gorm_Count_frame _ _ _ _ _ Hc) as Hw2.
  destruct c0 as [count|e]; [|discriminate].
  assert (Hs2 : store w2 = store w) by (rewrite Hw2; exact Hs1).
  assert (Hq2 : sequences w2 = sequences w) by (rewrite Hw2; exact Hq1).
  destruct (count =? 0).
  - intros Heq; inversion Heq; subst. exists key. repeat split; assumption.
  - intros Hrec. destruct (IH _ Hrec) as (key' & -> & Hlen' & Hal' & Hs' & Hq').
    exists key'. repeat split; try assumption; congruence.
Qed.

(** The INSERT of a row without an id, when the store takes it: the id is
    the next of the sequence, the row is appended to its table, and no
    stored row had that id or collides with it on a unique index. *)
Lemma gorm_insert_inv {T} `{Schema T} (db : DB) (x x' : T) (w w' : World) :
  ID (base x) = 0 ->
  gorm_insert db x w = (Ok x', w') ->
  x' = with_base (mkBaseModel (sequences w table + 1) (DeletedAt (base x))) x /\
  view db w' = with_rows (rows (view db w) ++ [x'])%list (view db w) /\
  sequences w' table = sequences w table + 1 /\
  (forall y, In y (rows (view db w)) ->
     ID (base y) <> sequences w table + 1 /\ unique_conflict x' y = false).
Proof.
  intros Hid. unfold gorm_insert, exec. unfold_monad.
  destruct (faults w (length (statements w))); [intros Heq; discriminate|].
  cbn. rewrite Hid. cbn.
  match goal with
  | |- context [existsb ?f (rows (view db ?w0))] =>
      replace (view db w0) with (view db w) by (destruct db; reflexivity);
      destruct (existsb f (rows (view db w))) eqn:Hex
  end; intros Heq; inversion Heq; subst.
  split; [reflexivity|].
  split.
  { rewrite view_write. destruct db; reflexivity. }
  split.
  { destruct db; cbn; [|destruct (txview w)]; cbn;
      destruct (decide (table = table)); congruence. }
  intros y Hy.
  assert (Hf : ((ID (base y) =? sequences w table + 1)
                || unique_conflict
                     (with_base (mkBaseModel (sequences w table + 1) (DeletedAt (base x))) x)
                     y) = false).
  { destruct (_ || _) eqn:Hb; [|reflexivity].
    assert (Ht : existsb
                   (fun y => (ID (base y) =? sequences w table + 1)
                             || unique_conflict
                                  (with_base (mkBaseModel (sequences w table + 1)
                                                          (DeletedAt (base x))) x) y)
                   (rows (view db w)) = true).
    { apply existsb_exists. exists y. split; [exact Hy|exact Hb]. }
    rewrite Ht in Hex. discriminate. }
  apply orb_false_iff in Hf. destruct Hf as [Hne Hu].
  split; [apply N.eqb_neq; exact Hne|exact Hu].
Qed.

Lemma CreateLink_inv (s : LinkService) (ctx : Context) (creatorUserID typeID : uint)
    (link : Link) (w w' : World) :
  LinkService_CreateLink s ctx creatorUserID typeID w = (Ok link, w') ->
  typeID <> 0 /\ creatorUserID <> 0 /\
  exists key w1,
    String.length key = 20%nat /\
    Forall (fun c => alnum c = true) (String.list_ascii_of_string key) /\
    store w1 = store w /\ sequences w1 = sequences w /\
    gorm_insert (LinkService_db s (contextWithUserID ctx creatorUserID))
      (mkLink zeroBase key typeID 0 creatorUserID zeroType) w1
    = (Ok link, w').
Proof.
  unfold LinkService_CreateLink.
  destruct (N.eqb_spec typeID 0) as [|Hty]; [discriminate|].
  destruct (N.eqb_spec creatorUserID 0) as [|Hcr]; [discriminate|].
  cbn [orb]. unfold bind at 1.
  unfold LinkRepository_Create, gorm_Create_Link. unfold bind at 1.
  unfold Link_BeforeCreate. cbn [Key negb String.eqb].
  fold (LinkService_db s (contextWithUserID ctx creatorUserID)).
  destruct (BeforeCreate_loop _ _ maxAttempts w) as [h w1] eqn:Hh.
  destruct h as [l1|e].
  2:{ unfold ret; cbv beta iota.
      match goal with |- context [if ?b then _ else _] => destruct b end; discriminate. }
  destruct (BeforeCreate_loop_Ok _ _ _ _ _ _ Hh) as (key & -> & Hlen & Hal & Hs & Hq).
  destruct (gorm_insert _ _ w1) as [r w2] eqn:Hins.
  destruct r as [l2|e].
  2:{ unfold ret; cbv beta iota.
      match goal with |- context [if ?b then _ else _] => destruct b end; discriminate. }
  intros Heq; inversion Heq; subst.
  split; [exact Hty|]. split; [exact Hcr|].
  exists key, w1. repeat split; assumption.
Qed.

(** X7.  What a successful [CreateLink] leaves.  The link returned has a key
    of exactly 20 characters of the alphabet a-z, A-Z, 0-9, the given type
    and creator (both non-zero), the placeholder target 0, no deletion
    stamp and the next id of the links sequence; it is appended to the
    links table the service's handle writes to, and nothing else in that
    handle's tables changes; no row stored before, soft-deleted ones
    included, has its key or its id. *)
Theorem CreateLink_issues_placeholder_link (s : LinkService) (ctx : Context)
    (creatorUserID typeID : uint) (link : Link) (w w' : World) :
  LinkService_CreateLink s ctx creatorUserID typeID w = (Ok link, w') ->
  let db := LinkService_db s (contextWithUserID ctx creatorUserID) in
  typeID <> 0 /\ creatorUserID <> 0 /\
  String.length (Key link) = 20%nat /\
  Forall (fun c => alnum c = true) (String.list_ascii_of_string (Key link)) /\
  link = mkLink (mkBaseModel (sequences w t_links + 1) None) (Key link) typeID 0
                creatorUserID zeroType /\
  view db w' = with_rows (links (view db w) ++ [link])%list (view db w) /\
  sequences w' t_links = sequences w t_links + 1 /\
  (forall y, In y (links (view db w)) ->
     ID (Link_Base y) <> ID (Link_Base link) /\ Key y <> Key link).
Proof.
  intros Hrun db.
  destruct (CreateLink_inv _ _ _ _ _ _ _ Hrun)
    as (Hty & Hcr & key & w1 & Hlen & Hal & Hs & Hq & Hins).
  fold db in Hins.
  apply (@gorm_insert_inv Link Schema_Link) in Hins; [|reflexivity].
  destruct Hins as (Hl & Hview & Hseq & Hfresh).
  rewrite (view_store db _ _ Hs) in Hview, Hfresh. rewrite Hq in Hl, Hseq, Hfresh.
  cbn in Hl. subst link. cbn [Key Link_Base ID].
  repeat split; try assumption.
  - apply (Hfresh y H).
  - intros Hk. destruct (Hfresh y H) as [_ Hu]. cbn in Hu.
    rewrite Hk, String.eqb_refl in Hu. discriminate.
Qed.

Lemma CreateLink_issues_placeholder_link_witness :
  String.length "cccccccccccccccccccc" = 20%nat.
Proof.
  refine (proj1 (proj2 (proj2 (CreateLink_issues_placeholder_link NewLinkService
            context_Background 7 4
            (mkLink (mkBaseModel 101 None) "cccccccccccccccccccc" 4 0 7 zeroType)
            (world_of two_links (draws 0 ++ draws 1 ++ draws 2)%list)
            (snd (LinkService_CreateLink NewLinkService context_Background 7 4
                    (world_of two_links (draws 0 ++ draws 1 ++ draws 2)%list))) _)))).
  vm_compute. reflexivity.
Defined.

Lemma LinkService_db_user (s : LinkService) (ctx : Context) (userID : uint) :
  LinkService_db s (contextWithUserID ctx userID) = LinkService_db s ctx.
Proof. reflexivity. Qed.

(** X8.  Issue, then resolve.  After a successful [CreateLink], looking the
    returned key up through the same service and context, with the store
    answering the two SELECTs, returns exactly the link that was issued
    (same id, key, type, creator, placeholder target 0) with its type row
    attached: the key resolves to the new link and to no older row. *)
Theorem CreateLink_then_GetLinkByKey (s : LinkService) (ctx : Context)
    (creatorUserID typeID : uint) (link : Link) (w w1 : World) :
  LinkService_CreateLink s ctx creatorUserID typeID w = (Ok link, w1) ->
  faults w1 (length (statements w1)) = None ->
  faults w1 (S (length (statements w1))) = None ->
  exists ty,
    LinkService_GetLinkByKey s ctx (Key link) w1
    = (Ok (Link_with_Type ty link), after_link_lookup (LinkService_db s ctx) w1) /\
    preloaded (view (LinkService_db s ctx) w1) link ty /\
    TargetID (Link_with_Type ty link) = 0.
Proof.
  intros Hrun Hf0 Hf1.
  destruct (CreateLink_inv _ _ _ _ _ _ _ Hrun)
    as (Hty & Hcr & key & w0 & Hlen & Hal & Hs & Hq & Hins).
  rewrite LinkService_db_user in Hins.
  set (db := LinkService_db s ctx) in *.
  apply (@gorm_insert_inv Link Schema_Link) in Hins; [|reflexivity].
  destruct Hins as (Hl & Hview & _ & Hfresh).
  assert (Hkey : Key link = key) by (rewrite Hl; reflexivity).
  assert (Hlive : live link = true) by (rewrite Hl; reflexivity).
  assert (Htarget : TargetID link = 0) by (rewrite Hl; reflexivity).
  assert (Hin : In link (links (view db w1))).
  { rewrite Hview. cbn. apply in_or_app. right. left. reflexivity. }
  assert (Hk : Key link <> EmptyString).
  { intros He. rewrite Hkey in He. rewrite He in Hlen. discriminate Hlen. }
  destruct (find_link_some db (key_is (Key link)) w1 link Hf0 Hf1 Hin Hlive)
    as [found Hfind].
  { unfold key_is. apply String.eqb_refl. }
  pose proof (find_link_inv _ _ _ _ _ Hfind)
    as (_ & _ & _ & l & ty & -> & Hin' & Hl' & Hc' & _ & Hpre).
  assert (l = link) as ->.
  { rewrite Hview in Hin'. cbn in Hin'. apply in_app_or in Hin'.
    destruct Hin' as [Hold|[Heq|[]]]; [|symmetry; exact Heq].
    destruct (Hfresh l Hold) as [_ Hu]. cbn in Hu.
    unfold key_is in Hc'. rewrite String.eqb_sym in Hu.
    rewrite Hu in Hc'. discriminate. }
  exists ty. split; [|split; [exact Hpre|exact Htarget]].
  apply GetLinkByKey_find_link; [exact Hk|exact Hfind].
Qed.

Lemma CreateLink_then_GetLinkByKey_witness :
  exists ty,
    fst (LinkService_GetLinkByKey NewLinkService context_Background "cccccccccccccccccccc"
           (snd (LinkService_CreateLink NewLinkService context_Background 7 4
                   (world_of two_links (draws 0 ++ draws 1 ++ draws 2)%list))))
    = Ok (Link_with_Type ty
            (mkLink (mkBaseModel 101 None) "cccccccccccccccccccc" 4 0 7 zeroType)).
Proof.
  destruct (CreateLink_then_GetLinkByKey NewLinkService context_Background 7 4
              (mkLink (mkBaseModel 101 None) "cccccccccccccccccccc" 4 0 7 zeroType)
              (world_of two_links (draws 0 ++ draws 1 ++ draws 2)%list)
              (snd (LinkService_CreateLink NewLinkService context_Background 7 4
                      (world_of two_links (draws 0 ++ draws 1 ++ draws 2)%list))))
    as (ty & Hrun & _).
  - vm_compute. reflexivity.
  - reflexivity.
  - reflexivity.
  - exists ty. exact (f_equal fst Hrun).
Defined.

(** ** The target backfill *)

Lemma key_entry_target (targetID : uint) : key_entry (target_update targetID) = None.
Proof. reflexivity. Qed.

Lemma set_columns_target (targetID : uint) (l : Link) :
  set_columns (target_update targetID) l = Ok (Link_with_TargetID targetID l).
Proof. reflexivity. Qed.

Lemma update_row_target (id targetID : uint) (l : Link) :
  update_row (target_update targetID) (id_is id) l = retarget id targetID l.
Proof. unfold update_row, retarget. rewrite set_columns_target. reflexivity. Qed.

Lemma size_target_update (targetID : uint) : size (target_update targetID) = 1%nat.
Proof. apply map_size_singleton. Qed.

Lemma write_frame (db : DB) (f : Tables -> Tables) (w : World) :
  sequences (write db f w) = sequences w /\ reader (write db f w) = reader w /\
  statements (write db f w) = statements w /\ faults (write db f w) = faults w /\
  now (write db f w) = now w.
Proof. destruct db; cbn; [|destruct (txview w)]; repeat split. Qed.

Lemma no_key_change (data : gmap string Value) (cond : Link -> bool) (rs rs' : list Link) :
  key_entry data = None ->
  existsb (fun r => live r && cond r
                    && negb (String.eqb (Key (update_row data cond r)) (Key r))
                    && (1 <? count_key (Key (update_row data cond r)) rs')%nat) rs
  = false.
Proof.
  intros Hentry. induction rs as [|r rs IH]; [reflexivity|].
  cbn [existsb]. rewrite IH, (update_row_keeps_key data cond r Hentry), String.eqb_refl.
  cbn [negb]. rewrite andb_false_r. reflexivity.
Qed.

(** The UPDATE of the target backfill: it fails only with the driver, and
    otherwise rewrites the links table row by row with [retarget]. *)
Lemma gorm_Updates_Link_target (db : DB) (id targetID : uint) (r : result N)
    (w w' : World) :
  gorm_Updates_Link db zeroLink (id_is id) (target_update targetID) w = (r, w') ->
  sequences w' = sequences w /\ reader w' = reader w /\
  statements w' = (statements w ++ [mkStmt db UPDATE (Some t_links)])%list /\
  faults w' = faults w /\
  match r with
  | Ok n =>
      faults w (length (statements w)) = None /\
      n = N.of_nat (length (List.filter (fun l => live l && id_is id l) (links (view db w)))) /\
      view db w' = with_rows (map (retarget id targetID) (links (view db w))) (view db w)
  | Err e =>
      (exists msg, faults w (length (statements w)) = Some msg /\ e = DriverError msg) /\
      store w' = store w
  end.
Proof.
  unfold gorm_Updates_Link, Link_BeforeUpdate.
  rewrite Statement_Changed_Key_spec, key_entry_target.
  unfold bind at 1, exec. cbn [fst snd].
  destruct (faults w (length (statements w))) as [msg|] eqn:Hf;
    cbn [fmap option_fmap option_map].
  - intros Heq; inversion Heq; subst. repeat split. eauto.
  - unfold bind at 1, get. rewrite set_columns_target.
    rewrite (no_key_change _ _ _ _ (key_entry_target targetID)).
    unfold bind at 1, modify, ret. intros Heq; inversion Heq; subst.
    match goal with
    | |- context [write db ?f ?w0] => destruct (write_frame db f w0) as (Hs & Hr & Hst & Hfa & _)
    end.
    rewrite Hs, Hr, Hst, Hfa.
    repeat split; try reflexivity.
    rewrite view_write, view_with_statements. reflexivity.
Qed.

Lemma with_rows_links (t : Tables) : with_rows (links t) t = t.
Proof. destruct t; reflexivity. Qed.

Lemma retarget_absent (id targetID : uint) (ls : list Link) :
  List.filter (fun l => live l && id_is id l) ls = [] ->
  map (retarget id targetID) ls = ls.
Proof.
  induction ls as [|l ls IH]; [reflexivity|]. cbn [List.filter map]. unfold retarget at 1.
  destruct (live l && id_is id l); [discriminate|].
  intros Hf. rewrite (IH Hf). reflexivity.
Qed.

Lemma LinkRepository_Update_target (r : LinkRepository) (ctx : Context)
    (id updatedByUserID targetID : uint) (res : result unit) (w w' : World) :
  LinkRepository_Update r ctx id (target_update targetID) updatedByUserID w = (res, w') ->
  let db := LinkRepository_getDB r (contextWithUserID ctx updatedByUserID) in
  sequences w' = sequences w /\ reader w' = reader w /\
  match res with
  | Ok _ =>
      id <> 0 /\ faults w (length (statements w)) = None /\
      view db w' = with_rows (map (retarget id targetID) (links (view db w))) (view db w)
  | Err e =>
      (errors_Is e gorm_ErrRecordNotFound = false /\ store w' = store w) \/
      (e = Sentinel gorm_ErrRecordNotFound /\ id <> 0 /\ view db w' = view db w /\
       forall y, In y (links (view db w)) -> live y = true -> ID (Link_Base y) <> id)
  end.
Proof.
  unfold LinkRepository_Update.
  destruct (N.eqb_spec id 0) as [|Hid].
  { intros Heq; inversion Heq; subst. repeat split. left. split; reflexivity. }
  rewrite size_target_update. cbn [Nat.eqb].
  set (db := LinkRepository_getDB r (contextWithUserID ctx updatedByUserID)).
  change (fun l : Link => ID (Link_Base l) =? id) with (id_is id).
  unfold bind at 1.
  destruct (gorm_Updates_Link db zeroLink (id_is id) (target_update targetID) w)
    as [u w1] eqn:Hu.
  destruct (gorm_Updates_Link_target _ _ _ _ _ _ Hu) as (Hs1 & Hr1 & _ & _ & Hcase).
  destruct u as [n|e].
  2:{ destruct Hcase as [(msg & _ & ->) Hst].
      intros Heq; inversion Heq; subst. repeat split; try assumption.
      left. split; [reflexivity|exact Hst]. }
  destruct Hcase as (Hf & Hn & Hview).
  destruct (n =? 0) eqn:Hz.
  2:{ intros Heq; inversion Heq; subst. repeat split; assumption. }
  unfold bind.
  destruct (gorm_Count db (id_is id) w1) as [c w2] eqn:Hc.
  pose proof (gorm_Count_frame _ _ _ _ _ Hc) as Hw2.
  assert (Hs2 : sequences w2 = sequences w) by (rewrite Hw2; exact Hs1).
  assert (Hr2 : reader w2 = reader w) by (rewrite Hw2; exact Hr1).
  assert (Hv2 : view db w2 = view db w1) by (rewrite Hw2; apply view_with_statements).
  destruct c as [[|p]|e]; intros Heq; inversion Heq; subst;
    (split; [exact Hs2|split; [exact Hr2|]]).
  - right. apply N.eqb_eq in Hz.
    assert (Hnone : List.filter (fun l => live l && id_is id l) (links (view db w)) = []).
    { destruct (List.filter _ _); [reflexivity|]. cbn in Hz. lia. }
    split; [reflexivity|]. split; [exact Hid|]. split.
    + rewrite Hv2, Hview, (retarget_absent _ _ _ Hnone). apply with_rows_links.
    + intros y Hy Hl He.
      assert (Hin : In y (List.filter (fun l => live l && id_is id l) (links (view db w)))).
      { apply filter_In. split; [exact Hy|]. rewrite Hl. cbn. unfold id_is.
        apply N.eqb_eq. exact He. }
      rewrite Hnone in Hin. destruct Hin.
  - rewrite Hv2. repeat split; assumption.
  - rewrite Hv2. repeat split; assumption.
Qed.

Lemma LinkRepository_Update_target_Ok (r : LinkRepository) (ctx : Context)
    (id updatedByUserID targetID : uint) (w : World) :
  id <> 0 ->
  faults w (length (statements w)) = None ->
  (exists y, In y (links (view (LinkRepository_getDB r ctx) w)) /\ live y = true /\
             ID (Link_Base y) = id) ->
  exists w',
    LinkRepository_Update r ctx id (target_update targetID) updatedByUserID w = (Ok tt, w').
Proof.
  intros Hid Hf (y & Hy & Hl & Hy_id).
  unfold LinkRepository_Update.
  destruct (N.eqb_spec id 0) as [|_]; [contradiction|].
  rewrite size_target_update. cbn [Nat.eqb].
  set (db := LinkRepository_getDB r (contextWithUserID ctx updatedByUserID)).
  change (fun l : Link => ID (Link_Base l) =? id) with (id_is id).
  unfold bind at 1.
  destruct (gorm_Updates_Link db zeroLink (id_is id) (target_update targetID) w)
    as [u w1] eqn:Hu.
  destruct (gorm_Updates_Link_target _ _ _ _ _ _ Hu) as (_ & _ & _ & _ & Hcase).
  destruct u as [n|e].
  2:{ destruct Hcase as [(msg & Hm & _) _]. congruence. }
  destruct Hcase as (_ & Hn & _).
  assert (Hin : In y (List.filter (fun l => live l && id_is id l) (links (view db w)))).
  { apply filter_In. split; [exact Hy|]. rewrite Hl. cbn. unfold id_is.
    apply N.eqb_eq. exact Hy_id. }
  destruct (List.filter _ _) as [|z zs]; [destruct Hin|].
  cbn [length] in Hn. destruct (N.eqb_spec n 0) as [Hz|_]; [lia|].
  exists w1. reflexivity.
Qed.

Lemma UpdateLinkTarget_inv (s : LinkService) (ctx : Context)
    (updatingUserID linkID targetID : uint) (r : result unit) (w w' : World) :
  LinkService_UpdateLinkTarget s ctx updatingUserID linkID targetID w = (r, w') ->
  (exists e, r = Err e /\ errors_Is e ErrLinkNotFound = false /\ w' = w) \/
  (linkID <> 0 /\ targetID <> 0 /\ updatingUserID <> 0 /\
   exists res,
     LinkRepository_Update (LinkService_repo s) ctx linkID (target_update targetID)
       updatingUserID w = (res, w') /\
     r = match res with
         | Ok _ => Ok tt
         | Err err => if errors_Is err gorm_ErrRecordNotFound
                      then Err (Sentinel ErrLinkNotFound)
                      else Err (Sentinel ErrLinkUpdateFailedServ)
         end).
Proof.
  unfold LinkService_UpdateLinkTarget.
  destruct (N.eqb_spec linkID 0) as [|Hl];
    [intros Heq; inversion Heq; subst; left; eexists; repeat split|].
  destruct (N.eqb_spec targetID 0) as [|Ht];
    [intros Heq; inversion Heq; subst; left; eexists; repeat split|].
  destruct (N.eqb_spec updatingUserID 0) as [|Hu];
    [intros Heq; inversion Heq; subst; left; eexists; repeat split|].
  cbn [orb]. unfold bind. fold (target_update targetID).
  destruct (LinkRepository_Update _ ctx linkID _ updatingUserID w) as [res w1] eqn:Hres.
  intros Hrun. right. repeat split; try assumption. exists res.
  destruct res as [[]|err]; [|destruct (errors_Is err gorm_ErrRecordNotFound)];
    inversion Hrun; subst; split; reflexivity.
Qed.

Lemma retarget_hit (linkID targetID : uint) (ls : list Link) (l : Link) :
  In l (map (retarget linkID targetID) ls) ->
  live l = true -> ID (Link_Base l) = linkID -> TargetID l = targetID.
Proof.
  intros Hin Hl Hid. apply in_map_iff in Hin. destruct Hin as (x & <- & _).
  unfold retarget in *.
  destruct (live x && id_is linkID x) eqn:Hc; [reflexivity|].
  unfold id_is in Hc. rewrite Hl in Hc. cbn in Hc.
  apply N.eqb_neq in Hc. contradiction.
Qed.

Lemma retarget_keys (linkID targetID : uint) (ls : list Link) :
  map Key (map (retarget linkID targetID) ls) = map Key ls.
Proof.
  rewrite map_map. apply map_ext. intros l. unfold retarget.
  destruct (live l && id_is linkID l); reflexivity.
Qed.

(** X9.  The target backfill.  When [UpdateLinkTarget] succeeds, the links
    table of the service's handle is the old one with the target written
    into the live row with the given id and every other row untouched: no
    key changes, no other table, sequence or random draw is touched, and
    every live link with that id now has the target.  It reports
    [ErrLinkNotFound] only when no live link has the id, leaving the tables
    as they were; and it does succeed whenever the ids are non-zero, a live
    link has the id and the store answers the UPDATE. *)
Theorem UpdateLinkTarget_backfills (s : LinkService) (ctx : Context)
    (updatingUserID linkID targetID : uint) (w : World) :
  let db := LinkService_db s ctx in
  (forall w',
     LinkService_UpdateLinkTarget s ctx updatingUserID linkID targetID w = (Ok tt, w') ->
     view db w' = with_rows (map (retarget linkID targetID) (links (view db w))) (view db w) /\
     sequences w' = sequences w /\ reader w' = reader w /\
     map Key (links (view db w')) = map Key (links (view db w)) /\
     (forall l, In l (links (view db w')) -> live l = true ->
                ID (Link_Base l) = linkID -> TargetID l = targetID)) /\
  (forall e w',
     LinkService_UpdateLinkTarget s ctx updatingUserID linkID targetID w = (Err e, w') ->
     errors_Is e ErrLinkNotFound = true ->
     view db w' = view db w /\
     forall y, In y (links (view db w)) -> live y = true -> ID (Link_Base y) <> linkID) /\
  (linkID <> 0 -> targetID <> 0 -> updatingUserID <> 0 ->
   faults w (length (statements w)) = None ->
   (exists y, In y (links (view db w)) /\ live y = true /\ ID (Link_Base y) = linkID) ->
   exists w', LinkService_UpdateLinkTarget s ctx updatingUserID linkID targetID w
              = (Ok tt, w')).
Proof.
  intros db. split; [|split].
  - intros w' Hrun.
    destruct (UpdateLinkTarget_inv _ _ _ _ _ _ _ _ Hrun)
      as [(e & He & _)|(_ & _ & _ & res & Hres & Hr)]; [discriminate|].
    pose proof (LinkRepository_Update_target _ _ _ _ _ _ _ _ Hres) as (Hs & Hrd & Hcase).
    destruct res as [u|err];
      [|destruct (errors_Is err gorm_ErrRecordNotFound); discriminate].
    destruct Hcase as (_ & _ & Hview).
    change (view db w' = with_rows (map (retarget linkID targetID) (links (view db w)))
                                   (view db w)) in Hview.
    split; [exact Hview|]. split; [exact Hs|]. split; [exact Hrd|].
    rewrite Hview. cbn [rows with_rows Schema_Link links]. split.
    + apply retarget_keys.
    + intros l. apply retarget_hit.
  - intros e w' Hrun He.
    destruct (UpdateLinkTarget_inv _ _ _ _ _ _ _ _ Hrun)
      as [(e0 & Heq & He0 & _)|(_ & _ & _ & res & Hres & Hr)].
    { inversion Heq; subst. congruence. }
    pose proof (LinkRepository_Update_target _ _ _ _ _ _ _ _ Hres) as (_ & _ & Hcase).
    destruct res as [u|err]; [discriminate|].
    destruct Hcase as [(Hn & _)|(-> & _ & Hview & Hnone)].
    + rewrite Hn in Hr. inversion Hr; subst. discriminate.
    + split; [exact Hview|exact Hnone].
  - intros Hl Ht Hu Hf Hlive.
    destruct (LinkRepository_Update_target_Ok (LinkService_repo s) ctx linkID
                updatingUserID targetID w Hl Hf Hlive) as [w' Hres].
    exists w'. unfold LinkService_UpdateLinkTarget.
    destruct (N.eqb_spec linkID 0) as [|_]; [contradiction|].
    destruct (N.eqb_spec targetID 0) as [|_]; [contradiction|].
    destruct (N.eqb_spec updatingUserID 0) as [|_]; [contradiction|].
    cbn [orb]. unfold bind. fold (target_update targetID). rewrite Hres. reflexivity.
Qed.

Lemma UpdateLinkTarget_backfills_witness :
  exists w', LinkService_UpdateLinkTarget NewLinkService context_Background 7 1 42
               (world_of issued_link [])
             = (Ok tt, w').
Proof.
  refine (proj2 (proj2 (UpdateLinkTarget_backfills NewLinkService context_Background 7 1 42
                          (world_of issued_link []))) _ _ _ _ _).
  - discriminate.
  - discriminate.
  - discriminate.
  - reflexivity.
  - eexists. split; [left; reflexivity|]. split; reflexivity.
Defined.

(** ** The guards of the creation calls *)

Lemma ValidateAppointmentDetail_Ok (d : AppointmentDetail) :
  ValidateAppointmentDetail d = Ok tt <-> valid_appointment d.
Proof.
  unfold ValidateAppointmentDetail, valid_appointment.
  destruct (String.eqb_spec (AppointmentDetail_Name d) EmptyString) as [Hn|Hn].
  { split; [discriminate|]. intros (Hx & _). contradiction. }
  destruct (Z.leb_spec (DurationMinutes d) 0) as [Hd|Hd].
  { split; [discriminate|]. intros (_ & Hx & _). lia. }
  destruct (Z.ltb_spec (BookingLeadTime d) 0) as [Hl|Hl].
  { split; [discriminate|]. intros (_ & _ & Hx & _). lia. }
  destruct (Z.leb_spec (BookingHorizonDays d) 0) as [Hh|Hh].
  { split; [discriminate|]. intros (_ & _ & _ & Hx & _). lia. }
  destruct (Z.ltb_spec (BufferTimeBefore d) 0) as [Hb|Hb]; cbn [orb].
  { split; [discriminate|]. intros (_ & _ & _ & _ & Hx & _). lia. }
  destruct (Z.ltb_spec (BufferTimeAfter d) 0) as [Ha|Ha].
  { split; [discriminate|]. intros (_ & _ & _ & _ & _ & Hx). lia. }
  split; [|reflexivity]. intros _. repeat split; (assumption || lia).
Qed.

Lemma option_nonneg (o : option Z) :
  match o with Some n => (n <? 0)%Z | None => false end = false <->
  forall n, o = Some n -> (0 <= n)%Z.
Proof.
  destruct o as [m|].
  - destruct (Z.ltb_spec m 0) as [Hm|Hm]; split; try discriminate; try reflexivity.
    + intros Hx. specialize (Hx m eq_refl). lia.
    + intros _ n Hn. inversion Hn; subst. exact Hm.
  - split; [|reflexivity]. intros _ n Hn. discriminate.
Qed.

Lemma ValidateFormDetail_Ok (d : FormDetail) :
  ValidateFormDetail d = Ok tt <-> valid_form d.
Proof.
  unfold ValidateFormDetail, valid_form.
  rewrite <- !option_nonneg.
  destruct (String.eqb_spec (FormDetail_Title d) EmptyString) as [Hn|Hn].
  { split; [discriminate|]. intros (Hx & _). contradiction. }
  destruct (match SubmissionLimit d with Some n => (n <? 0)%Z | None => false end).
  { split; [discriminate|]. intros (_ & Hx & _). discriminate. }
  destruct (match LimitPerUser d with Some n => (n <? 0)%Z | None => false end).
  { split; [discriminate|]. intros (_ & _ & Hx). discriminate. }
  split; [|reflexivity]. intros _. repeat split. exact Hn.
Qed.

Lemma ValidateCardDetail_Ok (d : CardDetail) :
  ValidateCardDetail d = Ok tt <-> valid_card d.
Proof.
  unfold ValidateCardDetail, valid_card.
  destruct (String.eqb_spec (FirstName d) EmptyString) as [Hf|Hf]; cbn [orb].
  { split; [discriminate|]. intros (H & _). contradiction. }
  destruct (String.eqb_spec (LastName d) EmptyString) as [Hl|Hl].
  { split; [discriminate|]. intros (_ & H). contradiction. }
  split; [|reflexivity]. intros _. split; assumption.
Qed.

Ltac refuse_input :=
  eexists; split; [reflexivity|]; split; [reflexivity|]; repeat constructor.

(** X10.  The creation calls refuse bad input before touching the store.
    A detail that fails its validation, or a zero user id, makes
    [CreateAppointment], [CreateForm] and [CreateCard] return an error that
    wraps the service's invalid-input sentinel, in the very world they were
    called in: no statement is sent and no random draw is consumed.  The
    reason of the validation is kept as text only, so the error matches
    none of the name-required or duration-required sentinels.  Conversely a
    call that returns a resource was given a valid detail and a non-zero
    user. *)
Theorem creation_refuses_invalid_input (ctx : Context) (w : World) :
  (forall s providerUserID orgID d,
     ~ valid_appointment d \/ providerUserID = 0 ->
     refused_as ErrAppInvalidInput
       [ErrAppointmentNameRequired; ErrAppointmentDurationRequired]
       (AppointmentService_CreateAppointment s ctx providerUserID orgID d w) w) /\
  (forall s creatorUserID orgID d,
     ~ valid_form d \/ creatorUserID = 0 ->
     refused_as ErrFrmInvalidInput [ErrFormTitleRequired]
       (FormService_CreateForm s ctx creatorUserID orgID d w) w) /\
  (forall s creatorUserID d,
     ~ valid_card d \/ creatorUserID = 0 ->
     refused_as ErrCrdInvalidInput [ErrCardNameRequired]
       (CardService_CreateCard s ctx creatorUserID d w) w) /\
  (forall s providerUserID orgID d a w',
     AppointmentService_CreateAppointment s ctx providerUserID orgID d w = (Ok a, w') ->
     valid_appointment d /\ providerUserID <> 0) /\
  (forall s creatorUserID orgID d f w',
     FormService_CreateForm s ctx creatorUserID orgID d w = (Ok f, w') ->
     valid_form d /\ creatorUserID <> 0) /\
  (forall s creatorUserID d c w',
     CardService_CreateCard s ctx creatorUserID d w = (Ok c, w') ->
     valid_card d /\ creatorUserID <> 0).
Proof.
  refine (conj _ (conj _ (conj _ (conj _ (conj _ _))))).
  - intros s u orgID d Hbad. unfold refused_as, AppointmentService_CreateAppointment.
    destruct (ValidateAppointmentDetail d) as [[]|e0] eqn:Hv; [|refuse_input].
    apply ValidateAppointmentDetail_Ok in Hv.
    destruct Hbad as [Hbad| ->]; [contradiction|]. refuse_input.
  - intros s u orgID d Hbad. unfold refused_as, FormService_CreateForm.
    destruct (ValidateFormDetail d) as [[]|e0] eqn:Hv; [|refuse_input].
    apply ValidateFormDetail_Ok in Hv.
    destruct Hbad as [Hbad| ->]; [contradiction|]. refuse_input.
  - intros s u d Hbad. unfold refused_as, CardService_CreateCard.
    destruct (ValidateCardDetail d) as [[]|e0] eqn:Hv; [|refuse_input].
    apply ValidateCardDetail_Ok in Hv.
    destruct Hbad as [Hbad| ->]; [contradiction|]. refuse_input.
  - intros s u orgID d a w'. unfold AppointmentService_CreateAppointment.
    destruct (ValidateAppointmentDetail d) as [[]|e0] eqn:Hv; [|discriminate].
    apply ValidateAppointmentDetail_Ok in Hv.
    destruct (N.eqb_spec u 0) as [|Hu]; [discriminate|]. intros _. split; assumption.
  - intros s u orgID d f w'. unfold FormService_CreateForm.
    destruct (ValidateFormDetail d) as [[]|e0] eqn:Hv; [|discriminate].
    apply ValidateFormDetail_Ok in Hv.
    destruct (N.eqb_spec u 0) as [|Hu]; [discriminate|]. intros _. split; assumption.
  - intros s u d c w'. unfold CardService_CreateCard.
    destruct (ValidateCardDetail d) as [[]|e0] eqn:Hv; [|discriminate].
    apply ValidateCardDetail_Ok in Hv.
    destruct (N.eqb_spec u 0) as [|Hu]; [discriminate|]. intros _. split; assumption.
Qed.

Lemma creation_refuses_invalid_input_witness :
  refused_as ErrCrdInvalidInput [ErrCardNameRequired]
    (CardService_CreateCard NewCardService context_Background 7
       (mkCardDetail "Ada" EmptyString) (world_of seeded (draws 0)))
    (world_of seeded (draws 0)).
Proof.
  refine (proj1 (proj2 (proj2 (creation_refuses_invalid_input context_Background
                                 (world_of seeded (draws 0)))))
            NewCardService 7 (mkCardDetail "Ada" EmptyString) _).
  left. intros [_ Hl]. apply Hl. reflexivity.
Defined.

(** ** Seeding the type table *)

Lemma types_appended_nil (t : Tables) : types_appended t t [].
Proof. unfold types_appended. rewrite app_nil_r. destruct t; reflexivity. Qed.

Lemma types_appended_cons (t t1 t2 : Tables) (x : Type_) (added : list Type_) :
  types_appended t t1 [x] -> types_appended t1 t2 added -> types_appended t t2 (x :: added).
Proof.
  unfold types_appended. intros -> ->. cbn. rewrite <- app_assoc. reflexivity.
Qed.

Lemma has_type_appended (t t' : Tables) (added : list Type_) (name : string) :
  types_appended t t' added -> has_type t name -> has_type t' name.
Proof.
  intros -> (ty & Hin & Hl & Hn). exists ty. cbn.
  split; [apply in_or_app; left; exact Hin|]. split; assumption.
Qed.

Lemma SeedTypes_loop_spec (db : DB) (todo : list Type_) :
  Forall (fun t0 => Type_Base t0 = zeroBase) todo ->
  forall (c : Z) (e : bool) (w : World) (c' : Z) (e' : bool) (w' : World),
    SeedTypes_loop db todo c e w = ((c', e'), w') ->
    exists added,
      types_appended (view db w) (view db w') added /\
      Forall (fun t => live t = true /\ exists t0, In t0 todo /\ Name t = Name t0) added /\
      (e = true -> e' = true) /\
      (e' = false -> forall t0, In t0 todo -> has_type (view db w') (Name t0)) /\
      c' = (c + Z.of_nat (length added))%Z.
Proof.
  induction 1 as [|t0 rest Hbase _ IH]; intros c e w c' e' w'.
  - cbn. intros Heq; inversion Heq; subst. exists [].
    split; [apply types_appended_nil|]. split; [constructor|]. split; [auto|].
    split; [intros _ t0 []|cbn; lia].
  - cbn [SeedTypes_loop]. unfold bind at 1.
    match goal with
    | |- context [gorm_First db ?cond w] =>
        destruct (gorm_First db cond w) as [r w1] eqn:Hf
    end.
    destruct (gorm_First_inv _ _ _ _ _ Hf) as [Hw1 Hcase].
    assert (Hv1 : view db w1 = view db w) by (rewrite Hw1; apply view_with_statements).
    assert (Hlift : forall added,
              Forall (fun t => live t = true /\
                               exists t1, In t1 rest /\ Name t = Name t1) added ->
              Forall (fun t => live t = true /\
                               exists t1, In t1 (t0 :: rest) /\ Name t = Name t1) added).
    { intros added Ha. eapply Forall_impl; [exact Ha|]. intros t (Hl & t1 & Hin & Hn).
      split; [exact Hl|]. exists t1. split; [right; exact Hin|exact Hn]. }
    destruct r as [x|e0].
    + intros Hrec. destruct (IH _ _ _ _ _ _ Hrec) as (added & Happ & Hadded & He & Hall & Hc).
      rewrite Hv1 in Happ. exists added.
      split; [exact Happ|]. split; [apply Hlift; exact Hadded|]. split; [exact He|].
      split; [|exact Hc].
      intros He' t1 [<-|Hin]; [|apply Hall; assumption].
      destruct Hcase as (_ & Hin & Hl & Hn & _).
      apply (has_type_appended _ _ _ _ Happ).
      exists x. split; [exact Hin|]. split; [exact Hl|]. apply String.eqb_eq. exact Hn.
    + destruct (errors_Is e0 gorm_ErrRecordNotFound); cbn [negb].
      2:{ intros Hrec.
          destruct (IH _ _ _ _ _ _ Hrec) as (added & Happ & Hadded & He & Hall & Hc).
          rewrite Hv1 in Happ. exists added.
          split; [exact Happ|]. split; [apply Hlift; exact Hadded|].
          split; [intros _; apply He; reflexivity|]. split; [|exact Hc].
          intros He'. rewrite (He eq_refl) in He'. discriminate. }
      unfold bind at 1.
      destruct (gorm_insert db t0 w1) as [ins w2] eqn:Hi.
      destruct ins as [x'|e1].
      * apply gorm_insert_inv in Hi; [|cbn; rewrite Hbase; reflexivity].
        destruct Hi as (Hx' & Hv2 & _ & _).
        rewrite Hv1 in Hv2.
        assert (Hlx : live x' = true /\ Name x' = Name t0).
        { rewrite Hx'. unfold live. cbn. rewrite Hbase. split; reflexivity. }
        intros Hrec.
        destruct (IH _ _ _ _ _ _ Hrec) as (added & Happ & Hadded & He & Hall & Hc).
        exists (x' :: added).
        split; [exact (types_appended_cons _ _ _ _ _ Hv2 Happ)|].
        split.
        { constructor; [|apply Hlift; exact Hadded].
          split; [apply Hlx|]. exists t0. split; [left; reflexivity|apply Hlx]. }
        split; [exact He|]. split; [|cbn [length]; lia].
        intros He' t1 [<-|Hin]; [|apply Hall; assumption].
        apply (has_type_appended _ _ _ _ Happ).
        exists x'. rewrite Hv2. cbn.
        split; [apply in_or_app; right; left; reflexivity|]. apply Hlx.
      * apply gorm_insert_Err in Hi.
        assert (Hv2 : view db w2 = view db w) by (rewrite (view_store db _ _ Hi); exact Hv1).
        intros Hrec.
        destruct (IH _ _ _ _ _ _ Hrec) as (added & Happ & Hadded & He & Hall & Hc).
        rewrite Hv2 in Happ. exists added.
        split; [exact Happ|]. split; [apply Hlift; exact Hadded|].
        split; [intros _; apply He; reflexivity|]. split; [|exact Hc].
        intros He'. rewrite (He eq_refl) in He'. discriminate.
Qed.

Lemma SeedTypes_loop_present (db : DB) (todo : list Type_) :
  forall (c : Z) (e : bool) (w : World) (r : Z * bool) (w' : World),
    (forall t0, In t0 todo -> has_type (view db w) (Name t0)) ->
    SeedTypes_loop db todo c e w = (r, w') ->
    queries_only w w' /\ fst r = c.
Proof.
  induction todo as [|t0 rest IH]; intros c e w r w' Hall.
  - cbn. intros Heq; inversion Heq; subst. split; [apply queries_only_refl|reflexivity].
  - cbn [SeedTypes_loop]. unfold bind at 1.
    match goal with
    | |- context [gorm_First db ?cond w] =>
        destruct (gorm_First db cond w) as [f w1] eqn:Hf
    end.
    pose proof (gorm_First_queries _ _ _ _ _ Hf) as Hq.
    destruct (gorm_First_inv _ _ _ _ _ Hf) as [Hw1 Hcase].
    assert (Hall1 : forall t1, In t1 rest -> has_type (view db w1) (Name t1)).
    { intros t1 Hin. rewrite Hw1, view_with_statements. apply Hall. right. exact Hin. }
    destruct f as [x|e0].
    + intros Hrec. destruct (IH _ _ _ _ _ Hall1 Hrec) as [Hq' Hc].
      split; [exact (queries_only_trans _ _ _ Hq Hq')|exact Hc].
    + destruct Hcase as [(msg & _ & ->)|(_ & _ & Hnone)].
      * cbn [errors_Is negb]. intros Hrec.
        destruct (IH _ _ _ _ _ Hall1 Hrec) as [Hq' Hc].
        split; [exact (queries_only_trans _ _ _ Hq Hq')|exact Hc].
      * exfalso. destruct (Hall t0 (or_introl eq_refl)) as (ty & Hin & Hl & Hn).
        specialize (Hnone ty Hin Hl). apply String.eqb_neq in Hnone. contradiction.
Qed.

Lemma typesToSeed_supported (t0 : Type_) : In t0 typesToSeed -> supported (Name t0).
Proof.
  unfold supported. intros [<-|[<-|[<-|[<-|[]]]]]; cbn; auto.
Qed.

Lemma supported_typesToSeed (name : string) :
  supported name -> exists t0, In t0 typesToSeed /\ Name t0 = name.
Proof.
  intros [-> | [-> | [-> | ->]]];
    [exists (nth 0 typesToSeed zeroType) | exists (nth 1 typesToSeed zeroType)
    |exists (nth 2 typesToSeed zeroType) | exists (nth 3 typesToSeed zeroType)];
    (split; [cbn; auto 6|reflexivity]).
Qed.

Lemma SeedTypes_inv (db : DB) (w : World) :
  exists c e,
    SeedTypes_loop db typesToSeed 0%Z false w = ((c, e), snd (SeedTypes db w)) /\
    (fst (SeedTypes db w) = Ok tt <-> e = false).
Proof.
  unfold SeedTypes, bind.
  destruct (SeedTypes_loop db typesToSeed 0%Z false w) as [[c e] w'].
  exists c, e. destruct e; cbn; split; try reflexivity; split; congruence.
Qed.

(** X11.  Seeding the type table.  [SeedTypes] only ever appends live type
    rows named after one of the four services to the type table of its
    handle, and leaves every other table alone.  When it returns no error,
    each of the four names has a live row afterwards.  When the four names
    are already there it sends SELECTs only, so running it again after a
    successful run changes nothing. *)
Theorem SeedTypes_establishes_the_types (db : DB) (w : World) :
  let w' := snd (SeedTypes db w) in
  (exists added,
     types_appended (view db w) (view db w') added /\
     Forall (fun t => live t = true /\ supported (Name t)) added) /\
  (fst (SeedTypes db w) = Ok tt ->
   forall name, supported name -> has_type (view db w') name) /\
  ((forall name, supported name -> has_type (view db w) name) -> queries_only w w') /\
  (fst (SeedTypes db w) = Ok tt -> queries_only w' (snd (SeedTypes db w'))).
Proof.
  intros w'.
  assert (Hbase : Forall (fun t0 => Type_Base t0 = zeroBase) typesToSeed)
    by (repeat constructor).
  assert (Hok : fst (SeedTypes db w) = Ok tt ->
                forall name, supported name -> has_type (view db w') name).
  { destruct (SeedTypes_inv db w) as (c & e & Hloop & He).
    destruct (SeedTypes_loop_spec db _ Hbase _ _ _ _ _ _ Hloop) as (_ & _ & _ & _ & Hall & _).
    intros Hrun name Hname. apply He in Hrun.
    destruct (supported_typesToSeed name Hname) as (t0 & Hin & <-).
    apply Hall; assumption. }
  assert (Hidem : forall w0, (forall name, supported name -> has_type (view db w0) name) ->
                             queries_only w0 (snd (SeedTypes db w0))).
  { intros w0 Hall. destruct (SeedTypes_inv db w0) as (c & e & Hloop & _).
    apply (SeedTypes_loop_present db _ _ _ _ _ _) in Hloop; [apply Hloop|].
    intros t0 Hin. apply Hall. apply typesToSeed_supported. exact Hin. }
  split; [|split; [exact Hok|split; [apply Hidem|]]].
  - destruct (SeedTypes_inv db w) as (c & e & Hloop & _).
    destruct (SeedTypes_loop_spec db _ Hbase _ _ _ _ _ _ Hloop) as (added & Happ & Hadded & _).
    exists added. split; [exact Happ|].
    eapply Forall_impl; [exact Hadded|].
    intros t (Hl & t0 & Hin & Hn). split; [exact Hl|]. rewrite Hn.
    apply typesToSeed_supported. exact Hin.
  - intros Hrun. apply Hidem. apply Hok. exact Hrun.
Qed.

Lemma SeedTypes_establishes_the_types_witness :
  has_type (view Pool (snd (SeedTypes Pool (world_of emptyTables [])))) TypeNameCard.
Proof.
  refine (proj1 (proj2 (SeedTypes_establishes_the_types Pool (world_of emptyTables [])))
            _ TypeNameCard _).
  - vm_compute. reflexivity.
  - unfold supported. auto.
Defined.

(** ** Lookup by id, the existence check and the soft delete *)

Lemma GetLinkByID_inv (s : LinkService) (ctx : Context) (id : uint)
    (r : result Link) (w w' : World) :
  LinkService_GetLinkByID s ctx id w = (r, w') ->
  (id = 0 /\ r = Err (errors_New "geçersiz Link ID") /\ w' = w) \/
  (id <> 0 /\
   exists r0, find_link (LinkService_db s ctx) (id_is id) w = (r0, w') /\
              r = match r0 with
                  | Ok link => Ok link
                  | Err e => if errors_Is e gorm_ErrRecordNotFound
                             then Err (Sentinel ErrLinkNotFound) else Err e
                  end).
Proof.
  unfold LinkService_GetLinkByID. unfold bind at 1. rewrite FindByID_find_link.
  destruct (N.eqb_spec id 0) as [->|Hid].
  - cbn. intros Heq; inversion Heq; subst. left. auto.
  - fold (LinkService_db s ctx).
    destruct (find_link _ _ w) as [r0 w1] eqn:Hr0.
    intros Heq. right. split; [exact Hid|]. exists r0.
    destruct r0 as [l|e]; [|destruct (errors_Is e gorm_ErrRecordNotFound)];
      inversion Heq; subst; auto.
Qed.

(** X12.  Lookup by id.  [GetLinkByID] refuses the id 0 without sending a
    statement, with an error that is not the not-found sentinel.  A link it
    returns is a live row of the links table with exactly that id, its type
    row attached, read with two SELECTs.  It reports [ErrLinkNotFound] only
    when no live link has the id, and it does so after one SELECT whenever
    that is the case and the store answers. *)
Theorem GetLinkByID_returns_live_row (s : LinkService) (ctx : Context) (id : uint)
    (w : World) :
  let db := LinkService_db s ctx in
  (id = 0 ->
   exists e, LinkService_GetLinkByID s ctx id w = (Err e, w) /\
             errors_Is e ErrLinkNotFound = false) /\
  (forall link w',
     LinkService_GetLinkByID s ctx id w = (Ok link, w') ->
     id <> 0 /\ ID (Link_Base link) = id /\ DeletedAt (Link_Base link) = None /\
     (exists l, In l (links (view db w)) /\ link = Link_with_Type (Link_Type link) l) /\
     preloaded (view db w) link (Link_Type link) /\
     w' = after_link_lookup db w) /\
  (forall e w',
     LinkService_GetLinkByID s ctx id w = (Err e, w') ->
     errors_Is e ErrLinkNotFound = true -> ~ has_live_id (view db w) id) /\
  (id <> 0 -> faults w (length (statements w)) = None ->
   ~ has_live_id (view db w) id ->
   LinkService_GetLinkByID s ctx id w
   = (Err ErrLinkNotFound,
      with_statements (statements w ++ [mkStmt db SELECT (Some t_links)])%list w)).
Proof.
  intros db. refine (conj _ (conj _ (conj _ _))).
  - intros ->. eexists. split; reflexivity.
  - intros link w' Hrun.
    destruct (GetLinkByID_inv _ _ _ _ _ _ Hrun) as [(_ & Hr & _)|(Hid & r0 & Hfind & Hr)];
      [discriminate|].
    destruct r0 as [l0|e]; [|destruct (errors_Is e gorm_ErrRecordNotFound); discriminate].
    inversion Hr; subst l0.
    pose proof (find_link_inv _ _ _ _ _ Hfind)
      as (_ & _ & Hw & l & ty & -> & Hin & Hl & Hc & _ & Hty).
    fold db in Hw, Hin, Hty. unfold id_is in Hc. apply N.eqb_eq in Hc.
    split; [exact Hid|]. split; [exact Hc|].
    split. { unfold live in Hl. cbn in *. destruct (DeletedAt (Link_Base l)); [discriminate|reflexivity]. }
    split; [exists l; split; [exact Hin|reflexivity]|].
    split; [exact Hty|exact Hw].
  - intros e w' Hrun He (y & Hy & Hly & Hyid).
    destruct (GetLinkByID_inv _ _ _ _ _ _ Hrun) as [(_ & Hr & _)|(Hid & r0 & Hfind & Hr)].
    { inversion Hr; subst. discriminate. }
    pose proof (find_link_inv _ _ _ _ _ Hfind) as Hinv.
    destruct r0 as [l0|e0]; [discriminate|].
    destruct Hinv as [(msg & ->)|(-> & _ & _ & Hnone)].
    + cbn in Hr. inversion Hr; subst. discriminate.
    + fold db in Hnone. specialize (Hnone y Hy Hly). unfold id_is in Hnone.
      apply N.eqb_neq in Hnone. contradiction.
  - intros Hid Hf Hnone.
    unfold LinkService_GetLinkByID. unfold bind at 1. rewrite FindByID_find_link.
    destruct (N.eqb_spec id 0) as [|_]; [contradiction|].
    rewrite find_link_none; [reflexivity|exact Hf|].
    intros y Hy Hly. unfold id_is. apply N.eqb_neq. intros Hyid.
    apply Hnone. exists y. auto.
Qed.

Lemma GetLinkByID_returns_live_row_witness :
  fst (LinkService_GetLinkByID NewLinkService context_Background 1 (world_of deleted_link []))
  = Err (Sentinel ErrLinkNotFound).
Proof.
  refine (f_equal fst (proj2 (proj2 (proj2 (GetLinkByID_returns_live_row NewLinkService
            context_Background 1 (world_of deleted_link [])))) _ _ _)).
  - discriminate.
  - reflexivity.
  - intros (y & [<-|[]] & Hl & _). discriminate Hl.
Defined.

(** X13.  The existence check of the repository.  [KeyExists] refuses the
    empty key without sending a statement; otherwise it sends one COUNT and
    answers true exactly when some live link carries the key, so a key held
    by a soft-deleted link only is reported as free; it fails only when the
    store fails the COUNT. *)
Theorem KeyExists_counts_live_links (r : LinkRepository) (ctx : Context) (key : string)
    (w : World) :
  let db := LinkRepository_getDB r ctx in
  (key = EmptyString -> exists e, LinkRepository_KeyExists r ctx key w = (Err e, w)) /\
  (forall b w',
     LinkRepository_KeyExists r ctx key w = (Ok b, w') ->
     key <> EmptyString /\
     (b = true <-> has_live_key (view db w) key) /\
     w' = with_statements (statements w ++ [mkStmt db COUNT (Some t_links)])%list w) /\
  (key <> EmptyString -> faults w (length (statements w)) = None ->
   exists b, fst (LinkRepository_KeyExists r ctx key w) = Ok b).
Proof.
  intros db. refine (conj _ (conj _ _)).
  - intros ->. eexists. reflexivity.
  - intros b w'. unfold LinkRepository_KeyExists.
    destruct (String.eqb_spec key EmptyString) as [|Hk]; [discriminate|].
    unfold bind. fold db.
    destruct (gorm_Count db (fun l : Link => String.eqb (Key l) key) w) as [c w1] eqn:Hc.
    pose proof (gorm_Count_frame _ _ _ _ _ Hc) as Hw1.
    destruct c as [n|e]; [|discriminate].
    destruct (gorm_Count_present _ _ _ _ _ Hc) as [_ Hn].
    intros Heq; inversion Heq; subst b w'.
    split; [exact Hk|]. split; [|exact Hw1].
    unfold has_live_key. rewrite N.ltb_lt. split.
    + intros Hpos. destruct (proj1 Hn) as (y & Hy & Hl & Hky); [lia|].
      exists y. split; [exact Hy|]. split; [exact Hl|]. apply String.eqb_eq. exact Hky.
    + intros (y & Hy & Hl & Hky).
      assert (n <> 0); [|lia]. apply Hn. exists y.
      split; [exact Hy|]. split; [exact Hl|]. apply String.eqb_eq. exact Hky.
  - intros Hk Hf. unfold LinkRepository_KeyExists.
    destruct (String.eqb_spec key EmptyString) as [|_]; [contradiction|].
    unfold bind, gorm_Count, exec. unfold_monad. rewrite Hf. cbn. eexists. reflexivity.
Qed.

Lemma KeyExists_counts_live_links_witness :
  fst (LinkRepository_KeyExists NewLinkRepository context_Background "aaaaaaaaaaaaaaaaaaaa"
         (world_of deleted_link []))
  = Ok false.
Proof.
  destruct (proj2 (proj2 (KeyExists_counts_live_links NewLinkRepository context_Background
              "aaaaaaaaaaaaaaaaaaaa" (world_of deleted_link [])))) as [b Hb].
  - discriminate.
  - reflexivity.
  - rewrite Hb. vm_compute in Hb. inversion Hb. reflexivity.
Defined.

Lemma txview_view (w : World) : is_Some (txview w) -> txview w = Some (view Tx w).
Proof. intros [t Ht]. cbn. rewrite Ht. reflexivity. Qed.

(** A transaction on the pool that returns a value: its closure returned
    that value from the world [begun], and what the transaction saw at the
    end is what is committed. *)
Lemma gorm_Transaction_Ok {A} (fc : DB -> M (result A)) (a : A) (w w' : World) :
  gorm_Transaction fc w = (Ok a, w') ->
  exists w2,
    fc Tx (begun w) = (Ok a, w2) /\
    committed w' = view Tx w2 /\ txview w' = None /\
    sequences w' = sequences w2 /\ reader w' = reader w2 /\ now w' = now w2 /\
    statements w' = (statements w2 ++ [mkStmt Pool COMMIT None])%list /\
    faults w' = faults w2.
Proof.
  unfold gorm_Transaction, exec. unfold bind at 1.
  destruct (faults w (length (statements w))); cbn [fmap option_fmap option_map].
  { unfold ret. intros Heq; discriminate Heq. }
  unfold bind at 1, modify. unfold bind at 1.
  change (with_txview (Some (committed (with_statements
            (statements w ++ [mkStmt Pool BEGIN None])%list w)))
            (with_statements (statements w ++ [mkStmt Pool BEGIN None])%list w))
    with (begun w).
  destruct (fc Tx (begun w)) as [r w1] eqn:Hr.
  destruct r as [a0|e0].
  - unfold bind at 1.
    destruct (faults w1 (length (statements w1))); cbn [fmap option_fmap option_map].
    + unfold bind, modify, ret. intros Heq; discriminate Heq.
    + unfold bind, modify, ret. intros Heq; inversion Heq; subst.
      exists w1. repeat split.
  - unfold bind, modify, ret. intros Heq; discriminate Heq.
Qed.

Lemma gorm_UpdateColumn_deleted_by_frame (db : DB) (link : Link) (r : result unit)
    (w w' : World) :
  gorm_UpdateColumn_deleted_by db link w = (r, w') ->
  w' = with_statements (statements w ++ [mkStmt db UPDATE (Some t_links)])%list w.
Proof.
  unfold gorm_UpdateColumn_deleted_by, exec. unfold_monad.
  destruct (faults w (length (statements w))); cbn; intros Heq; inversion Heq; reflexivity.
Qed.

Lemma soft_delete_deleted_at (t : Time) (link l : Link) :
  soft_delete t link l = deleted_at t (ID (Link_Base link)) l.
Proof. reflexivity. Qed.

Lemma gorm_Delete_Link_inv (db : DB) (link : Link) (r : result N) (w w' : World) :
  gorm_Delete_Link db link w = (r, w') ->
  sequences w' = sequences w /\ reader w' = reader w /\ now w' = now w /\
  match r with
  | Ok n =>
      n = N.of_nat (length (List.filter (addressed link) (links (view db w)))) /\
      view db w'
      = with_rows (map (deleted_at (now w) (ID (Link_Base link))) (links (view db w)))
                  (view db w)
  | Err e => store w' = store w
  end.
Proof.
  unfold gorm_Delete_Link, exec. unfold bind at 1. cbn [fst snd].
  destruct (faults w (length (statements w))); cbn [fmap option_fmap option_map].
  { intros Heq; inversion Heq; subst. repeat split. }
  unfold bind, get, modify, ret. intros Heq; inversion Heq; subst.
  match goal with
  | |- context [write db ?f ?w0] => destruct (write_frame db f w0) as (Hs & Hr & _ & _ & Hn)
  end.
  rewrite Hs, Hr, Hn. repeat split.
  rewrite view_write, view_with_statements. reflexivity.
Qed.

Lemma gorm_Delete_Link_Tx (link : Link) (r : result N) (w w' : World) :
  is_Some (txview w) -> gorm_Delete_Link Tx link w = (r, w') -> tx_only w w'.
Proof.
  intros [t Ht]. unfold gorm_Delete_Link, exec. unfold bind at 1. cbn [fst snd].
  destruct (faults w (length (statements w))); cbn [fmap option_fmap option_map].
  { intros Heq; inversion Heq; subst. split; cbn; [reflexivity|rewrite Ht; eauto]. }
  unfold bind, get, modify, ret. intros Heq; inversion Heq; subst.
  split; cbn; rewrite Ht; cbn; eauto.
Qed.

Lemma deleted_by_step (db : DB) (link : Link) (deletedByUserID : uint) (u : result unit)
    (w w1 : World) :
  (if negb (deletedByUserID =? 0)
   then gorm_UpdateColumn_deleted_by db link else ret (Ok tt)) w = (u, w1) ->
  w1 = w \/
  w1 = with_statements (statements w ++ [mkStmt db UPDATE (Some t_links)])%list w.
Proof.
  destruct (negb (deletedByUserID =? 0)).
  - intros Hu. right. exact (gorm_UpdateColumn_deleted_by_frame _ _ _ _ _ Hu).
  - intros Heq; inversion Heq; subst. left. reflexivity.
Qed.

Lemma LinkRepository_Delete_tx_only (link : Link) (deletedByUserID : uint)
    (r : result unit) (w w' : World) :
  is_Some (txview w) ->
  LinkRepository_Delete_tx link deletedByUserID Tx w = (r, w') -> tx_only w w'.
Proof.
  intros Hs. unfold LinkRepository_Delete_tx. unfold bind at 1.
  destruct ((if negb (deletedByUserID =? 0)
             then gorm_UpdateColumn_deleted_by Tx link else ret (Ok tt)) w)
    as [u w1] eqn:Hu.
  assert (H1 : tx_only w w1).
  { destruct (deleted_by_step _ _ _ _ _ _ Hu) as [->| ->];
      (split; [reflexivity|exact Hs]). }
  destruct u as [[]|e]; [|returned H1].
  unfold bind.
  destruct (gorm_Delete_Link Tx link w1) as [d w2] eqn:Hd.
  apply gorm_Delete_Link_Tx in Hd; [|apply H1].
  pose proof (tx_only_trans _ _ _ H1 Hd) as H2.
  destruct d as [n|e]; [destruct (n =? 0)|]; returned H2.
Qed.

Lemma LinkRepository_Delete_tx_Ok (link : Link) (deletedByUserID : uint) (w w' : World) :
  LinkRepository_Delete_tx link deletedByUserID Tx w = (Ok tt, w') ->
  sequences w' = sequences w /\ reader w' = reader w /\ now w' = now w /\
  has_live_id (view Tx w) (ID (Link_Base link)) /\
  view Tx w'
  = with_rows (map (deleted_at (now w) (ID (Link_Base link))) (links (view Tx w)))
              (view Tx w).
Proof.
  unfold LinkRepository_Delete_tx. unfold bind at 1.
  destruct ((if negb (deletedByUserID =? 0)
             then gorm_UpdateColumn_deleted_by Tx link else ret (Ok tt)) w)
    as [u w1] eqn:Hu.
  pose proof (deleted_by_step _ _ _ _ _ _ Hu) as H1.
  destruct u as [[]|e]; [|discriminate].
  unfold bind.
  destruct (gorm_Delete_Link Tx link w1) as [d w2] eqn:Hd.
  destruct (gorm_Delete_Link_inv _ _ _ _ _ Hd) as (Hs & Hr & Hn & Hcase).
  destruct d as [n|e]; [|discriminate].
  destruct (N.eqb_spec n 0) as [|Hnz]; [discriminate|].
  intros Heq; inversion Heq; subst w2.
  destruct Hcase as [Hcount Hview].
  assert (Hsame : sequences w1 = sequences w /\ reader w1 = reader w /\ now w1 = now w /\
                  view Tx w1 = view Tx w).
  { destruct H1 as [->| ->]; repeat split. }
  destruct Hsame as (Hs1 & Hr1 & Hn1 & Hv1).
  rewrite Hv1, Hn1 in Hview. rewrite Hv1 in Hcount.
  split; [congruence|]. split; [congruence|]. split; [congruence|].
  split; [|exact Hview].
  destruct (List.filter (addressed link) (links (view Tx w))) as [|y ys] eqn:Hf.
  { cbn in Hcount. contradiction. }
  assert (Hin : In y (List.filter (addressed link) (links (view Tx w))))
    by (rewrite Hf; left; reflexivity).
  apply filter_In in Hin. destruct Hin as [Hy Ha].
  unfold addressed in Ha. apply andb_true_iff in Ha. destruct Ha as [Hl Hid].
  exists y. split; [exact Hy|]. split; [exact Hl|]. apply N.eqb_eq. exact Hid.
Qed.

Lemma deleted_at_gone (t : Time) (linkID : uint) (ls : list Link) :
  ~ exists y, In y (map (deleted_at t linkID) ls) /\ live y = true /\
              ID (Link_Base y) = linkID.
Proof.
  intros (y & Hin & Hl & Hid). apply in_map_iff in Hin. destruct Hin as (x & <- & _).
  unfold deleted_at in *.
  destruct (live x && id_is linkID x) eqn:Hc; [discriminate Hl|].
  unfold id_is in Hc. rewrite Hl in Hc. cbn in Hc. apply N.eqb_neq in Hc. contradiction.
Qed.

Lemma deleted_at_keys (t : Time) (linkID : uint) (ls : list Link) :
  map Key (map (deleted_at t linkID) ls) = map Key ls.
Proof.
  rewrite map_map. apply map_ext. intros l. unfold deleted_at.
  destruct (live l && id_is linkID l); reflexivity.
Qed.

Lemma DeleteLink_inv (s : LinkService) (ctx : Context) (deletingUserID linkID : uint)
    (r : result unit) (w w' : World) :
  LinkService_db s ctx = Pool ->
  LinkService_DeleteLink s ctx deletingUserID linkID w = (r, w') ->
  (exists e, r = Err e /\ w' = w) \/
  (linkID <> 0 /\ deletingUserID <> 0 /\
   exists f w0,
     find_link Pool (id_is linkID) w = (f, w0) /\
     match f with
     | Err e => w' = w0 /\ exists e', r = Err e'
     | Ok link =>
         ID (Link_Base link) = linkID /\
         exists d,
           gorm_Transaction (LinkRepository_Delete_tx link deletingUserID) w0 = (d, w') /\
           match d with
           | Ok _ => r = Ok tt
           | Err _ => exists e', r = Err e'
           end
     end).
Proof.
  intros Hdb. unfold LinkService_db in Hdb. unfold LinkService_DeleteLink.
  destruct (N.eqb_spec linkID 0) as [|Hl];
    [intros Heq; inversion Heq; subst; left; eauto|].
  destruct (N.eqb_spec deletingUserID 0) as [|Hu];
    [intros Heq; inversion Heq; subst; left; eauto|].
  cbn [orb]. unfold bind at 1. rewrite FindByID_find_link, Hdb.
  destruct (N.eqb_spec linkID 0) as [|_]; [contradiction|].
  destruct (find_link Pool (id_is linkID) w) as [f w0] eqn:Hfind.
  intros Hrun. right. split; [exact Hl|]. split; [exact Hu|]. exists f, w0.
  split; [reflexivity|].
  destruct f as [link|e].
  2:{ destruct (errors_Is e gorm_ErrRecordNotFound); inversion Hrun; subst; eauto. }
  assert (Hid : ID (Link_Base link) = linkID).
  { pose proof (find_link_inv _ _ _ _ _ Hfind)
      as (_ & _ & _ & l & ty & -> & _ & _ & Hc & _).
    unfold id_is in Hc. apply N.eqb_eq in Hc. exact Hc. }
  split; [exact Hid|].
  revert Hrun. unfold bind, LinkRepository_Delete. rewrite Hid, Hdb.
  destruct (N.eqb_spec linkID 0) as [|_]; [contradiction|].
  cbn [gorm_Transaction_on].
  destruct (gorm_Transaction (LinkRepository_Delete_tx link deletingUserID) w0)
    as [d w1] eqn:Htx.
  intros Hrun. exists d.
  destruct d as [[]|e]; [|destruct (errors_Is e gorm_ErrRecordNotFound)];
    inversion Hrun; subst; eauto.
Qed.

(** X14.  Deleting a link.  Through a service on the pool, [DeleteLink]
    refuses a zero id before any statement.  When it succeeds, a live link
    had the id and the committed links table is the old one with the
    deletion stamp, the time of the call, on that row: every other row,
    every key and every other table is as before, no live link has the id
    any more, so that [GetLinkByID] on it reports [ErrLinkNotFound], and no
    transaction is left open.  When it fails, the committed tables are
    exactly as before. *)
Theorem DeleteLink_soft_deletes (s : LinkService) (ctx : Context)
    (deletingUserID linkID : uint) (w : World) :
  LinkService_db s ctx = Pool ->
  (linkID = 0 \/ deletingUserID = 0 ->
   exists e, LinkService_DeleteLink s ctx deletingUserID linkID w = (Err e, w) /\
             errors_Is e ErrLinkInvalidInput = true) /\
  (forall w',
     LinkService_DeleteLink s ctx deletingUserID linkID w = (Ok tt, w') ->
     has_live_id (committed w) linkID /\
     committed w'
     = with_rows (map (deleted_at (now w) linkID) (links (committed w))) (committed w) /\
     txview w' = None /\ sequences w' = sequences w /\
     ~ has_live_id (committed w') linkID /\
     map Key (links (committed w')) = map Key (links (committed w)) /\
     (faults w' (length (statements w')) = None ->
      fst (LinkService_GetLinkByID s ctx linkID w') = Err (Sentinel ErrLinkNotFound))) /\
  (forall e w',
     LinkService_DeleteLink s ctx deletingUserID linkID w = (Err e, w') ->
     committed w' = committed w /\ (txview w = None -> txview w' = None)).
Proof.
  intros Hdb. refine (conj _ (conj _ _)).
  - unfold LinkService_DeleteLink. intros [-> | ->].
    + eexists. split; reflexivity.
    + destruct (linkID =? 0); eexists; split; reflexivity.
  - intros w' Hrun.
    destruct (DeleteLink_inv _ _ _ _ _ _ _ Hdb Hrun)
      as [(e & He & _)|(Hl & Hu & f & w0 & Hfind & Hcase)]; [discriminate|].
    destruct f as [link|e]; [|destruct Hcase as (_ & e' & He'); discriminate].
    destruct Hcase as (Hid & d & Htx & Hd).
    destruct d as [[]|e]; [|destruct Hd as [e' He']; discriminate].
    pose proof (find_link_inv _ _ _ _ _ Hfind)
      as (_ & _ & Hw0 & l & ty & _ & Hin & Hlive & Hc & _).
    destruct (gorm_Transaction_Ok _ _ _ _ Htx)
      as (w2 & Hbody & Hcom & Htxv & Hseq & _).
    destruct (LinkRepository_Delete_tx_Ok _ _ _ _ Hbody) as (Hs2 & _ & _ & _ & Hview).
    rewrite Hid in Hview.
    assert (Hc0 : view Tx (begun w0) = committed w) by (rewrite Hw0; reflexivity).
    assert (Hn0 : now (begun w0) = now w) by (rewrite Hw0; reflexivity).
    assert (Hq0 : sequences (begun w0) = sequences w) by (rewrite Hw0; reflexivity).
    rewrite Hc0, Hn0 in Hview. rewrite <- Hcom in Hview.
    assert (Hgone : ~ has_live_id (committed w') linkID).
    { rewrite Hview. apply deleted_at_gone. }
    split.
    { exists l. split; [exact Hin|]. split; [exact Hlive|].
      unfold id_is in Hc. apply N.eqb_eq. exact Hc. }
    split; [exact Hview|]. split; [exact Htxv|]. split; [congruence|].
    split; [exact Hgone|]. split.
    { rewrite Hview. apply deleted_at_keys. }
    intros Hf. unfold LinkService_GetLinkByID. unfold bind at 1.
    rewrite FindByID_find_link.
    destruct (N.eqb_spec linkID 0) as [|_]; [contradiction|].
    unfold LinkService_db in Hdb. rewrite Hdb.
    rewrite find_link_none; [reflexivity|exact Hf|].
    intros y Hy Hly. unfold id_is. apply N.eqb_neq. intros Hyid.
    apply Hgone. exists y. auto.
  - intros e w' Hrun.
    destruct (DeleteLink_inv _ _ _ _ _ _ _ Hdb Hrun)
      as [(e0 & _ & ->)|(Hl & Hu & f & w0 & Hfind & Hcase)]; [split; auto|].
    pose proof (find_link_read_only _ _ _ _ _ Hfind) as Hro.
    assert (Hc0 : committed w0 = committed w /\ txview w0 = txview w).
    { rewrite Hro. split; reflexivity. }
    destruct f as [link|e1].
    + destruct Hcase as (_ & d & Htx & Hd).
      destruct d as [[]|e2]; [discriminate|].
      destruct (gorm_Transaction_Err _ _ _ _
                  (fun w0 r w1 => LinkRepository_Delete_tx_only link deletingUserID r w0 w1)
                  Htx) as [Hc Ht].
      destruct Hc0 as [Hc1 Ht1]. split; [congruence|].
      intros Hn. apply Ht. congruence.
    + destruct Hcase as (-> & _). destruct Hc0 as [Hc1 Ht1]. split; [exact Hc1|].
      intros Hn. congruence.
Qed.

Lemma DeleteLink_soft_deletes_witness :
  ~ has_live_id
      (committed (snd (LinkService_DeleteLink NewLinkService context_Background 7 1
                         before_delete))) 1.
Proof.
  refine (proj1 (proj2 (proj2 (proj2 (proj2
            (proj1 (proj2 (DeleteLink_soft_deletes NewLinkService context_Background 7 1
                             before_delete _)) _ _)))))).
  - reflexivity.
  - vm_compute. reflexivity.
Defined.

(** X15.  Deleting a link inside an open transaction.  Through a repository
    built on the transaction handle, as the resource services do, [Delete]
    never touches the committed tables.  When it succeeds, a live link had
    the id and the transaction now sees the links table with the deletion
    stamp on that row and nothing else changed; when it fails, at the guard,
    at the savepoint or inside it, the transaction sees exactly what it saw
    before the call. *)
Theorem Delete_joins_open_transaction (ctx : Context) (link : Link)
    (deletedByUserID : uint) (r : result unit) (w w' : World) :
  ctx_tx ctx = None -> is_Some (txview w) ->
  LinkRepository_Delete (NewLinkRepositoryTx Tx) ctx link deletedByUserID w = (r, w') ->
  committed w' = committed w /\
  match r with
  | Ok _ =>
      has_live_id (view Tx w) (ID (Link_Base link)) /\
      txview w'
      = Some (with_rows (map (deleted_at (now w) (ID (Link_Base link)))
                             (links (view Tx w)))
                        (view Tx w))
  | Err _ => txview w' = txview w
  end.
Proof.
  intros Hctx Hs. unfold LinkRepository_Delete.
  destruct (ID (Link_Base link) =? 0).
  { intros Heq; inversion Heq; subst. split; reflexivity. }
  unfold LinkRepository_getDB. rewrite Hctx. cbn [NewLinkRepositoryTx LinkRepository_db].
  cbn [gorm_Transaction_on]. unfold exec. unfold bind at 1.
  destruct (faults w (length (statements w))); cbn [fmap option_fmap option_map].
  { unfold ret. intros Heq; inversion Heq; subst. split; reflexivity. }
  unfold bind at 1, get. unfold bind at 1.
  set (ws := with_statements (statements w ++ [mkStmt Tx BEGIN None])%list w).
  assert (Hss : is_Some (txview ws)) by exact Hs.
  destruct (LinkRepository_Delete_tx link deletedByUserID Tx ws) as [d w1] eqn:Hd.
  pose proof (LinkRepository_Delete_tx_only _ _ _ _ _ Hss Hd) as [Hc Hs1].
  destruct d as [[]|e].
  - unfold ret. intros Heq; inversion Heq; subst.
    destruct (LinkRepository_Delete_tx_Ok _ _ _ _ Hd) as (_ & _ & _ & Hlive & Hview).
    split; [exact Hc|]. split; [exact Hlive|].
    rewrite (txview_view _ Hs1), Hview. reflexivity.
  - unfold bind, exec, modify, ret. intros Heq; inversion Heq; subst.
    split; [exact Hc|reflexivity].
Qed.

Lemma Delete_joins_open_transaction_witness :
  committed (snd (LinkRepository_Delete (NewLinkRepositoryTx Tx) context_Background
                    (link_row 1 "aaaaaaaaaaaaaaaaaaaa" None) 7 (begun before_delete)))
  = committed (begun before_delete).
Proof.
  refine (proj1 (Delete_joins_open_transaction context_Background
                   (link_row 1 "aaaaaaaaaaaaaaaaaaaa" None) 7
                   (fst (LinkRepository_Delete (NewLinkRepositoryTx Tx) context_Background
                           (link_row 1 "aaaaaaaaaaaaaaaaaaaa" None) 7
                           (begun before_delete)))
                   (begun before_delete) _ _ _ _)).
  - reflexivity.
  - eexists. reflexivity.
  - vm_compute. reflexivity.
Defined.

(** ** What creating a card commits *)

Lemma CreateCard_key_loop_Ok (tx : DB) (n : nat) (key : string) (w w' : World) :
  CreateCard_key_loop tx n w = (Ok key, w') ->
  (key = EmptyString \/
   (String.length key = 20%nat /\
    Forall (fun c => alnum c = true) (String.list_ascii_of_string key))) /\
  store w' = store w /\ sequences w' = sequences w /\ now w' = now w.
Proof.
  revert w. induction n as [|n IH]; intros w.
  - cbn. intros Heq; inversion Heq; subst. repeat split. left. reflexivity.
  - cbn [CreateCard_key_loop]. unfold bind at 1. unfold utils_GenerateSecureRandomString.
    destruct (generateSecureRandomStringForLink 20 w) as [g w1] eqn:Hg.
    destruct g as [k|e]; [|discriminate].
    destruct (generate_Ok _ _ _ Hg) as (Hlen & Hal & Hs1 & Hq1).
    assert (Hn1 : now w1 = now w) by (rewrite (generate_frame _ _ _ _ Hg); reflexivity).
    unfold bind at 1.
    match goal with
    | |- context [gorm_Count tx ?c w1] => destruct (gorm_Count tx c w1) as [c0 w2] eqn:Hc
    end.
    pose proof (gorm_Count_frame _ _ _ _ _ Hc) as Hw2.
    destruct c0 as [count|e]; [|discriminate].
    assert (Hs2 : store w2 = store w) by (rewrite Hw2; exact Hs1).
    assert (Hq2 : sequences w2 = sequences w) by (rewrite Hw2; exact Hq1).
    assert (Hn2 : now w2 = now w) by (rewrite Hw2; exact Hn1).
    destruct (count =? 0).
    + intros Heq; inversion Heq; subst. repeat split; try assumption. right. auto.
    + intros Hrec. destruct (IH _ Hrec) as (Hk & Hs' & Hq' & Hn').
      split; [exact Hk|]. repeat split; congruence.
Qed.

Lemma retarget_fresh (id targetID : uint) (ls : list Link) :
  (forall y, In y ls -> ID (Link_Base y) <> id) -> map (retarget id targetID) ls = ls.
Proof.
  intros Hfresh. apply retarget_absent.
  induction ls as [|l ls IH]; [reflexivity|]. cbn [List.filter].
  assert (Hl : id_is id l = false).
  { unfold id_is. apply N.eqb_neq. apply Hfresh. left. reflexivity. }
  rewrite Hl, andb_false_r. apply IH. intros y Hy. apply Hfresh. right. exact Hy.
Qed.

Lemma CreateCard_tx_Ok (s : CardService) (ctx : Context) (creatorUserID : uint)
    (d : CardDetail) (cardType : Type_) (card : Card) (w w' : World) :
  ctx_tx ctx = None ->
  CreateCard_tx s ctx creatorUserID d cardType Tx w = (Ok card, w') ->
  exists link stored,
    issued_for_card creatorUserID cardType d link stored /\
    card = with_Link (Link_with_Type cardType link) stored /\
    view Tx w' = with_new_card (view Tx w) link stored /\
    (forall y, In y (links (view Tx w)) ->
       Key y <> Key link /\ ID (Link_Base y) <> ID (Link_Base link)) /\
    (forall c, In c (cards (view Tx w)) -> ID (Card_Base c) <> ID (Card_Base stored)).
Proof.
  intros Hctx. unfold CreateCard_tx. unfold bind at 1.
  destruct (CreateCard_key_loop Tx maxKeyAttempts w) as [kr w1] eqn:Hk.
  destruct kr as [key|e]; [|discriminate].
  destruct (CreateCard_key_loop_Ok _ _ _ _ _ Hk) as (Hkey & Hs1 & _).
  destruct (String.eqb_spec key EmptyString) as [|Hne]; [discriminate|].
  destruct Hkey as [|[Hlen Hal]]; [contradiction|].
  unfold bind at 1.
  unfold LinkRepository_Create, gorm_Create_Link, Link_BeforeCreate.
  cbn [Key]. 
  destruct (String.eqb_spec key EmptyString) as [|_]; [contradiction|]. cbn [negb].
  unfold bind at 1. unfold ret at 1.
  unfold LinkRepository_getDB. cbn [contextWithUserID ctx_tx]. rewrite Hctx.
  cbn [NewLinkRepositoryTx LinkRepository_db].
  destruct (gorm_insert Tx (mkLink zeroBase key (ID (Type_Base cardType)) 0 creatorUserID
                                    zeroType) w1) as [lr w2] eqn:Hli.
  destruct lr as [link|e]; [|discriminate].
  apply (@gorm_insert_inv Link Schema_Link) in Hli; [|reflexivity].
  destruct Hli as (Hlink & Hv2 & _ & Hfresh). cbn in Hlink.
  unfold bind at 1. unfold CardRepository_CreateCard.
  cbn [NewCardRepositoryTx Repository_db].
  destruct (gorm_insert Tx (mkCard zeroBase (ID (Link_Base link)) creatorUserID None true
                                    zeroLink d) w2) as [cr w3] eqn:Hci.
  destruct cr as [stored|e]; [|discriminate].
  apply (@gorm_insert_inv Card Schema_Card) in Hci; [|reflexivity].
  destruct Hci as (Hstored & Hv3 & _ & Hcfresh). cbn in Hstored.
  unfold bind.
  fold (target_update (ID (Card_Base stored))).
  destruct (LinkRepository_Update (NewLinkRepositoryTx Tx)
              (contextWithUserID ctx creatorUserID) (ID (Link_Base link))
              (target_update (ID (Card_Base stored))) creatorUserID w3)
    as [ur w4] eqn:Hu.
  destruct ur as [[]|e]; [|discriminate].
  pose proof (LinkRepository_Update_target _ _ _ _ _ _ _ _ Hu) as (_ & _ & _ & _ & Hv4).
  intros Heq; inversion Heq; subst card w4.
  exists link, stored.
  rewrite (view_store Tx _ _ Hs1) in Hv2, Hfresh.
  assert (Hlid : ID (Link_Base link) <> 0) by (rewrite Hlink; cbn; lia).
  assert (Hcid : ID (Card_Base stored) <> 0) by (rewrite Hstored; cbn; lia).
  assert (Hfresh' : forall y, In y (links (view Tx w)) ->
                              Key y <> Key link /\ ID (Link_Base y) <> ID (Link_Base link)).
  { intros y Hy. destruct (Hfresh y Hy) as [Hid Hu']. split.
    - intros Hky. cbn in Hu'. rewrite Hky, String.eqb_refl in Hu'. discriminate.
    - rewrite Hlink. cbn. exact Hid. }
  split.
  { unfold issued_for_card. rewrite Hlink at 1 2. cbn [Key Link_with_Base].
    repeat split; try assumption.
    - rewrite Hlink. reflexivity.
    - rewrite Hstored. reflexivity. }
  split; [reflexivity|].
  assert (Hcards : forall c, In c (cards (view Tx w)) ->
                             ID (Card_Base c) <> ID (Card_Base stored)).
  { intros c Hc. rewrite Hstored. cbn. apply (Hcfresh c).
    rewrite Hv2. cbn. exact Hc. }
  split; [|split; [exact Hfresh'|exact Hcards]].
  unfold LinkRepository_getDB in Hv4. cbn [contextWithUserID ctx_tx] in Hv4.
  rewrite Hctx in Hv4. cbn [NewLinkRepositoryTx LinkRepository_db] in Hv4.
  rewrite Hv4, Hv3, Hv2. unfold with_new_card. cbn.
  rewrite map_app, retarget_fresh by (intros y Hy; apply Hfresh'; exact Hy).
  cbn [map]. unfold retarget.
  assert (Hhit : live link && id_is (ID (Link_Base link)) link = true).
  { unfold id_is. rewrite N.eqb_refl, andb_true_r. rewrite Hlink. reflexivity. }
  rewrite Hhit. reflexivity.
Qed.

Lemma CreateCard_inv (s : CardService) (ctx : Context) (creatorUserID : uint)
    (d : CardDetail) (card : Card) (w w' : World) :
  ctx_tx ctx = None ->
  CardService_CreateCard s ctx creatorUserID d w = (Ok card, w') ->
  valid_card d /\ creatorUserID <> 0 /\
  exists cardType w2,
    In cardType (types (committed w)) /\ live cardType = true /\
    Name cardType = TypeNameCard /\
    CreateCard_tx s ctx creatorUserID d cardType Tx
      (begun (with_statements (statements w ++ [mkStmt Pool SELECT (Some t_types)])%list w))
    = (Ok card, w2) /\
    committed w' = view Tx w2 /\ txview w' = None.
Proof.
  intros Hctx. unfold CardService_CreateCard.
  destruct (ValidateCardDetail d) as [[]|e0] eqn:Hv; [|discriminate].
  apply ValidateCardDetail_Ok in Hv.
  destruct (N.eqb_spec creatorUserID 0) as [|Hu]; [discriminate|].
  unfold bind. unfold TypeRepository_FindByName.
  match goal with
  | |- context [gorm_First Pool ?c w] => destruct (gorm_First Pool c w) as [t w0] eqn:Ht
  end.
  destruct (gorm_First_inv _ _ _ _ _ Ht) as [Hw0 Hcase].
  destruct t as [cardType|e]; [|discriminate].
  destruct Hcase as (_ & Hin & Hlive & Hname & _). apply String.eqb_eq in Hname.
  intros Htx.
  destruct (gorm_Transaction_Ok _ _ _ _ Htx) as (w2 & Hbody & Hcom & Htxv & _).
  rewrite Hw0 in Hbody.
  split; [exact Hv|]. split; [exact Hu|]. exists cardType, w2.
  repeat split; assumption.
Qed.

(** X16.  What a successful [CreateCard] commits.  With no transaction
    handle in the request context, a call that returns a card was given a
    valid detail and a non-zero user, found the live CARD type row, and
    committed exactly two new rows: a link with a fresh 20-character
    alphanumeric key, of the CARD type, owned by the user, whose target is
    the id of the new card; and the card row, enabled, owned by the user,
    pointing back at the link.  Every other row and table is as before and
    no transaction is left open.  The link embedded in the card returned
    still shows the placeholder target 0: it is the value read before the
    backfill. *)
Theorem CreateCard_commits_link_and_card (s : CardService) (ctx : Context)
    (creatorUserID : uint) (d : CardDetail) (card : Card) (w w' : World) :
  ctx_tx ctx = None ->
  CardService_CreateCard s ctx creatorUserID d w = (Ok card, w') ->
  valid_card d /\ creatorUserID <> 0 /\
  exists cardType link stored,
    In cardType (types (committed w)) /\ live cardType = true /\
    Name cardType = TypeNameCard /\
    issued_for_card creatorUserID cardType d link stored /\
    card = with_Link (Link_with_Type cardType link) stored /\
    committed w' = with_new_card (committed w) link stored /\
    txview w' = None /\
    (forall y, In y (links (committed w)) ->
       Key y <> Key link /\ ID (Link_Base y) <> ID (Link_Base link)) /\
    TargetID (Card_Link card) = 0 /\
    In (Link_with_TargetID (ID (Card_Base card)) link) (links (committed w')).
Proof.
  intros Hctx Hrun.
  destruct (CreateCard_inv _ _ _ _ _ _ _ Hctx Hrun)
    as (Hv & Hu & cardType & w2 & Hin & Hlive & Hname & Hbody & Hcom & Htxv).
  destruct (CreateCard_tx_Ok _ _ _ _ _ _ _ _ Hctx Hbody)
    as (link & stored & Hissued & Hcard & Hview & Hfresh & _).
  change (view Tx (begun _)) with (committed w) in Hview, Hfresh.
  rewrite <- Hcom in Hview.
  split; [exact Hv|]. split; [exact Hu|].
  exists cardType, link, stored.
  split; [exact Hin|]. split; [exact Hlive|]. split; [exact Hname|].
  split; [exact Hissued|]. split; [exact Hcard|]. split; [exact Hview|].
  split; [exact Htxv|]. split; [exact Hfresh|].
  destruct Hissued as (_ & _ & _ & _ & Hlink & _).
  split.
  - rewrite Hcard. cbn. rewrite Hlink. reflexivity.
  - rewrite Hview, Hcard. cbn. apply in_or_app. right. left. reflexivity.
Qed.

Lemma CreateCard_commits_link_and_card_witness :
  exists card,
    fst (CardService_CreateCard NewCardService context_Background 7 a_card
           (world_of seeded (draws 0))) = Ok card /\
    TargetID (Card_Link card) = 0.
Proof.
  destruct (CardService_CreateCard NewCardService context_Background 7 a_card
              (world_of seeded (draws 0))) as [r w'] eqn:Hrun.
  destruct r as [card|e]; [|vm_compute in Hrun; discriminate Hrun].
  exists card. split; [reflexivity|].
  destruct (CreateCard_commits_link_and_card NewCardService context_Background 7 a_card
              card (world_of seeded (draws 0)) w' eq_refl Hrun)
    as (_ & _ & cardType & link & stored & _ & _ & _ & _ & _ & _ & _ & _ & Ht & _).
  exact Ht.
Defined.

(** ** Create a card, then resolve its key *)

Lemma view_no_tx (db : DB) (w : World) : txview w = None -> view db w = committed w.
Proof. intros Ht. destruct db; cbn; rewrite ?Ht; reflexivity. Qed.

Lemma filter_appended {A} (f : A -> bool) (old : list A) (new : A) :
  (forall y, In y old -> f y = false) ->
  List.filter f (old ++ [new]) = if f new then [new] else [].
Proof.
  intros Hold. induction old as [|a old IH]; [reflexivity|].
  cbn [app List.filter]. rewrite (Hold a) by (left; reflexivity).
  apply IH. intros y Hy. apply Hold. right. exact Hy.
Qed.

Lemma preload_Type_run (db : DB) (l : Link) (w : World) :
  faults w (length (statements w)) = None ->
  exists ty,
    preload_Type db l w
    = (Ok (Link_with_Type ty l),
       with_statements (statements w ++ [mkStmt db SELECT (Some t_types)])%list w) /\
    preloaded (view db w) l ty.
Proof.
  intros Hf. destruct (preload_Type db l w) as [r w1] eqn:Hr.
  destruct (preload_Type_inv _ _ _ _ _ Hr) as [-> Hcase].
  destruct r as [l'|e].
  - destruct Hcase as (_ & ty & -> & Hty). exists ty. split; [reflexivity|exact Hty].
  - destruct Hcase as (msg & Hm & _). congruence.
Qed.

Section ResourceRuns.
Context {T : Type} `{Schema T} `{Resource T}.

Lemma preload_Link_Type_run (db : DB) (x : T) (l : Link) (ls : list Link) (w : World) :
  faults w (length (statements w)) = None ->
  faults w (S (length (statements w))) = None ->
  List.filter (fun y : Link => live y && (ID (Link_Base y) =? LinkID_of x))
              (links (view db w)) = l :: ls ->
  exists ty,
    preload_Link_Type db x w
    = (Ok (with_Link (Link_with_Type ty l) x),
       with_statements
         (statements w ++ [mkStmt db SELECT (Some t_links);
                           mkStmt db SELECT (Some t_types)])%list w) /\
    preloaded (view db w) l ty.
Proof.
  intros Hf0 Hf1 Hfilter. unfold preload_Link_Type. unfold bind at 1.
  rewrite (@gorm_Find_run Link Schema_Link db _ w Hf0).
  cbn [rows Schema_Link]. rewrite Hfilter. unfold bind.
  match goal with
  | |- context [preload_Type db l ?w1] =>
      destruct (preload_Type_run db l w1) as (ty & Hrun & Hty)
  end.
  { cbn. rewrite length_app, Nat.add_1_r. exact Hf1. }
  rewrite Hrun. exists ty. split.
  - cbn. rewrite <- app_assoc. reflexivity.
  - rewrite view_with_statements in Hty. exact Hty.
Qed.

End ResourceRuns.

Lemma answers_0 (n : nat) (w : World) :
  answers (S n) w -> faults w (length (statements w)) = None.
Proof. intros Ha. rewrite <- (Nat.add_0_r (length _)). apply Ha. lia. Qed.

Lemma answers_1 (n : nat) (w : World) :
  answers (S (S n)) w -> faults w (S (length (statements w))) = None.
Proof. intros Ha. rewrite <- Nat.add_1_r. apply Ha. lia. Qed.

Lemma answers_after (ss : list Stmt) (n : nat) (w : World) :
  answers (length ss + n) w -> answers n (with_statements (statements w ++ ss)%list w).
Proof.
  intros Ha i Hi. cbn. rewrite length_app, <- Nat.add_assoc. apply Ha. lia.
Qed.

Lemma card_type_preloaded (t : Tables) (l : Link) (cardType ty : Type_) :
  type_ids_unique t ->
  In cardType (types t) -> live cardType = true -> TypeID l = ID (Type_Base cardType) ->
  preloaded t l ty -> ty = cardType.
Proof.
  intros Huniq Hin Hlive Hid [[_ Hnone]|(Hin' & _ & Hid')].
  - exfalso. apply (Hnone cardType Hin Hlive). symmetry. exact Hid.
  - apply Huniq; [exact Hin'|exact Hin|congruence].
Qed.


(** ** What creating an appointment or a form commits *)

Lemma view_Tx_write (db : DB) (f : Tables -> Tables) (w : World) :
  view Tx (write db f w) = f (view Tx w).
Proof. destruct db; cbn; destruct (txview w) eqn:Ht; cbn; rewrite ?Ht; reflexivity. Qed.

(** An INSERT through either handle, as the open transaction sees it. *)
Lemma gorm_insert_view_Tx {T} `{Schema T} (db : DB) (x x' : T) (w w' : World) :
  gorm_insert db x w = (Ok x', w') ->
  view Tx w' = with_rows (rows (view Tx w) ++ [x'])%list (view Tx w).
Proof.
  unfold gorm_insert, exec, nextval. unfold_monad.
  destruct (faults w (length (statements w))); [intros Heq; discriminate|].
  cbn -[view]. destruct (ID (base x) =? 0); cbn -[view];
    match goal with |- context [existsb ?f ?l] => destruct (existsb f l) end;
    intros Heq; inversion Heq; subst; rewrite view_Tx_write; reflexivity.
Qed.

Lemma gorm_Updates_Link_target_view_Tx (db : DB) (id targetID : uint) (n : N)
    (w w' : World) :
  gorm_Updates_Link db zeroLink (id_is id) (target_update targetID) w = (Ok n, w') ->
  view Tx w' = with_rows (map (retarget id targetID) (links (view Tx w))) (view Tx w).
Proof.
  unfold gorm_Updates_Link, Link_BeforeUpdate.
  rewrite Statement_Changed_Key_spec, key_entry_target.
  unfold bind at 1, exec. cbn [fst snd].
  destruct (faults w (length (statements w))); cbn [fmap option_fmap option_map];
    [discriminate|].
  unfold bind at 1, get. rewrite set_columns_target.
  rewrite (no_key_change _ _ _ _ (key_entry_target targetID)).
  unfold bind at 1, modify, ret. intros Heq; inversion Heq; subst.
  rewrite view_Tx_write. reflexivity.
Qed.

Lemma LinkRepository_Update_target_view_Tx (r : LinkRepository) (ctx : Context)
    (id updatedByUserID targetID : uint) (w w' : World) :
  LinkRepository_Update r ctx id (target_update targetID) updatedByUserID w = (Ok tt, w') ->
  view Tx w' = with_rows (map (retarget id targetID) (links (view Tx w))) (view Tx w).
Proof.
  unfold LinkRepository_Update.
  destruct (id =? 0); [discriminate|].
  rewrite size_target_update. cbn [Nat.eqb].
  set (db := LinkRepository_getDB r (contextWithUserID ctx updatedByUserID)).
  change (fun l : Link => ID (Link_Base l) =? id) with (id_is id).
  unfold bind at 1.
  destruct (gorm_Updates_Link db zeroLink (id_is id) (target_update targetID) w)
    as [u w1] eqn:Hu.
  destruct u as [n|e]; [|discriminate].
  apply gorm_Updates_Link_target_view_Tx in Hu.
  destruct (n =? 0).
  - unfold bind.
    destruct (gorm_Count db (id_is id) w1) as [c w2] eqn:Hc.
    pose proof (gorm_Count_frame _ _ _ _ _ Hc) as Hw2.
    destruct c as [[|p]|e]; intros Heq; inversion Heq; subst w'.
    + rewrite Hw2, view_with_statements. exact Hu.
    + rewrite Hw2, view_with_statements. exact Hu.
  - intros Heq; inversion Heq; subst. exact Hu.
Qed.

Lemma UpdateLinkTarget_view_Tx (s : LinkService) (ctx : Context)
    (updatingUserID linkID targetID : uint) (w w' : World) :
  LinkService_UpdateLinkTarget s ctx updatingUserID linkID targetID w = (Ok tt, w') ->
  view Tx w'
  = with_rows (map (retarget linkID targetID) (links (view Tx w))) (view Tx w).
Proof.
  intros Hrun.
  destruct (UpdateLinkTarget_inv _ _ _ _ _ _ _ _ Hrun)
    as [(e & He & _)|(_ & _ & _ & res & Hres & Hr)]; [discriminate|].
  destruct res as [[]|err]; [|destruct (errors_Is err gorm_ErrRecordNotFound); discriminate].
  exact (LinkRepository_Update_target_view_Tx _ _ _ _ _ _ _ Hres).
Qed.

(** [CreateLink] as the open transaction sees it, when both handles see the
    same tables at the call. *)
Lemma CreateLink_view_Tx (s : LinkService) (ctx : Context) (creatorUserID : uint)
    (ty : Type_) (link : Link) (w w' : World) :
  view Pool w = view Tx w ->
  LinkService_CreateLink s ctx creatorUserID (ID (Type_Base ty)) w = (Ok link, w') ->
  issued_to creatorUserID ty link /\
  view Tx w' = with_rows (links (view Tx w) ++ [link])%list (view Tx w) /\
  (forall y, In y (links (view Tx w)) ->
     Key y <> Key link /\ ID (Link_Base y) <> ID (Link_Base link)).
Proof.
  intros Hsame Hrun.
  destruct (CreateLink_inv _ _ _ _ _ _ _ Hrun)
    as (_ & _ & key & w1 & Hlen & Hal & Hs & _ & Hins).
  pose proof (gorm_insert_view_Tx _ _ _ _ _ Hins) as Hview.
  apply (@gorm_insert_inv Link Schema_Link) in Hins; [|reflexivity].
  destruct Hins as (Hlink & _ & _ & Hfresh). cbn in Hlink.
  rewrite (view_store Tx _ _ Hs) in Hview.
  assert (Hv : view (LinkService_db s (contextWithUserID ctx creatorUserID)) w1
               = view Tx w).
  { rewrite (view_store _ _ _ Hs).
    destruct (LinkService_db s (contextWithUserID ctx creatorUserID));
      [exact Hsame|reflexivity]. }
  rewrite Hv in Hfresh.
  split; [|split; [exact Hview|]].
  - unfold issued_to. rewrite Hlink. cbn. repeat split; try assumption. lia.
  - intros y Hy. destruct (Hfresh y Hy) as [Hid Hu]. split.
    + intros Hky. cbn in Hu. rewrite Hky, String.eqb_refl in Hu. discriminate.
    + rewrite Hlink. cbn. exact Hid.
Qed.

Lemma retarget_issued (creatorUserID : uint) (ty : Type_) (link : Link) (targetID : uint)
    (old : list Link) :
  issued_to creatorUserID ty link ->
  (forall y, In y old -> Key y <> Key link /\ ID (Link_Base y) <> ID (Link_Base link)) ->
  map (retarget (ID (Link_Base link)) targetID) (old ++ [link])
  = (old ++ [Link_with_TargetID targetID link])%list.
Proof.
  intros (_ & _ & _ & Hlink) Hfresh.
  rewrite map_app, retarget_fresh by (intros y Hy; apply Hfresh; exact Hy).
  cbn [map]. unfold retarget.
  assert (Hhit : live link && id_is (ID (Link_Base link)) link = true).
  { unfold id_is. rewrite N.eqb_refl, andb_true_r. rewrite Hlink. reflexivity. }
  rewrite Hhit. reflexivity.
Qed.

Lemma CreateAppointment_tx_Ok (s : AppointmentService) (ctx : Context)
    (providerUserID : uint) (orgID : option uint) (d : AppointmentDetail)
    (appointmentType : Type_) (a : Appointment) (w w' : World) :
  view Pool w = view Tx w ->
  CreateAppointment_tx s ctx providerUserID orgID d appointmentType Tx w = (Ok a, w') ->
  exists link stored,
    issued_to providerUserID appointmentType link /\
    ID (Appointment_Base stored) <> 0 /\
    stored = mkAppointment (mkBaseModel (ID (Appointment_Base stored)) None)
                           (ID (Link_Base link)) providerUserID orgID true zeroLink d /\
    a = with_Link (Link_with_Type appointmentType link) stored /\
    view Tx w' = with_new_appointment (view Tx w) link stored /\
    (forall y, In y (links (view Tx w)) ->
       Key y <> Key link /\ ID (Link_Base y) <> ID (Link_Base link)) /\
    (ctx_tx ctx = None ->
     forall c, In c (appointments (view Tx w)) -> ID (Appointment_Base c) <> ID (Appointment_Base stored)).
Proof.
  intros Hsame. unfold CreateAppointment_tx. unfold bind at 1.
  destruct (LinkService_CreateLink _ _ providerUserID _ w) as [lr w1] eqn:Hl.
  destruct lr as [link|e]; [|discriminate].
  destruct (CreateLink_view_Tx _ _ _ _ _ _ _ Hsame Hl) as (Hissued & Hv1 & Hfresh).
  unfold bind at 1. unfold AppointmentRepository_Create, Repository_Create.
  cbn [LinkID_of Resource_Appointment Appointment_LinkID].
  destruct (ID (Link_Base link) =? 0); [discriminate|].
  match goal with
  | |- context [gorm_insert ?db ?x w1] => destruct (gorm_insert db x w1) as [cr w2] eqn:Hc
  end.
  destruct cr as [stored|e]; [|discriminate].
  pose proof (gorm_insert_view_Tx _ _ _ _ _ Hc) as Hv2.
  apply (@gorm_insert_inv Appointment Schema_Appointment) in Hc; [|reflexivity].
  destruct Hc as (Hstored & _ & _ & Hcfresh). cbn in Hstored.
  unfold bind.
  destruct (LinkService_UpdateLinkTarget _ _ providerUserID (ID (Link_Base link))
              (ID (Appointment_Base stored)) w2) as [ur w3] eqn:Hu.
  destruct ur as [[]|e]; [|discriminate].
  apply UpdateLinkTarget_view_Tx in Hu.
  assert (Hty : Link_Type link = zeroType).
  { destruct Hissued as (_ & _ & _ & Hlink). rewrite Hlink. reflexivity. }
  rewrite Hty. cbn [zeroType Type_Base zeroBase ID N.eqb].
  intros Heq; inversion Heq; subst a w3.
  exists link, stored.
  split; [exact Hissued|].
  split; [rewrite Hstored; cbn; lia|].
  split; [rewrite Hstored; reflexivity|].
  split; [reflexivity|]. split; [|split; [exact Hfresh|]].
  2:{ intros Hctx c Hc. rewrite Hstored. cbn [Appointment_Base ID].
      unfold Repository_getDB in Hcfresh. cbn [contextWithUserID ctx_tx] in Hcfresh.
      rewrite Hctx in Hcfresh. cbn [NewAppointmentRepositoryTx Repository_db] in Hcfresh.
      apply (Hcfresh c). rewrite Hv1. exact Hc. }
  rewrite Hu, Hv2, Hv1. unfold with_new_appointment. cbn.
  rewrite (retarget_issued _ _ _ _ _ Hissued Hfresh). reflexivity.
Qed.

Lemma CreateAppointment_inv (s : AppointmentService) (ctx : Context)
    (providerUserID : uint) (orgID : option uint) (d : AppointmentDetail)
    (a : Appointment) (w w' : World) :
  AppointmentService_CreateAppointment s ctx providerUserID orgID d w = (Ok a, w') ->
  valid_appointment d /\ providerUserID <> 0 /\
  exists appointmentType w2,
    In appointmentType (types (committed w)) /\ live appointmentType = true /\
    Name appointmentType = TypeNameAppointment /\
    CreateAppointment_tx s ctx providerUserID orgID d appointmentType Tx
      (begun (with_statements (statements w ++ [mkStmt Pool SELECT (Some t_types)])%list w))
    = (Ok a, w2) /\
    committed w' = view Tx w2 /\ txview w' = None /\ now w' = now w2.
Proof.
  unfold AppointmentService_CreateAppointment.
  destruct (ValidateAppointmentDetail d) as [[]|e0] eqn:Hv; [|discriminate].
  apply ValidateAppointmentDetail_Ok in Hv.
  destruct (N.eqb_spec providerUserID 0) as [|Hu]; [discriminate|].
  unfold bind. unfold TypeService_GetTypeByName, TypeRepository_FindByName.
  match goal with
  | |- context [gorm_First Pool ?c w] => destruct (gorm_First Pool c w) as [t w0] eqn:Ht
  end.
  destruct (gorm_First_inv _ _ _ _ _ Ht) as [Hw0 Hcase].
  destruct t as [appointmentType|e]; [|discriminate].
  destruct Hcase as (_ & Hin & Hlive & Hname & _). apply String.eqb_eq in Hname.
  intros Htx.
  destruct (gorm_Transaction_Ok _ _ _ _ Htx)
    as (w2 & Hbody & Hcom & Htxv & _ & _ & Hnow & _).
  rewrite Hw0 in Hbody.
  split; [exact Hv|]. split; [exact Hu|]. exists appointmentType, w2.
  repeat split; assumption.
Qed.

(** X18.  What a successful [CreateAppointment] commits.  A call that
    returns an appointment was given a valid detail and a non-zero user,
    found the live APPOINTMENT type row, and left exactly two new rows
    committed: a link with a fresh 20-character alphanumeric key, of the
    APPOINTMENT type, owned by the user, whose target is the id of the new
    appointment; and the appointment row, enabled, with the detail as
    given, pointing back at the link.  Every other row and table is as
    before and no transaction is left open.  The link embedded in the
    appointment returned still shows the placeholder target 0. *)
Theorem CreateAppointment_commits_link_and_appointment (s : AppointmentService)
    (ctx : Context) (providerUserID : uint) (orgID : option uint)
    (d : AppointmentDetail) (a : Appointment) (w w' : World) :
  AppointmentService_CreateAppointment s ctx providerUserID orgID d w = (Ok a, w') ->
  valid_appointment d /\ providerUserID <> 0 /\
  exists appointmentType link stored,
    In appointmentType (types (committed w)) /\ live appointmentType = true /\
    Name appointmentType = TypeNameAppointment /\
    issued_to providerUserID appointmentType link /\
    ID (Appointment_Base stored) <> 0 /\
    stored = mkAppointment (mkBaseModel (ID (Appointment_Base stored)) None)
                           (ID (Link_Base link)) providerUserID orgID true zeroLink d /\
    a = with_Link (Link_with_Type appointmentType link) stored /\
    committed w' = with_new_appointment (committed w) link stored /\
    txview w' = None /\
    (forall y, In y (links (committed w)) ->
       Key y <> Key link /\ ID (Link_Base y) <> ID (Link_Base link)) /\
    TargetID (Appointment_Link a) = 0.
Proof.
  intros Hrun.
  destruct (CreateAppointment_inv _ _ _ _ _ _ _ _ Hrun)
    as (Hv & Hu & appointmentType & w2 & Hin & Hlive & Hname & Hbody & Hcom & Htxv & _).
  apply CreateAppointment_tx_Ok in Hbody; [|reflexivity].
  destruct Hbody as (link & stored & Hissued & Hid & Hstored & Ha & Hview & Hfresh & _).
  change (view Tx (begun _)) with (committed w) in Hview, Hfresh.
  rewrite <- Hcom in Hview.
  split; [exact Hv|]. split; [exact Hu|].
  exists appointmentType, link, stored.
  repeat (split; [assumption|]).
  destruct Hissued as (_ & _ & _ & Hlink).
  rewrite Ha. cbn. rewrite Hlink. reflexivity.
Qed.

Lemma CreateAppointment_commits_link_and_appointment_witness :
  valid_appointment an_appointment.
Proof.
  refine (proj1 (CreateAppointment_commits_link_and_appointment NewAppointmentService
            context_Background 7 None an_appointment
            (mkAppointment (mkBaseModel 101 None) 101 7 None true
               (mkLink (mkBaseModel 101 None) "aaaaaaaaaaaaaaaaaaaa" 2 0 7
                       (mkType (mkBaseModel 2 None) "APPOINTMENT" EmptyString))
               an_appointment)
            (world_of seeded (draws 0))
            (snd (AppointmentService_CreateAppointment NewAppointmentService
                    context_Background 7 None an_appointment
                    (world_of seeded (draws 0)))) _)).
  vm_compute. reflexivity.
Defined.

Lemma CreateForm_tx_Ok (s : FormService) (ctx : Context) (creatorUserID : uint)
    (orgID : option uint) (d : FormDetail) (formType : Type_) (f : Form) (w w' : World) :
  view Pool w = view Tx w ->
  CreateForm_tx s ctx creatorUserID orgID d formType Tx w = (Ok f, w') ->
  exists link stored,
    issued_to creatorUserID formType link /\
    ID (Form_Base stored) <> 0 /\
    stored = mkForm (mkBaseModel (ID (Form_Base stored)) None) (ID (Link_Base link))
                    creatorUserID orgID true zeroLink d /\
    f = with_Link (Link_with_Type formType link) stored /\
    view Tx w' = with_new_form (view Tx w) link stored /\
    (forall y, In y (links (view Tx w)) ->
       Key y <> Key link /\ ID (Link_Base y) <> ID (Link_Base link)) /\
    (ctx_tx ctx = None ->
     forall c, In c (forms (view Tx w)) -> ID (Form_Base c) <> ID (Form_Base stored)).
Proof.
  intros Hsame. unfold CreateForm_tx. unfold bind at 1.
  destruct (LinkService_CreateLink _ _ creatorUserID _ w) as [lr w1] eqn:Hl.
  destruct lr as [link|e]; [|discriminate].
  destruct (CreateLink_view_Tx _ _ _ _ _ _ _ Hsame Hl) as (Hissued & Hv1 & Hfresh).
  unfold bind at 1. unfold FormRepository_Create, Repository_Create.
  cbn [LinkID_of Resource_Form Form_LinkID].
  destruct (ID (Link_Base link) =? 0); [discriminate|].
  match goal with
  | |- context [gorm_insert ?db ?x w1] => destruct (gorm_insert db x w1) as [cr w2] eqn:Hc
  end.
  destruct cr as [stored|e]; [|discriminate].
  pose proof (gorm_insert_view_Tx _ _ _ _ _ Hc) as Hv2.
  apply (@gorm_insert_inv Form Schema_Form) in Hc; [|reflexivity].
  destruct Hc as (Hstored & _ & _ & Hcfresh). cbn in Hstored.
  unfold bind. fold (target_update (ID (Form_Base stored))).
  destruct (LinkRepository_Update (NewLinkRepositoryTx Tx)
              (contextWithUserID ctx creatorUserID) (ID (Link_Base link))
              (target_update (ID (Form_Base stored))) creatorUserID w2) as [ur w3] eqn:Hu.
  destruct ur as [[]|e]; [|discriminate].
  apply LinkRepository_Update_target_view_Tx in Hu.
  assert (Hty : Link_Type link = zeroType).
  { destruct Hissued as (_ & _ & _ & Hlink). rewrite Hlink. reflexivity. }
  rewrite Hty. cbn [zeroType Type_Base zeroBase ID N.eqb].
  intros Heq; inversion Heq; subst f w3.
  exists link, stored.
  split; [exact Hissued|].
  split; [rewrite Hstored; cbn; lia|].
  split; [rewrite Hstored; reflexivity|].
  split; [reflexivity|]. split; [|split; [exact Hfresh|]].
  2:{ intros Hctx c Hc. rewrite Hstored. cbn [Form_Base ID].
      unfold Repository_getDB in Hcfresh. cbn [contextWithUserID ctx_tx] in Hcfresh.
      rewrite Hctx in Hcfresh. cbn [NewFormRepositoryTx Repository_db] in Hcfresh.
      apply (Hcfresh c). rewrite Hv1. exact Hc. }
  rewrite Hu, Hv2, Hv1. unfold with_new_form. cbn.
  rewrite (retarget_issued _ _ _ _ _ Hissued Hfresh). reflexivity.
Qed.

Lemma CreateForm_inv (s : FormService) (ctx : Context) (creatorUserID : uint)
    (orgID : option uint) (d : FormDetail) (f : Form) (w w' : World) :
  FormService_CreateForm s ctx creatorUserID orgID d w = (Ok f, w') ->
  valid_form d /\ creatorUserID <> 0 /\
  exists formType d' w2,
    In formType (types (committed w)) /\ live formType = true /\
    Name formType = TypeNameForm /\
    hashed_detail w d d' /\
    CreateForm_tx s ctx creatorUserID orgID d' formType Tx
      (begun (with_statements (statements w ++ [mkStmt Pool SELECT (Some t_types)])%list w))
    = (Ok f, w2) /\
    committed w' = view Tx w2 /\ txview w' = None /\ now w' = now w2.
Proof.
  unfold FormService_CreateForm.
  destruct (ValidateFormDetail d) as [[]|e0] eqn:Hv; [|discriminate].
  apply ValidateFormDetail_Ok in Hv.
  destruct (N.eqb_spec creatorUserID 0) as [|Hu]; [discriminate|].
  unfold bind at 1. unfold TypeService_GetTypeByName, TypeRepository_FindByName.
  match goal with
  | |- context [gorm_First Pool ?c w] => destruct (gorm_First Pool c w) as [t w0] eqn:Ht
  end.
  destruct (gorm_First_inv _ _ _ _ _ Ht) as [Hw0 Hcase].
  destruct t as [formType|e]; [|discriminate].
  destruct Hcase as (_ & Hin & Hlive & Hname & _). apply String.eqb_eq in Hname.
  unfold bind, get.
  assert (Hb : bcrypt w0 = bcrypt w) by (rewrite Hw0; reflexivity).
  assert (Hfinish : forall d',
            hashed_detail w d d' ->
            gorm_Transaction (CreateForm_tx s ctx creatorUserID orgID d' formType) w0
            = (Ok f, w') ->
            valid_form d /\ creatorUserID <> 0 /\
            exists formType d' w2,
              In formType (types (committed w)) /\ live formType = true /\
              Name formType = TypeNameForm /\
              hashed_detail w d d' /\
              CreateForm_tx s ctx creatorUserID orgID d' formType Tx
                (begun (with_statements
                          (statements w ++ [mkStmt Pool SELECT (Some t_types)])%list w))
              = (Ok f, w2) /\
              committed w' = view Tx w2 /\ txview w' = None /\ now w' = now w2).
  { intros d' Hd' Htx.
    destruct (gorm_Transaction_Ok _ _ _ _ Htx)
      as (w2 & Hbody & Hcom & Htxv & _ & _ & Hnow & _).
    rewrite Hw0 in Hbody.
    split; [exact Hv|]. split; [exact Hu|].
    exists formType, d', w2. repeat split; assumption. }
  unfold hashed_detail in Hfinish |- *.
  destruct (String.eqb (FormDetail_PasswordHash d) EmptyString); cbn [negb].
  - apply Hfinish. reflexivity.
  - rewrite Hb. destruct (bcrypt w (FormDetail_PasswordHash d)) as [h|] eqn:Hh;
      [|discriminate].
    apply Hfinish. exists h. split; reflexivity.
Qed.

(** X19.  What a successful [CreateForm] commits.  A call that returns a
    form was given a valid detail and a non-zero user, found the live FORM
    type row, and left exactly two new rows committed: a link with a fresh
    20-character alphanumeric key, of the FORM type, owned by the user,
    whose target is the id of the new form; and the form row, enabled,
    pointing back at the link.  The detail stored is the one given, except
    that a non-empty password is replaced by what bcrypt made of it.  Every
    other row and table is as before and no transaction is left open. *)
Theorem CreateForm_commits_link_and_form (s : FormService) (ctx : Context)
    (creatorUserID : uint) (orgID : option uint) (d : FormDetail) (f : Form)
    (w w' : World) :
  FormService_CreateForm s ctx creatorUserID orgID d w = (Ok f, w') ->
  valid_form d /\ creatorUserID <> 0 /\
  exists formType link stored d',
    In formType (types (committed w)) /\ live formType = true /\
    Name formType = TypeNameForm /\
    hashed_detail w d d' /\
    issued_to creatorUserID formType link /\
    ID (Form_Base stored) <> 0 /\
    stored = mkForm (mkBaseModel (ID (Form_Base stored)) None) (ID (Link_Base link))
                    creatorUserID orgID true zeroLink d' /\
    f = with_Link (Link_with_Type formType link) stored /\
    committed w' = with_new_form (committed w) link stored /\
    txview w' = None /\
    (forall y, In y (links (committed w)) ->
       Key y <> Key link /\ ID (Link_Base y) <> ID (Link_Base link)).
Proof.
  intros Hrun.
  destruct (CreateForm_inv _ _ _ _ _ _ _ _ Hrun)
    as (Hv & Hu & formType & d' & w2 & Hin & Hlive & Hname & Hd' & Hbody & Hcom & Htxv & _).
  apply CreateForm_tx_Ok in Hbody; [|reflexivity].
  destruct Hbody as (link & stored & Hissued & Hid & Hstored & Hf & Hview & Hfresh & _).
  change (view Tx (begun _)) with (committed w) in Hview, Hfresh.
  rewrite <- Hcom in Hview.
  split; [exact Hv|]. split; [exact Hu|].
  exists formType, link, stored, d'. repeat (split; [assumption|]). exact Hfresh.
Qed.

Lemma CreateForm_commits_link_and_form_witness : valid_form a_form.
Proof.
  refine (proj1 (CreateForm_commits_link_and_form NewFormService context_Background 7 None
            a_form
            (mkForm (mkBaseModel 101 None) 101 7 None true
               (mkLink (mkBaseModel 101 None) "aaaaaaaaaaaaaaaaaaaa" 3 0 7
                       (mkType (mkBaseModel 3 None) "FORM" EmptyString))
               a_form)
            (world_of seeded (draws 0))
            (snd (FormService_CreateForm NewFormService context_Background 7 None a_form
                    (world_of seeded (draws 0)))) _)).
  vm_compute. reflexivity.
Defined.

(** ** Create an appointment or a form, then resolve its key *)

Lemma find_link_new (db : DB) (newlink : Link) (typ : Type_) (old : list Link) (w : World) :
  answers 2 w ->
  links (view db w) = (old ++ [newlink])%list ->
  (forall y, In y old -> Key y <> Key newlink) ->
  live newlink = true ->
  type_ids_unique (view db w) ->
  In typ (types (view db w)) -> live typ = true -> TypeID newlink = ID (Type_Base typ) ->
  find_link db (key_is (Key newlink)) w
  = (Ok (Link_with_Type typ newlink), after_link_lookup db w).
Proof.
  intros Hans Hlinks Hold Hnl Huniq Hin Hlt Htid.
  destruct (find_link_some db (key_is (Key newlink)) w newlink
              (answers_0 _ _ Hans) (answers_1 _ _ Hans)) as [found Hfind].
  { rewrite Hlinks. apply in_or_app. right. left. reflexivity. }
  { exact Hnl. }
  { unfold key_is. apply String.eqb_refl. }
  pose proof (find_link_inv _ _ _ _ _ Hfind)
    as (_ & _ & _ & l & ty & -> & Hl_in & _ & Hl_key & _ & Hty).
  assert (l = newlink) as ->.
  { rewrite Hlinks in Hl_in. apply in_app_or in Hl_in.
    destruct Hl_in as [Ho|[Heq|[]]]; [|symmetry; exact Heq].
    unfold key_is in Hl_key. apply String.eqb_eq in Hl_key.
    destruct (Hold l Ho Hl_key). }
  rewrite (card_type_preloaded _ _ _ _ Huniq Hin Hlt Htid Hty) in Hfind.
  exact Hfind.
Qed.

Section ResourceRoundTrip.
Context {T : Type} `{Schema T} `{Resource T}.

Lemma First_with_preloads_new (db : DB) (stored : T) (newlink : Link) (typ : Type_)
    (old : list T) (oldl : list Link) (w : World) :
  answers 3 w ->
  rows (view db w) = (old ++ [stored])%list ->
  (forall c, In c old -> ID (base c) <> ID (base stored)) ->
  live stored = true ->
  links (view db w) = (oldl ++ [newlink])%list ->
  (forall y, In y oldl -> ID (Link_Base y) <> ID (Link_Base newlink)) ->
  live newlink = true ->
  LinkID_of stored = ID (Link_Base newlink) ->
  type_ids_unique (view db w) ->
  In typ (types (view db w)) -> live typ = true -> TypeID newlink = ID (Type_Base typ) ->
  First_with_preloads db (ID (base stored)) w
  = (Ok (with_Link (Link_with_Type typ newlink) stored), after_resource_lookup db table w).
Proof.
  intros Hans Hrows Hold Hlive Hlinks Holdl Hnl Hlid Huniq Hin Hlt Htid.
  unfold First_with_preloads. unfold bind at 1.
  destruct (gorm_First_some db (fun x : T => ID (base x) =? ID (base stored)) w stored
              (answers_0 _ _ Hans)) as [x Hx].
  { rewrite Hrows. apply in_or_app. right. left. reflexivity. }
  { exact Hlive. }
  { apply N.eqb_refl. }
  destruct (gorm_First_inv _ _ _ _ _ Hx) as [_ (_ & Hx_in & _ & Hx_id & _)].
  assert (x = stored) as ->.
  { rewrite Hrows in Hx_in. apply in_app_or in Hx_in.
    destruct Hx_in as [Ho|[Heq|[]]]; [|symmetry; exact Heq].
    apply N.eqb_eq in Hx_id. destruct (Hold x Ho Hx_id). }
  rewrite Hx.
  set (w3 := with_statements (statements w ++ [mkStmt db SELECT (Some table)])%list w).
  assert (Hans3 : answers 2 w3).
  { unfold w3. apply (answers_after [_] 2). exact Hans. }
  destruct (preload_Link_Type_run db stored newlink [] w3
              (answers_0 _ _ Hans3) (answers_1 _ _ Hans3)) as (ty' & Hpre & Hty').
  { unfold w3. rewrite view_with_statements, Hlinks, Hlid.
    rewrite filter_appended.
    - rewrite Hnl, N.eqb_refl. reflexivity.
    - intros y Hy. pose proof (Holdl y Hy) as Hne. apply N.eqb_neq in Hne.
      rewrite Hne. apply andb_false_r. }
  unfold w3 in Hty'. rewrite view_with_statements in Hty'.
  rewrite (card_type_preloaded _ _ _ _ Huniq Hin Hlt Htid Hty') in Hpre.
  rewrite Hpre. unfold w3, after_resource_lookup. cbn [statements with_statements].
  rewrite <- app_assoc. reflexivity.
Qed.

Lemma Repository_FindByID_new (msg : string) (r : Repository) (ctx : Context)
    (stored : T) (newlink : Link) (typ : Type_) (old : list T) (oldl : list Link)
    (w : World) :
  let db := Repository_getDB r ctx in
  ID (base stored) <> 0 ->
  answers 3 w ->
  rows (view db w) = (old ++ [stored])%list ->
  (forall c, In c old -> ID (base c) <> ID (base stored)) ->
  live stored = true ->
  links (view db w) = (oldl ++ [newlink])%list ->
  (forall y, In y oldl -> ID (Link_Base y) <> ID (Link_Base newlink)) ->
  live newlink = true ->
  LinkID_of stored = ID (Link_Base newlink) ->
  type_ids_unique (view db w) ->
  In typ (types (view db w)) -> live typ = true -> TypeID newlink = ID (Type_Base typ) ->
  Repository_FindByID msg r ctx (ID (base stored)) w
  = (Ok (with_Link (Link_with_Type typ newlink) stored), after_resource_lookup db table w).
Proof.
  intros db Hid Hans Hrows Hold Hlive Hlinks Holdl Hnl Hlid Huniq Hin Hlt Htid.
  unfold Repository_FindByID.
  destruct (N.eqb_spec (ID (base stored)) 0) as [|_]; [contradiction|].
  unfold bind. fold db.
  rewrite (First_with_preloads_new db stored newlink typ old oldl w); try assumption.
  reflexivity.
Qed.

End ResourceRoundTrip.


Lemma seeded_type_ids_unique (rd : list (option N)) :
  type_ids_unique (committed (world_of seeded rd)).
Proof.
  intros t1 t2 H1 H2 Hid. cbn in H1, H2.
  destruct H1 as [<-|[<-|[<-|[<-|[]]]]]; destruct H2 as [<-|[<-|[<-|[<-|[]]]]];
    first [reflexivity | discriminate Hid].
Qed.

(** ** Resolving a resource that was just published *)

Lemma find_link_published (db : DB) (t0 : Tables) (newlink : Link) (typ : Type_)
    (w : World) :
  txview w = None ->
  link_published t0 (committed w) newlink typ ->
  answers 2 w ->
  find_link db (key_is (Key newlink)) w
  = (Ok (Link_with_Type typ newlink), after_link_lookup db w).
Proof.
  intros Htx (Hlinks & Htypes & Hfresh & _ & Hnl & Htid & Hin & Hlt & Huniq) Hans.
  pose proof (view_no_tx db w Htx) as Hv.
  apply (find_link_new db newlink typ (links t0) w); rewrite ?Hv; try assumption.
  - intros y Hy. apply Hfresh. exact Hy.
  - unfold type_ids_unique. rewrite Htypes. exact Huniq.
  - rewrite Htypes. exact Hin.
Qed.

Lemma GetLinkByKey_published (s : LinkService) (ctx : Context) (t0 : Tables)
    (newlink : Link) (typ : Type_) (w : World) :
  txview w = None ->
  link_published t0 (committed w) newlink typ ->
  answers 2 w ->
  LinkService_GetLinkByKey s ctx (Key newlink) w
  = (Ok (Link_with_Type typ newlink), after_link_lookup (LinkService_db s ctx) w).
Proof.
  intros Htx Hpub Hans. apply GetLinkByKey_find_link.
  - apply Hpub.
  - apply (find_link_published _ t0); assumption.
Qed.

Lemma FindByKey_published (r : LinkRepository) (ctx : Context) (t0 : Tables)
    (newlink : Link) (typ : Type_) (w : World) :
  txview w = None ->
  link_published t0 (committed w) newlink typ ->
  answers 2 w ->
  LinkRepository_FindByKey r ctx (Key newlink) w
  = (Ok (Link_with_Type typ newlink), after_link_lookup (LinkRepository_getDB r ctx) w).
Proof.
  intros Htx Hpub Hans. rewrite FindByKey_find_link.
  destruct (String.eqb_spec (Key newlink) EmptyString) as [He|_].
  - destruct Hpub as (_ & _ & _ & Hk & _). contradiction.
  - apply (find_link_published _ t0); assumption.
Qed.

Lemma published_after_queries (w w1 : World) :
  queries_only w w1 -> txview w1 = txview w /\ committed w1 = committed w /\ now w1 = now w.
Proof. intros (ss & -> & _). repeat split. Qed.

Section ResolvePublished.
Context {T : Type} `{Schema T} `{Resource T}.

Lemma First_with_preloads_published (db : DB) (t0 : Tables) (stored : T)
    (newlink : Link) (typ : Type_) (w : World) :
  txview w = None ->
  link_published t0 (committed w) newlink typ ->
  resource_published t0 (committed w) stored newlink ->
  answers 3 w ->
  First_with_preloads db (TargetID newlink) w
  = (Ok (with_Link (Link_with_Type typ newlink) stored), after_resource_lookup db table w).
Proof.
  intros Htx (Hlinks & Htypes & Hfresh & _ & Hnl & Htid & Hin & Hlt & Huniq)
         (Hrows & Hrfresh & Hsl & _ & Hlid & Htarget) Hans.
  pose proof (view_no_tx db w Htx) as Hv. rewrite Htarget.
  apply (First_with_preloads_new db stored newlink typ (rows t0) (links t0) w);
    rewrite ?Hv; try assumption.
  - intros y Hy. apply Hfresh. exact Hy.
  - unfold type_ids_unique. rewrite Htypes. exact Huniq.
  - rewrite Htypes. exact Hin.
Qed.

Lemma Repository_FindByID_published (msg : string) (r : Repository) (ctx : Context)
    (t0 : Tables) (stored : T) (newlink : Link) (typ : Type_) (w : World) :
  txview w = None ->
  link_published t0 (committed w) newlink typ ->
  resource_published t0 (committed w) stored newlink ->
  answers 3 w ->
  Repository_FindByID msg r ctx (TargetID newlink) w
  = (Ok (with_Link (Link_with_Type typ newlink) stored),
     after_resource_lookup (Repository_getDB r ctx) table w).
Proof.
  intros Htx Hlp Hrp Hans. unfold Repository_FindByID.
  destruct (N.eqb_spec (TargetID newlink) 0) as [Hz|_].
  { destruct Hrp as (_ & _ & _ & Hid & _ & Htarget). congruence. }
  unfold bind.
  rewrite (First_with_preloads_published _ t0 stored newlink typ w Htx Hlp Hrp Hans).
  reflexivity.
Qed.

End ResolvePublished.

Lemma answers_le (n m : nat) (w : World) : (m <= n)%nat -> answers n w -> answers m w.
Proof. intros Hle Ha i Hi. apply Ha. lia. Qed.

Lemma answers_after_link_lookup (db : DB) (n : nat) (w : World) :
  answers (2 + n) w -> answers n (after_link_lookup db w).
Proof. intros Ha. unfold after_link_lookup. apply answers_after. exact Ha. Qed.

Lemma GetCardByKey_published (s : CardService) (ctx : Context) (t0 : Tables)
    (stored : Card) (newlink : Link) (typ : Type_) (w : World) :
  txview w = None ->
  link_published t0 (committed w) newlink typ ->
  resource_published t0 (committed w) stored newlink ->
  Name typ = TypeNameCard ->
  answers 5 w ->
  CardService_GetCardByKey s ctx (Key newlink) w
  = (if visible (now w) (Card_IsEnabled stored) None
     then Ok (with_Link (Link_with_Type typ newlink) stored)
     else Err ErrCardNotFound,
     after_resource_lookup (Repository_db (CardService_repo s)) t_cards
       (after_link_lookup (LinkRepository_getDB (CardService_linkRepo s) ctx) w)).
Proof.
  intros Htx Hlp Hrp Hname Hans.
  set (w1 := after_link_lookup (LinkRepository_getDB (CardService_linkRepo s) ctx) w).
  rewrite (GetCardByKey_checks s ctx (Key newlink) w w1
             (after_resource_lookup (Repository_db (CardService_repo s)) t_cards w1)
             (Link_with_Type typ newlink) (with_Link (Link_with_Type typ newlink) stored)).
  - destruct stored; reflexivity.
  - apply Hlp.
  - apply (FindByKey_published _ ctx t0); [exact Htx|exact Hlp|].
    apply (answers_le 5); [lia|exact Hans].
  - exact Hname.
  - unfold CardRepository_GetCardByID, bind.
    change (TargetID (Link_with_Type typ newlink)) with (TargetID newlink).
    rewrite (First_with_preloads_published _ t0 stored newlink typ w1 Htx Hlp Hrp).
    + reflexivity.
    + apply answers_after_link_lookup. exact Hans.
Qed.

Lemma GetAppointmentByKey_published (s : AppointmentService) (ctx : Context)
    (t0 : Tables) (stored : Appointment) (newlink : Link) (typ : Type_) (w : World) :
  txview w = None ->
  link_published t0 (committed w) newlink typ ->
  resource_published t0 (committed w) stored newlink ->
  Name typ = TypeNameAppointment ->
  answers 5 w ->
  AppointmentService_GetAppointmentByKey s ctx (Key newlink) w
  = (if visible (now w) (Appointment_IsEnabled stored)
                (AppointmentDetail_ExpiresAt (Appointment_Detail stored))
     then Ok (with_Link (Link_with_Type typ newlink) stored)
     else Err ErrAppointmentNotFound,
     after_resource_lookup (Repository_getDB (AppointmentService_repo s) ctx) t_appointments
       (after_link_lookup (LinkService_db (AppointmentService_linkService s) ctx) w)).
Proof.
  intros Htx Hlp Hrp Hname Hans.
  set (w1 := after_link_lookup (LinkService_db (AppointmentService_linkService s) ctx) w).
  rewrite (GetAppointmentByKey_checks s ctx (Key newlink) w w1
             (after_resource_lookup (Repository_getDB (AppointmentService_repo s) ctx)
                t_appointments w1)
             (Link_with_Type typ newlink) (with_Link (Link_with_Type typ newlink) stored)).
  - destruct stored; reflexivity.
  - apply Hlp.
  - apply (GetLinkByKey_published _ ctx t0); [exact Htx|exact Hlp|].
    apply (answers_le 5); [lia|exact Hans].
  - exact Hname.
  - unfold AppointmentRepository_FindByID.
    change (TargetID (Link_with_Type typ newlink)) with (TargetID newlink).
    apply (Repository_FindByID_published _ _ ctx t0 stored newlink typ w1 Htx Hlp Hrp).
    apply answers_after_link_lookup. exact Hans.
Qed.

Lemma GetFormByKey_published (s : FormService) (ctx : Context)
    (t0 : Tables) (stored : Form) (newlink : Link) (typ : Type_) (w : World) :
  txview w = None ->
  link_published t0 (committed w) newlink typ ->
  resource_published t0 (committed w) stored newlink ->
  Name typ = TypeNameForm ->
  answers 5 w ->
  FormService_GetFormByKey s ctx (Key newlink) w
  = (if visible (now w) (Form_IsEnabled stored) (ClosesAt (Form_Detail stored))
     then Ok (with_Link (Link_with_Type typ newlink) stored)
     else Err ErrFormNotFound,
     after_resource_lookup (Repository_getDB (FormService_repo s) ctx) t_forms
       (after_link_lookup (LinkService_db (FormService_linkService s) ctx) w)).
Proof.
  intros Htx Hlp Hrp Hname Hans.
  set (w1 := after_link_lookup (LinkService_db (FormService_linkService s) ctx) w).
  rewrite (GetFormByKey_checks s ctx (Key newlink) w w1
             (after_resource_lookup (Repository_getDB (FormService_repo s) ctx) t_forms w1)
             (Link_with_Type typ newlink) (with_Link (Link_with_Type typ newlink) stored)).
  - destruct stored; reflexivity.
  - apply Hlp.
  - apply (GetLinkByKey_published _ ctx t0); [exact Htx|exact Hlp|].
    apply (answers_le 5); [lia|exact Hans].
  - exact Hname.
  - unfold FormRepository_FindByID.
    change (TargetID (Link_with_Type typ newlink)) with (TargetID newlink).
    apply (Repository_FindByID_published _ _ ctx t0 stored newlink typ w1 Htx Hlp Hrp).
    apply answers_after_link_lookup. exact Hans.
Qed.
